(** * Ticket lifecycle engine and bulk executor of minisource/ticket

    A shallow embedding of the usecase layer (TicketUsecase, the bulk
    operations of AdminUsecase) and of the repository calls it makes, with
    the properties of the lifecycle engine stated over it.

    Conventions of the embedding.
    - A MongoDB collection is a finite map from the document's [_id] to
      the document; the [_id] is the key and is not repeated in the record.
    - The driver calls themselves succeed: a repository call fails only
      where the data makes it fail (no document, duplicate key).
    - [time.Now()] is an input of every operation ([now]); the identifier
      the server gives to an inserted document is an input as well.
    - Strings stay strings: statuses, priorities and types are Go string
      types with named constants, errors are [errors.New] messages.
    - Go [int] arithmetic wraps at 64 bits; the counters kept by [$inc] in
      the database are unbounded integers.
    - Of a ticket, the fields the usecases read or write are kept;
      attachments, metadata, client address and the like are carried
      through by the code without being looked at and are left out. *)

From Stdlib Require Import ZArith Lia Ascii String.
From Stdlib Require Import Floats.PrimFloat Numbers.Cyclic.Int63.Uint63.
From stdpp Require Import base option list sorting gmap strings.

Local Open Scope string_scope.
Local Open Scope Z_scope.

(** ** Primitive data *)

(** [primitive.ObjectID]: twelve bytes, read as a number. *)
Definition ObjectID : Type := N.
Definition NilObjectID : ObjectID := 0%N.

(** Nanoseconds since the epoch. *)
Definition Timestamp : Type := Z.

Definition hex_digit (c : ascii) : option N :=
  let n := N_of_ascii c in
  if ((48 <=? n) && (n <=? 57))%N then Some (n - 48)%N
  else if ((97 <=? n) && (n <=? 102))%N then Some (n - 87)%N
  else if ((65 <=? n) && (n <=? 70))%N then Some (n - 55)%N
  else None.

Fixpoint hex_decode (s : string) (acc : N) : option N :=
  match s with
  | EmptyString => Some acc
  | String c s' =>
      match hex_digit c with
      | Some d => hex_decode s' (16 * acc + d)%N
      | None => None
      end
  end.

(** [primitive.ObjectIDFromHex]: exactly 24 hexadecimal digits. *)
Definition ObjectIDFromHex (s : string) : option ObjectID :=
  if Nat.eqb (String.length s) 24 then hex_decode s 0%N else None.

(** [id, _ := primitive.ObjectIDFromHex(s)]: the error is dropped and the
    zero identifier is what remains on a malformed string. *)
Definition ObjectIDFromHex_ (s : string) : ObjectID :=
  default NilObjectID (ObjectIDFromHex s).

Definition hex_char (d : N) : ascii :=
  ascii_of_N (if (d <? 10)%N then 48 + d else 87 + d)%N.

Fixpoint hex_encode (n : nat) (v : N) (acc : string) : string :=
  match n with
  | O => acc
  | S n' => hex_encode n' (v / 16)%N (String (hex_char (v mod 16)%N) acc)
  end.

(** [ObjectID.Hex]. *)
Definition Hex (id : ObjectID) : string := hex_encode 24 id "".

(** Go [int] and [time.Duration] are 64-bit two's complement. *)
Definition wrap64 (z : Z) : Z := (z + 2 ^ 63) mod 2 ^ 64 - 2 ^ 63.

Definition Hour : Z := 3600000000000.
Definition Minute : Z := 60000000000.

(** [now.Add(time.Duration(n) * unit)]. *)
Definition add_duration (now : Timestamp) (n unit : Z) : Timestamp :=
  now + wrap64 (n * unit).

(** [float64(n)] for a Go [int]. *)
Definition float64_of_int (z : Z) : float :=
  if z =? - 2 ^ 63
  then PrimFloat.opp (PrimFloat.mul 2 (PrimFloat.of_uint63 (Uint63.of_Z (2 ^ 62))))
  else if z <? 0
  then PrimFloat.opp (PrimFloat.of_uint63 (Uint63.of_Z (- z)))
  else PrimFloat.of_uint63 (Uint63.of_Z z).

(** An [interface{}] as the history stores it: absent or a string (statuses,
    priorities and types are strings in BSON). *)
Inductive Value : Type :=
  | VNil
  | VString (s : string).

(** The result of a usecase call: a value or the error message. *)
Inductive Result (A : Type) : Type :=
  | Ok (a : A)
  | Err (msg : string).
Arguments Ok {A} a.
Arguments Err {A} msg.

(** ** Constants of the models package *)

Definition StatusOpen := "open".
Definition StatusInProgress := "in_progress".
Definition StatusPending := "pending".
Definition StatusOnHold := "on_hold".
Definition StatusResolved := "resolved".
Definition StatusClosed := "closed".
Definition StatusReopened := "reopened".
Definition StatusEscalated := "escalated".
Definition StatusCancelled := "cancelled".

Definition all_statuses : list string :=
  [StatusOpen; StatusInProgress; StatusPending; StatusOnHold; StatusResolved;
   StatusClosed; StatusReopened; StatusEscalated; StatusCancelled].

Definition PriorityLow := "low".
Definition PriorityMedium := "medium".
Definition PriorityHigh := "high".
Definition PriorityUrgent := "urgent".
Definition PriorityCritical := "critical".

Definition SourceWeb := "web".
Definition TypeQuestion := "question".

Definition MessageTypeReply := "reply".
Definition MessageTypeInternalNote := "internal_note".
Definition SenderCustomer := "customer".
Definition SenderAgent := "agent".
Definition AgentStatusAvailable := "available".

(** ** Documents *)

(** models.Ticket, the fields the lifecycle engine and the bulk executor read or write. *)
Module Ticket.
Record t : Type := mk {
  TenantID : string;
  TicketNumber : string;
  Subject : string;
  Description : string;
  Type_ : string;
  Status : string;
  Priority : string;
  Source : string;
  CustomerID : string;
  CustomerName : string;
  CustomerEmail : string;
  DepartmentID : option ObjectID;
  DepartmentName : string;
  CategoryID : option ObjectID;
  CategoryName : string;
  AssignedToID : string;
  AssignedToName : string;
  AssignedToEmail : string;
  AssignedAt : option Timestamp;
  AssignedByID : string;
  SLAPolicyID : option ObjectID;
  FirstResponseDue : option Timestamp;
  ResolutionDue : option Timestamp;
  FirstResponsedAt : option Timestamp;
  Tags : list string;
  CustomFields : list (string * string);
  MessageCount : Z;
  InternalNotes : Z;
  ReopenCount : Z;
  SatisfactionRating : option Z;
  SatisfactionComment : string;
  RatedAt : option Timestamp;
  CCEmails : list string;
  CreatedAt : Timestamp;
  UpdatedAt : Timestamp;
  ResolvedAt : option Timestamp;
  ClosedAt : option Timestamp;
  DeletedAt : option Timestamp;
  IsDeleted : bool;
  DeletedBy : string;
  LastActivityAt : Timestamp;
  LastCustomerReplyAt : option Timestamp;
  LastAgentReplyAt : option Timestamp
}.
Definition set_TenantID (v : string) (r : t) : t :=
  mk v (TicketNumber r) (Subject r) (Description r) (Type_ r) (Status r)
     (Priority r) (Source r) (CustomerID r) (CustomerName r) (CustomerEmail
     r) (DepartmentID r) (DepartmentName r) (CategoryID r) (CategoryName r)
     (AssignedToID r) (AssignedToName r) (AssignedToEmail r) (AssignedAt r)
     (AssignedByID r) (SLAPolicyID r) (FirstResponseDue r) (ResolutionDue r)
     (FirstResponsedAt r) (Tags r) (CustomFields r) (MessageCount r)
     (InternalNotes r) (ReopenCount r) (SatisfactionRating r)
     (SatisfactionComment r) (RatedAt r) (CCEmails r) (CreatedAt r)
     (UpdatedAt r) (ResolvedAt r) (ClosedAt r) (DeletedAt r) (IsDeleted r)
     (DeletedBy r) (LastActivityAt r) (LastCustomerReplyAt r)
     (LastAgentReplyAt r).
Definition set_TicketNumber (v : string) (r : t) : t :=
  mk (TenantID r) v (Subject r) (Description r) (Type_ r) (Status r)
     (Priority r) (Source r) (CustomerID r) (CustomerName r) (CustomerEmail
     r) (DepartmentID r) (DepartmentName r) (CategoryID r) (CategoryName r)
     (AssignedToID r) (AssignedToName r) (AssignedToEmail r) (AssignedAt r)
     (AssignedByID r) (SLAPolicyID r) (FirstResponseDue r) (ResolutionDue r)
     (FirstResponsedAt r) (Tags r) (CustomFields r) (MessageCount r)
     (InternalNotes r) (ReopenCount r) (SatisfactionRating r)
     (SatisfactionComment r) (RatedAt r) (CCEmails r) (CreatedAt r)
     (UpdatedAt r) (ResolvedAt r) (ClosedAt r) (DeletedAt r) (IsDeleted r)
     (DeletedBy r) (LastActivityAt r) (LastCustomerReplyAt r)
     (LastAgentReplyAt r).
Definition set_Subject (v : string) (r : t) : t :=
  mk (TenantID r) (TicketNumber r) v (Description r) (Type_ r) (Status r)
     (Priority r) (Source r) (CustomerID r) (CustomerName r) (CustomerEmail
     r) (DepartmentID r) (DepartmentName r) (CategoryID r) (CategoryName r)
     (AssignedToID r) (AssignedToName r) (AssignedToEmail r) (AssignedAt r)
     (AssignedByID r) (SLAPolicyID r) (FirstResponseDue r) (ResolutionDue r)
     (FirstResponsedAt r) (Tags r) (CustomFields r) (MessageCount r)
     (InternalNotes r) (ReopenCount r) (SatisfactionRating r)
     (SatisfactionComment r) (RatedAt r) (CCEmails r) (CreatedAt r)
     (UpdatedAt r) (ResolvedAt r) (ClosedAt r) (DeletedAt r) (IsDeleted r)
     (DeletedBy r) (LastActivityAt r) (LastCustomerReplyAt r)
     (LastAgentReplyAt r).
Definition set_Description (v : string) (r : t) : t :=
  mk (TenantID r) (TicketNumber r) (Subject r) v (Type_ r) (Status r)
     (Priority r) (Source r) (CustomerID r) (CustomerName r) (CustomerEmail
     r) (DepartmentID r) (DepartmentName r) (CategoryID r) (CategoryName r)
     (AssignedToID r) (AssignedToName r) (AssignedToEmail r) (AssignedAt r)
     (AssignedByID r) (SLAPolicyID r) (FirstResponseDue r) (ResolutionDue r)
     (FirstResponsedAt r) (Tags r) (CustomFields r) (MessageCount r)
     (InternalNotes r) (ReopenCount r) (SatisfactionRating r)
     (SatisfactionComment r) (RatedAt r) (CCEmails r) (CreatedAt r)
     (UpdatedAt r) (ResolvedAt r) (ClosedAt r) (DeletedAt r) (IsDeleted r)
     (DeletedBy r) (LastActivityAt r) (LastCustomerReplyAt r)
     (LastAgentReplyAt r).
Definition set_Type_ (v : string) (r : t) : t :=
  mk (TenantID r) (TicketNumber r) (Subject r) (Description r) v (Status r)
     (Priority r) (Source r) (CustomerID r) (CustomerName r) (CustomerEmail
     r) (DepartmentID r) (DepartmentName r) (CategoryID r) (CategoryName r)
     (AssignedToID r) (AssignedToName r) (AssignedToEmail r) (AssignedAt r)
     (AssignedByID r) (SLAPolicyID r) (FirstResponseDue r) (ResolutionDue r)
     (FirstResponsedAt r) (Tags r) (CustomFields r) (MessageCount r)
     (InternalNotes r) (ReopenCount r) (SatisfactionRating r)
     (SatisfactionComment r) (RatedAt r) (CCEmails r) (CreatedAt r)
     (UpdatedAt r) (ResolvedAt r) (ClosedAt r) (DeletedAt r) (IsDeleted r)
     (DeletedBy r) (LastActivityAt r) (LastCustomerReplyAt r)
     (LastAgentReplyAt r).
Definition set_Status (v : string) (r : t) : t :=
  mk (TenantID r) (TicketNumber r) (Subject r) (Description r) (Type_ r) v
     (Priority r) (Source r) (CustomerID r) (CustomerName r) (CustomerEmail
     r) (DepartmentID r) (DepartmentName r) (CategoryID r) (CategoryName r)
     (AssignedToID r) (AssignedToName r) (AssignedToEmail r) (AssignedAt r)
     (AssignedByID r) (SLAPolicyID r) (FirstResponseDue r) (ResolutionDue r)
     (FirstResponsedAt r) (Tags r) (CustomFields r) (MessageCount r)
     (InternalNotes r) (ReopenCount r) (SatisfactionRating r)
     (SatisfactionComment r) (RatedAt r) (CCEmails r) (CreatedAt r)
     (UpdatedAt r) (ResolvedAt r) (ClosedAt r) (DeletedAt r) (IsDeleted r)
     (DeletedBy r) (LastActivityAt r) (LastCustomerReplyAt r)
     (LastAgentReplyAt r).
Definition set_Priority (v : string) (r : t) : t :=
  mk (TenantID r) (TicketNumber r) (Subject r) (Description r) (Type_ r)
     (Status r) v (Source r) (CustomerID r) (CustomerName r) (CustomerEmail
     r) (DepartmentID r) (DepartmentName r) (CategoryID r) (CategoryName r)
     (AssignedToID r) (AssignedToName r) (AssignedToEmail r) (AssignedAt r)
     (AssignedByID r) (SLAPolicyID r) (FirstResponseDue r) (ResolutionDue r)
     (FirstResponsedAt r) (Tags r) (CustomFields r) (MessageCount r)
     (InternalNotes r) (ReopenCount r) (SatisfactionRating r)
     (SatisfactionComment r) (RatedAt r) (CCEmails r) (CreatedAt r)
     (UpdatedAt r) (ResolvedAt r) (ClosedAt r) (DeletedAt r) (IsDeleted r)
     (DeletedBy r) (LastActivityAt r) (LastCustomerReplyAt r)
     (LastAgentReplyAt r).
Definition set_Source (v : string) (r : t) : t :=
  mk (TenantID r) (TicketNumber r) (Subject r) (Description r) (Type_ r)
     (Status r) (Priority r) v (CustomerID r) (CustomerName r)
     (CustomerEmail r) (DepartmentID r) (DepartmentName r) (CategoryID r)
     (CategoryName r) (AssignedToID r) (AssignedToName r) (AssignedToEmail
     r) (AssignedAt r) (AssignedByID r) (SLAPolicyID r) (FirstResponseDue r)
     (ResolutionDue r) (FirstResponsedAt r) (Tags r) (CustomFields r)
     (MessageCount r) (InternalNotes r) (ReopenCount r) (SatisfactionRating
     r) (SatisfactionComment r) (RatedAt r) (CCEmails r) (CreatedAt r)
     (UpdatedAt r) (ResolvedAt r) (ClosedAt r) (DeletedAt r) (IsDeleted r)
     (DeletedBy r) (LastActivityAt r) (LastCustomerReplyAt r)
     (LastAgentReplyAt r).
Definition set_CustomerID (v : string) (r : t) : t :=
  mk (TenantID r) (TicketNumber r) (Subject r) (Description r) (Type_ r)
     (Status r) (Priority r) (Source r) v (CustomerName r) (CustomerEmail r)
     (DepartmentID r) (DepartmentName r) (CategoryID r) (CategoryName r)
     (AssignedToID r) (AssignedToName r) (AssignedToEmail r) (AssignedAt r)
     (AssignedByID r) (SLAPolicyID r) (FirstResponseDue r) (ResolutionDue r)
     (FirstResponsedAt r) (Tags r) (CustomFields r) (MessageCount r)
     (InternalNotes r) (ReopenCount r) (SatisfactionRating r)
     (SatisfactionComment r) (RatedAt r) (CCEmails r) (CreatedAt r)
     (UpdatedAt r) (ResolvedAt r) (ClosedAt r) (DeletedAt r) (IsDeleted r)
     (DeletedBy r) (LastActivityAt r) (LastCustomerReplyAt r)
     (LastAgentReplyAt r).
Definition set_CustomerName (v : string) (r : t) : t :=
  mk (TenantID r) (TicketNumber r) (Subject r) (Description r) (Type_ r)
     (Status r) (Priority r) (Source r) (CustomerID r) v (CustomerEmail r)
     (DepartmentID r) (DepartmentName r) (CategoryID r) (CategoryName r)
     (AssignedToID r) (AssignedToName r) (AssignedToEmail r) (AssignedAt r)
     (AssignedByID r) (SLAPolicyID r) (FirstResponseDue r) (ResolutionDue r)
     (FirstResponsedAt r) (Tags r) (CustomFields r) (MessageCount r)
     (InternalNotes r) (ReopenCount r) (SatisfactionRating r)
     (SatisfactionComment r) (RatedAt r) (CCEmails r) (CreatedAt r)
     (UpdatedAt r) (ResolvedAt r) (ClosedAt r) (DeletedAt r) (IsDeleted r)
     (DeletedBy r) (LastActivityAt r) (LastCustomerReplyAt r)
     (LastAgentReplyAt r).
Definition set_CustomerEmail (v : string) (r : t) : t :=
  mk (TenantID r) (TicketNumber r) (Subject r) (Description r) (Type_ r)
     (Status r) (Priority r) (Source r) (CustomerID r) (CustomerName r) v
     (DepartmentID r) (DepartmentName r) (CategoryID r) (CategoryName r)
     (AssignedToID r) (AssignedToName r) (AssignedToEmail r) (AssignedAt r)
     (AssignedByID r) (SLAPolicyID r) (FirstResponseDue r) (ResolutionDue r)
     (FirstResponsedAt r) (Tags r) (CustomFields r) (MessageCount r)
     (InternalNotes r) (ReopenCount r) (SatisfactionRating r)
     (SatisfactionComment r) (RatedAt r) (CCEmails r) (CreatedAt r)
     (UpdatedAt r) (ResolvedAt r) (ClosedAt r) (DeletedAt r) (IsDeleted r)
     (DeletedBy r) (LastActivityAt r) (LastCustomerReplyAt r)
     (LastAgentReplyAt r).
Definition set_DepartmentID (v : option ObjectID) (r : t) : t :=
  mk (TenantID r) (TicketNumber r) (Subject r) (Description r) (Type_ r)
     (Status r) (Priority r) (Source r) (CustomerID r) (CustomerName r)
     (CustomerEmail r) v (DepartmentName r) (CategoryID r) (CategoryName r)
     (AssignedToID r) (AssignedToName r) (AssignedToEmail r) (AssignedAt r)
     (AssignedByID r) (SLAPolicyID r) (FirstResponseDue r) (ResolutionDue r)
     (FirstResponsedAt r) (Tags r) (CustomFields r) (MessageCount r)
     (InternalNotes r) (ReopenCount r) (SatisfactionRating r)
     (SatisfactionComment r) (RatedAt r) (CCEmails r) (CreatedAt r)
     (UpdatedAt r) (ResolvedAt r) (ClosedAt r) (DeletedAt r) (IsDeleted r)
     (DeletedBy r) (LastActivityAt r) (LastCustomerReplyAt r)
     (LastAgentReplyAt r).
Definition set_DepartmentName (v : string) (r : t) : t :=
  mk (TenantID r) (TicketNumber r) (Subject r) (Description r) (Type_ r)
     (Status r) (Priority r) (Source r) (CustomerID r) (CustomerName r)
     (CustomerEmail r) (DepartmentID r) v (CategoryID r) (CategoryName r)
     (AssignedToID r) (AssignedToName r) (AssignedToEmail r) (AssignedAt r)
     (AssignedByID r) (SLAPolicyID r) (FirstResponseDue r) (ResolutionDue r)
     (FirstResponsedAt r) (Tags r) (CustomFields r) (MessageCount r)
     (InternalNotes r) (ReopenCount r) (SatisfactionRating r)
     (SatisfactionComment r) (RatedAt r) (CCEmails r) (CreatedAt r)
     (UpdatedAt r) (ResolvedAt r) (ClosedAt r) (DeletedAt r) (IsDeleted r)
     (DeletedBy r) (LastActivityAt r) (LastCustomerReplyAt r)
     (LastAgentReplyAt r).
Definition set_CategoryID (v : option ObjectID) (r : t) : t :=
  mk (TenantID r) (TicketNumber r) (Subject r) (Description r) (Type_ r)
     (Status r) (Priority r) (Source r) (CustomerID r) (CustomerName r)
     (CustomerEmail r) (DepartmentID r) (DepartmentName r) v (CategoryName
     r) (AssignedToID r) (AssignedToName r) (AssignedToEmail r) (AssignedAt
     r) (AssignedByID r) (SLAPolicyID r) (FirstResponseDue r) (ResolutionDue
     r) (FirstResponsedAt r) (Tags r) (CustomFields r) (MessageCount r)
     (InternalNotes r) (ReopenCount r) (SatisfactionRating r)
     (SatisfactionComment r) (RatedAt r) (CCEmails r) (CreatedAt r)
     (UpdatedAt r) (ResolvedAt r) (ClosedAt r) (DeletedAt r) (IsDeleted r)
     (DeletedBy r) (LastActivityAt r) (LastCustomerReplyAt r)
     (LastAgentReplyAt r).
Definition set_CategoryName (v : string) (r : t) : t :=
  mk (TenantID r) (TicketNumber r) (Subject r) (Description r) (Type_ r)
     (Status r) (Priority r) (Source r) (CustomerID r) (CustomerName r)
     (CustomerEmail r) (DepartmentID r) (DepartmentName r) (CategoryID r) v
     (AssignedToID r) (AssignedToName r) (AssignedToEmail r) (AssignedAt r)
     (AssignedByID r) (SLAPolicyID r) (FirstResponseDue r) (ResolutionDue r)
     (FirstResponsedAt r) (Tags r) (CustomFields r) (MessageCount r)
     (InternalNotes r) (ReopenCount r) (SatisfactionRating r)
     (SatisfactionComment r) (RatedAt r) (CCEmails r) (CreatedAt r)
     (UpdatedAt r) (ResolvedAt r) (ClosedAt r) (DeletedAt r) (IsDeleted r)
     (DeletedBy r) (LastActivityAt r) (LastCustomerReplyAt r)
     (LastAgentReplyAt r).
Definition set_AssignedToID (v : string) (r : t) : t :=
  mk (TenantID r) (TicketNumber r) (Subject r) (Description r) (Type_ r)
     (Status r) (Priority r) (Source r) (CustomerID r) (CustomerName r)
     (CustomerEmail r) (DepartmentID r) (DepartmentName r) (CategoryID r)
     (CategoryName r) v (AssignedToName r) (AssignedToEmail r) (AssignedAt
     r) (AssignedByID r) (SLAPolicyID r) (FirstResponseDue r) (ResolutionDue
     r) (FirstResponsedAt r) (Tags r) (CustomFields r) (MessageCount r)
     (InternalNotes r) (ReopenCount r) (SatisfactionRating r)
     (SatisfactionComment r) (RatedAt r) (CCEmails r) (CreatedAt r)
     (UpdatedAt r) (ResolvedAt r) (ClosedAt r) (DeletedAt r) (IsDeleted r)
     (DeletedBy r) (LastActivityAt r) (LastCustomerReplyAt r)
     (LastAgentReplyAt r).
Definition set_AssignedToName (v : string) (r : t) : t :=
  mk (TenantID r) (TicketNumber r) (Subject r) (Description r) (Type_ r)
     (Status r) (Priority r) (Source r) (CustomerID r) (CustomerName r)
     (CustomerEmail r) (DepartmentID r) (DepartmentName r) (CategoryID r)
     (CategoryName r) (AssignedToID r) v (AssignedToEmail r) (AssignedAt r)
     (AssignedByID r) (SLAPolicyID r) (FirstResponseDue r) (ResolutionDue r)
     (FirstResponsedAt r) (Tags r) (CustomFields r) (MessageCount r)
     (InternalNotes r) (ReopenCount r) (SatisfactionRating r)
     (SatisfactionComment r) (RatedAt r) (CCEmails r) (CreatedAt r)
     (UpdatedAt r) (ResolvedAt r) (ClosedAt r) (DeletedAt r) (IsDeleted r)
     (DeletedBy r) (LastActivityAt r) (LastCustomerReplyAt r)
     (LastAgentReplyAt r).
Definition set_AssignedToEmail (v : string) (r : t) : t :=
  mk (TenantID r) (TicketNumber r) (Subject r) (Description r) (Type_ r)
     (Status r) (Priority r) (Source r) (CustomerID r) (CustomerName r)
     (CustomerEmail r) (DepartmentID r) (DepartmentName r) (CategoryID r)
     (CategoryName r) (AssignedToID r) (AssignedToName r) v (AssignedAt r)
     (AssignedByID r) (SLAPolicyID r) (FirstResponseDue r) (ResolutionDue r)
     (FirstResponsedAt r) (Tags r) (CustomFields r) (MessageCount r)
     (InternalNotes r) (ReopenCount r) (SatisfactionRating r)
     (SatisfactionComment r) (RatedAt r) (CCEmails r) (CreatedAt r)
     (UpdatedAt r) (ResolvedAt r) (ClosedAt r) (DeletedAt r) (IsDeleted r)
     (DeletedBy r) (LastActivityAt r) (LastCustomerReplyAt r)
     (LastAgentReplyAt r).
Definition set_AssignedAt (v : option Timestamp) (r : t) : t :=
  mk (TenantID r) (TicketNumber r) (Subject r) (Description r) (Type_ r)
     (Status r) (Priority r) (Source r) (CustomerID r) (CustomerName r)
     (CustomerEmail r) (DepartmentID r) (DepartmentName r) (CategoryID r)
     (CategoryName r) (AssignedToID r) (AssignedToName r) (AssignedToEmail
     r) v (AssignedByID r) (SLAPolicyID r) (FirstResponseDue r)
     (ResolutionDue r) (FirstResponsedAt r) (Tags r) (CustomFields r)
     (MessageCount r) (InternalNotes r) (ReopenCount r) (SatisfactionRating
     r) (SatisfactionComment r) (RatedAt r) (CCEmails r) (CreatedAt r)
     (UpdatedAt r) (ResolvedAt r) (ClosedAt r) (DeletedAt r) (IsDeleted r)
     (DeletedBy r) (LastActivityAt r) (LastCustomerReplyAt r)
     (LastAgentReplyAt r).
Definition set_AssignedByID (v : string) (r : t) : t :=
  mk (TenantID r) (TicketNumber r) (Subject r) (Description r) (Type_ r)
     (Status r) (Priority r) (Source r) (CustomerID r) (CustomerName r)
     (CustomerEmail r) (DepartmentID r) (DepartmentName r) (CategoryID r)
     (CategoryName r) (AssignedToID r) (AssignedToName r) (AssignedToEmail
     r) (AssignedAt r) v (SLAPolicyID r) (FirstResponseDue r) (ResolutionDue
     r) (FirstResponsedAt r) (Tags r) (CustomFields r) (MessageCount r)
     (InternalNotes r) (ReopenCount r) (SatisfactionRating r)
     (SatisfactionComment r) (RatedAt r) (CCEmails r) (CreatedAt r)
     (UpdatedAt r) (ResolvedAt r) (ClosedAt r) (DeletedAt r) (IsDeleted r)
     (DeletedBy r) (LastActivityAt r) (LastCustomerReplyAt r)
     (LastAgentReplyAt r).
Definition set_SLAPolicyID (v : option ObjectID) (r : t) : t :=
  mk (TenantID r) (TicketNumber r) (Subject r) (Description r) (Type_ r)
     (Status r) (Priority r) (Source r) (CustomerID r) (CustomerName r)
     (CustomerEmail r) (DepartmentID r) (DepartmentName r) (CategoryID r)
     (CategoryName r) (AssignedToID r) (AssignedToName r) (AssignedToEmail
     r) (AssignedAt r) (AssignedByID r) v (FirstResponseDue r)
     (ResolutionDue r) (FirstResponsedAt r) (Tags r) (CustomFields r)
     (MessageCount r) (InternalNotes r) (ReopenCount r) (SatisfactionRating
     r) (SatisfactionComment r) (RatedAt r) (CCEmails r) (CreatedAt r)
     (UpdatedAt r) (ResolvedAt r) (ClosedAt r) (DeletedAt r) (IsDeleted r)
     (DeletedBy r) (LastActivityAt r) (LastCustomerReplyAt r)
     (LastAgentReplyAt r).
Definition set_FirstResponseDue (v : option Timestamp) (r : t) : t :=
  mk (TenantID r) (TicketNumber r) (Subject r) (Description r) (Type_ r)
     (Status r) (Priority r) (Source r) (CustomerID r) (CustomerName r)
     (CustomerEmail r) (DepartmentID r) (DepartmentName r) (CategoryID r)
     (CategoryName r) (AssignedToID r) (AssignedToName r) (AssignedToEmail
     r) (AssignedAt r) (AssignedByID r) (SLAPolicyID r) v (ResolutionDue r)
     (FirstResponsedAt r) (Tags r) (CustomFields r) (MessageCount r)
     (InternalNotes r) (ReopenCount r) (SatisfactionRating r)
     (SatisfactionComment r) (RatedAt r) (CCEmails r) (CreatedAt r)
     (UpdatedAt r) (ResolvedAt r) (ClosedAt r) (DeletedAt r) (IsDeleted r)
     (DeletedBy r) (LastActivityAt r) (LastCustomerReplyAt r)
     (LastAgentReplyAt r).
Definition set_ResolutionDue (v : option Timestamp) (r : t) : t :=
  mk (TenantID r) (TicketNumber r) (Subject r) (Description r) (Type_ r)
     (Status r) (Priority r) (Source r) (CustomerID r) (CustomerName r)
     (CustomerEmail r) (DepartmentID r) (DepartmentName r) (CategoryID r)
     (CategoryName r) (AssignedToID r) (AssignedToName r) (AssignedToEmail
     r) (AssignedAt r) (AssignedByID r) (SLAPolicyID r) (FirstResponseDue r)
     v (FirstResponsedAt r) (Tags r) (CustomFields r) (MessageCount r)
     (InternalNotes r) (ReopenCount r) (SatisfactionRating r)
     (SatisfactionComment r) (RatedAt r) (CCEmails r) (CreatedAt r)
     (UpdatedAt r) (ResolvedAt r) (ClosedAt r) (DeletedAt r) (IsDeleted r)
     (DeletedBy r) (LastActivityAt r) (LastCustomerReplyAt r)
     (LastAgentReplyAt r).
Definition set_FirstResponsedAt (v : option Timestamp) (r : t) : t :=
  mk (TenantID r) (TicketNumber r) (Subject r) (Description r) (Type_ r)
     (Status r) (Priority r) (Source r) (CustomerID r) (CustomerName r)
     (CustomerEmail r) (DepartmentID r) (DepartmentName r) (CategoryID r)
     (CategoryName r) (AssignedToID r) (AssignedToName r) (AssignedToEmail
     r) (AssignedAt r) (AssignedByID r) (SLAPolicyID r) (FirstResponseDue r)
     (ResolutionDue r) v (Tags r) (CustomFields r) (MessageCount r)
     (InternalNotes r) (ReopenCount r) (SatisfactionRating r)
     (SatisfactionComment r) (RatedAt r) (CCEmails r) (CreatedAt r)
     (UpdatedAt r) (ResolvedAt r) (ClosedAt r) (DeletedAt r) (IsDeleted r)
     (DeletedBy r) (LastActivityAt r) (LastCustomerReplyAt r)
     (LastAgentReplyAt r).
Definition set_Tags (v : list string) (r : t) : t :=
  mk (TenantID r) (TicketNumber r) (Subject r) (Description r) (Type_ r)
     (Status r) (Priority r) (Source r) (CustomerID r) (CustomerName r)
     (CustomerEmail r) (DepartmentID r) (DepartmentName r) (CategoryID r)
     (CategoryName r) (AssignedToID r) (AssignedToName r) (AssignedToEmail
     r) (AssignedAt r) (AssignedByID r) (SLAPolicyID r) (FirstResponseDue r)
     (ResolutionDue r) (FirstResponsedAt r) v (CustomFields r) (MessageCount
     r) (InternalNotes r) (ReopenCount r) (SatisfactionRating r)
     (SatisfactionComment r) (RatedAt r) (CCEmails r) (CreatedAt r)
     (UpdatedAt r) (ResolvedAt r) (ClosedAt r) (DeletedAt r) (IsDeleted r)
     (DeletedBy r) (LastActivityAt r) (LastCustomerReplyAt r)
     (LastAgentReplyAt r).
Definition set_CustomFields (v : list (string * string)) (r : t) : t :=
  mk (TenantID r) (TicketNumber r) (Subject r) (Description r) (Type_ r)
     (Status r) (Priority r) (Source r) (CustomerID r) (CustomerName r)
     (CustomerEmail r) (DepartmentID r) (DepartmentName r) (CategoryID r)
     (CategoryName r) (AssignedToID r) (AssignedToName r) (AssignedToEmail
     r) (AssignedAt r) (AssignedByID r) (SLAPolicyID r) (FirstResponseDue r)
     (ResolutionDue r) (FirstResponsedAt r) (Tags r) v (MessageCount r)
     (InternalNotes r) (ReopenCount r) (SatisfactionRating r)
     (SatisfactionComment r) (RatedAt r) (CCEmails r) (CreatedAt r)
     (UpdatedAt r) (ResolvedAt r) (ClosedAt r) (DeletedAt r) (IsDeleted r)
     (DeletedBy r) (LastActivityAt r) (LastCustomerReplyAt r)
     (LastAgentReplyAt r).
Definition set_MessageCount (v : Z) (r : t) : t :=
  mk (TenantID r) (TicketNumber r) (Subject r) (Description r) (Type_ r)
     (Status r) (Priority r) (Source r) (CustomerID r) (CustomerName r)
     (CustomerEmail r) (DepartmentID r) (DepartmentName r) (CategoryID r)
     (CategoryName r) (AssignedToID r) (AssignedToName r) (AssignedToEmail
     r) (AssignedAt r) (AssignedByID r) (SLAPolicyID r) (FirstResponseDue r)
     (ResolutionDue r) (FirstResponsedAt r) (Tags r) (CustomFields r) v
     (InternalNotes r) (ReopenCount r) (SatisfactionRating r)
     (SatisfactionComment r) (RatedAt r) (CCEmails r) (CreatedAt r)
     (UpdatedAt r) (ResolvedAt r) (ClosedAt r) (DeletedAt r) (IsDeleted r)
     (DeletedBy r) (LastActivityAt r) (LastCustomerReplyAt r)
     (LastAgentReplyAt r).
Definition set_InternalNotes (v : Z) (r : t) : t :=
  mk (TenantID r) (TicketNumber r) (Subject r) (Description r) (Type_ r)
     (Status r) (Priority r) (Source r) (CustomerID r) (CustomerName r)
     (CustomerEmail r) (DepartmentID r) (DepartmentName r) (CategoryID r)
     (CategoryName r) (AssignedToID r) (AssignedToName r) (AssignedToEmail
     r) (AssignedAt r) (AssignedByID r) (SLAPolicyID r) (FirstResponseDue r)
     (ResolutionDue r) (FirstResponsedAt r) (Tags r) (CustomFields r)
     (MessageCount r) v (ReopenCount r) (SatisfactionRating r)
     (SatisfactionComment r) (RatedAt r) (CCEmails r) (CreatedAt r)
     (UpdatedAt r) (ResolvedAt r) (ClosedAt r) (DeletedAt r) (IsDeleted r)
     (DeletedBy r) (LastActivityAt r) (LastCustomerReplyAt r)
     (LastAgentReplyAt r).
Definition set_ReopenCount (v : Z) (r : t) : t :=
  mk (TenantID r) (TicketNumber r) (Subject r) (Description r) (Type_ r)
     (Status r) (Priority r) (Source r) (CustomerID r) (CustomerName r)
     (CustomerEmail r) (DepartmentID r) (DepartmentName r) (CategoryID r)
     (CategoryName r) (AssignedToID r) (AssignedToName r) (AssignedToEmail
     r) (AssignedAt r) (AssignedByID r) (SLAPolicyID r) (FirstResponseDue r)
     (ResolutionDue r) (FirstResponsedAt r) (Tags r) (CustomFields r)
     (MessageCount r) (InternalNotes r) v (SatisfactionRating r)
     (SatisfactionComment r) (RatedAt r) (CCEmails r) (CreatedAt r)
     (UpdatedAt r) (ResolvedAt r) (ClosedAt r) (DeletedAt r) (IsDeleted r)
     (DeletedBy r) (LastActivityAt r) (LastCustomerReplyAt r)
     (LastAgentReplyAt r).
Definition set_SatisfactionRating (v : option Z) (r : t) : t :=
  mk (TenantID r) (TicketNumber r) (Subject r) (Description r) (Type_ r)
     (Status r) (Priority r) (Source r) (CustomerID r) (CustomerName r)
     (CustomerEmail r) (DepartmentID r) (DepartmentName r) (CategoryID r)
     (CategoryName r) (AssignedToID r) (AssignedToName r) (AssignedToEmail
     r) (AssignedAt r) (AssignedByID r) (SLAPolicyID r) (FirstResponseDue r)
     (ResolutionDue r) (FirstResponsedAt r) (Tags r) (CustomFields r)
     (MessageCount r) (InternalNotes r) (ReopenCount r) v
     (SatisfactionComment r) (RatedAt r) (CCEmails r) (CreatedAt r)
     (UpdatedAt r) (ResolvedAt r) (ClosedAt r) (DeletedAt r) (IsDeleted r)
     (DeletedBy r) (LastActivityAt r) (LastCustomerReplyAt r)
     (LastAgentReplyAt r).
Definition set_SatisfactionComment (v : string) (r : t) : t :=
  mk (TenantID r) (TicketNumber r) (Subject r) (Description r) (Type_ r)
     (Status r) (Priority r) (Source r) (CustomerID r) (CustomerName r)
     (CustomerEmail r) (DepartmentID r) (DepartmentName r) (CategoryID r)
     (CategoryName r) (AssignedToID r) (AssignedToName r) (AssignedToEmail
     r) (AssignedAt r) (AssignedByID r) (SLAPolicyID r) (FirstResponseDue r)
     (ResolutionDue r) (FirstResponsedAt r) (Tags r) (CustomFields r)
     (MessageCount r) (InternalNotes r) (ReopenCount r) (SatisfactionRating
     r) v (RatedAt r) (CCEmails r) (CreatedAt r) (UpdatedAt r) (ResolvedAt
     r) (ClosedAt r) (DeletedAt r) (IsDeleted r) (DeletedBy r)
     (LastActivityAt r) (LastCustomerReplyAt r) (LastAgentReplyAt r).
Definition set_RatedAt (v : option Timestamp) (r : t) : t :=
  mk (TenantID r) (TicketNumber r) (Subject r) (Description r) (Type_ r)
     (Status r) (Priority r) (Source r) (CustomerID r) (CustomerName r)
     (CustomerEmail r) (DepartmentID r) (DepartmentName r) (CategoryID r)
     (CategoryName r) (AssignedToID r) (AssignedToName r) (AssignedToEmail
     r) (AssignedAt r) (AssignedByID r) (SLAPolicyID r) (FirstResponseDue r)
     (ResolutionDue r) (FirstResponsedAt r) (Tags r) (CustomFields r)
     (MessageCount r) (InternalNotes r) (ReopenCount r) (SatisfactionRating
     r) (SatisfactionComment r) v (CCEmails r) (CreatedAt r) (UpdatedAt r)
     (ResolvedAt r) (ClosedAt r) (DeletedAt r) (IsDeleted r) (DeletedBy r)
     (LastActivityAt r) (LastCustomerReplyAt r) (LastAgentReplyAt r).
Definition set_CCEmails (v : list string) (r : t) : t :=
  mk (TenantID r) (TicketNumber r) (Subject r) (Description r) (Type_ r)
     (Status r) (Priority r) (Source r) (CustomerID r) (CustomerName r)
     (CustomerEmail r) (DepartmentID r) (DepartmentName r) (CategoryID r)
     (CategoryName r) (AssignedToID r) (AssignedToName r) (AssignedToEmail
     r) (AssignedAt r) (AssignedByID r) (SLAPolicyID r) (FirstResponseDue r)
     (ResolutionDue r) (FirstResponsedAt r) (Tags r) (CustomFields r)
     (MessageCount r) (InternalNotes r) (ReopenCount r) (SatisfactionRating
     r) (SatisfactionComment r) (RatedAt r) v (CreatedAt r) (UpdatedAt r)
     (ResolvedAt r) (ClosedAt r) (DeletedAt r) (IsDeleted r) (DeletedBy r)
     (LastActivityAt r) (LastCustomerReplyAt r) (LastAgentReplyAt r).
Definition set_CreatedAt (v : Timestamp) (r : t) : t :=
  mk (TenantID r) (TicketNumber r) (Subject r) (Description r) (Type_ r)
     (Status r) (Priority r) (Source r) (CustomerID r) (CustomerName r)
     (CustomerEmail r) (DepartmentID r) (DepartmentName r) (CategoryID r)
     (CategoryName r) (AssignedToID r) (AssignedToName r) (AssignedToEmail
     r) (AssignedAt r) (AssignedByID r) (SLAPolicyID r) (FirstResponseDue r)
     (ResolutionDue r) (FirstResponsedAt r) (Tags r) (CustomFields r)
     (MessageCount r) (InternalNotes r) (ReopenCount r) (SatisfactionRating
     r) (SatisfactionComment r) (RatedAt r) (CCEmails r) v (UpdatedAt r)
     (ResolvedAt r) (ClosedAt r) (DeletedAt r) (IsDeleted r) (DeletedBy r)
     (LastActivityAt r) (LastCustomerReplyAt r) (LastAgentReplyAt r).
Definition set_UpdatedAt (v : Timestamp) (r : t) : t :=
  mk (TenantID r) (TicketNumber r) (Subject r) (Description r) (Type_ r)
     (Status r) (Priority r) (Source r) (CustomerID r) (CustomerName r)
     (CustomerEmail r) (DepartmentID r) (DepartmentName r) (CategoryID r)
     (CategoryName r) (AssignedToID r) (AssignedToName r) (AssignedToEmail
     r) (AssignedAt r) (AssignedByID r) (SLAPolicyID r) (FirstResponseDue r)
     (ResolutionDue r) (FirstResponsedAt r) (Tags r) (CustomFields r)
     (MessageCount r) (InternalNotes r) (ReopenCount r) (SatisfactionRating
     r) (SatisfactionComment r) (RatedAt r) (CCEmails r) (CreatedAt r) v
     (ResolvedAt r) (ClosedAt r) (DeletedAt r) (IsDeleted r) (DeletedBy r)
     (LastActivityAt r) (LastCustomerReplyAt r) (LastAgentReplyAt r).
Definition set_ResolvedAt (v : option Timestamp) (r : t) : t :=
  mk (TenantID r) (TicketNumber r) (Subject r) (Description r) (Type_ r)
     (Status r) (Priority r) (Source r) (CustomerID r) (CustomerName r)
     (CustomerEmail r) (DepartmentID r) (DepartmentName r) (CategoryID r)
     (CategoryName r) (AssignedToID r) (AssignedToName r) (AssignedToEmail
     r) (AssignedAt r) (AssignedByID r) (SLAPolicyID r) (FirstResponseDue r)
     (ResolutionDue r) (FirstResponsedAt r) (Tags r) (CustomFields r)
     (MessageCount r) (InternalNotes r) (ReopenCount r) (SatisfactionRating
     r) (SatisfactionComment r) (RatedAt r) (CCEmails r) (CreatedAt r)
     (UpdatedAt r) v (ClosedAt r) (DeletedAt r) (IsDeleted r) (DeletedBy r)
     (LastActivityAt r) (LastCustomerReplyAt r) (LastAgentReplyAt r).
Definition set_ClosedAt (v : option Timestamp) (r : t) : t :=
  mk (TenantID r) (TicketNumber r) (Subject r) (Description r) (Type_ r)
     (Status r) (Priority r) (Source r) (CustomerID r) (CustomerName r)
     (CustomerEmail r) (DepartmentID r) (DepartmentName r) (CategoryID r)
     (CategoryName r) (AssignedToID r) (AssignedToName r) (AssignedToEmail
     r) (AssignedAt r) (AssignedByID r) (SLAPolicyID r) (FirstResponseDue r)
     (ResolutionDue r) (FirstResponsedAt r) (Tags r) (CustomFields r)
     (MessageCount r) (InternalNotes r) (ReopenCount r) (SatisfactionRating
     r) (SatisfactionComment r) (RatedAt r) (CCEmails r) (CreatedAt r)
     (UpdatedAt r) (ResolvedAt r) v (DeletedAt r) (IsDeleted r) (DeletedBy
     r) (LastActivityAt r) (LastCustomerReplyAt r) (LastAgentReplyAt r).
Definition set_DeletedAt (v : option Timestamp) (r : t) : t :=
  mk (TenantID r) (TicketNumber r) (Subject r) (Description r) (Type_ r)
     (Status r) (Priority r) (Source r) (CustomerID r) (CustomerName r)
     (CustomerEmail r) (DepartmentID r) (DepartmentName r) (CategoryID r)
     (CategoryName r) (AssignedToID r) (AssignedToName r) (AssignedToEmail
     r) (AssignedAt r) (AssignedByID r) (SLAPolicyID r) (FirstResponseDue r)
     (ResolutionDue r) (FirstResponsedAt r) (Tags r) (CustomFields r)
     (MessageCount r) (InternalNotes r) (ReopenCount r) (SatisfactionRating
     r) (SatisfactionComment r) (RatedAt r) (CCEmails r) (CreatedAt r)
     (UpdatedAt r) (ResolvedAt r) (ClosedAt r) v (IsDeleted r) (DeletedBy r)
     (LastActivityAt r) (LastCustomerReplyAt r) (LastAgentReplyAt r).
Definition set_IsDeleted (v : bool) (r : t) : t :=
  mk (TenantID r) (TicketNumber r) (Subject r) (Description r) (Type_ r)
     (Status r) (Priority r) (Source r) (CustomerID r) (CustomerName r)
     (CustomerEmail r) (DepartmentID r) (DepartmentName r) (CategoryID r)
     (CategoryName r) (AssignedToID r) (AssignedToName r) (AssignedToEmail
     r) (AssignedAt r) (AssignedByID r) (SLAPolicyID r) (FirstResponseDue r)
     (ResolutionDue r) (FirstResponsedAt r) (Tags r) (CustomFields r)
     (MessageCount r) (InternalNotes r) (ReopenCount r) (SatisfactionRating
     r) (SatisfactionComment r) (RatedAt r) (CCEmails r) (CreatedAt r)
     (UpdatedAt r) (ResolvedAt r) (ClosedAt r) (DeletedAt r) v (DeletedBy r)
     (LastActivityAt r) (LastCustomerReplyAt r) (LastAgentReplyAt r).
Definition set_DeletedBy (v : string) (r : t) : t :=
  mk (TenantID r) (TicketNumber r) (Subject r) (Description r) (Type_ r)
     (Status r) (Priority r) (Source r) (CustomerID r) (CustomerName r)
     (CustomerEmail r) (DepartmentID r) (DepartmentName r) (CategoryID r)
     (CategoryName r) (AssignedToID r) (AssignedToName r) (AssignedToEmail
     r) (AssignedAt r) (AssignedByID r) (SLAPolicyID r) (FirstResponseDue r)
     (ResolutionDue r) (FirstResponsedAt r) (Tags r) (CustomFields r)
     (MessageCount r) (InternalNotes r) (ReopenCount r) (SatisfactionRating
     r) (SatisfactionComment r) (RatedAt r) (CCEmails r) (CreatedAt r)
     (UpdatedAt r) (ResolvedAt r) (ClosedAt r) (DeletedAt r) (IsDeleted r) v
     (LastActivityAt r) (LastCustomerReplyAt r) (LastAgentReplyAt r).
Definition set_LastActivityAt (v : Timestamp) (r : t) : t :=
  mk (TenantID r) (TicketNumber r) (Subject r) (Description r) (Type_ r)
     (Status r) (Priority r) (Source r) (CustomerID r) (CustomerName r)
     (CustomerEmail r) (DepartmentID r) (DepartmentName r) (CategoryID r)
     (CategoryName r) (AssignedToID r) (AssignedToName r) (AssignedToEmail
     r) (AssignedAt r) (AssignedByID r) (SLAPolicyID r) (FirstResponseDue r)
     (ResolutionDue r) (FirstResponsedAt r) (Tags r) (CustomFields r)
     (MessageCount r) (InternalNotes r) (ReopenCount r) (SatisfactionRating
     r) (SatisfactionComment r) (RatedAt r) (CCEmails r) (CreatedAt r)
     (UpdatedAt r) (ResolvedAt r) (ClosedAt r) (DeletedAt r) (IsDeleted r)
     (DeletedBy r) v (LastCustomerReplyAt r) (LastAgentReplyAt r).
Definition set_LastCustomerReplyAt (v : option Timestamp) (r : t) : t :=
  mk (TenantID r) (TicketNumber r) (Subject r) (Description r) (Type_ r)
     (Status r) (Priority r) (Source r) (CustomerID r) (CustomerName r)
     (CustomerEmail r) (DepartmentID r) (DepartmentName r) (CategoryID r)
     (CategoryName r) (AssignedToID r) (AssignedToName r) (AssignedToEmail
     r) (AssignedAt r) (AssignedByID r) (SLAPolicyID r) (FirstResponseDue r)
     (ResolutionDue r) (FirstResponsedAt r) (Tags r) (CustomFields r)
     (MessageCount r) (InternalNotes r) (ReopenCount r) (SatisfactionRating
     r) (SatisfactionComment r) (RatedAt r) (CCEmails r) (CreatedAt r)
     (UpdatedAt r) (ResolvedAt r) (ClosedAt r) (DeletedAt r) (IsDeleted r)
     (DeletedBy r) (LastActivityAt r) v (LastAgentReplyAt r).
Definition set_LastAgentReplyAt (v : option Timestamp) (r : t) : t :=
  mk (TenantID r) (TicketNumber r) (Subject r) (Description r) (Type_ r)
     (Status r) (Priority r) (Source r) (CustomerID r) (CustomerName r)
     (CustomerEmail r) (DepartmentID r) (DepartmentName r) (CategoryID r)
     (CategoryName r) (AssignedToID r) (AssignedToName r) (AssignedToEmail
     r) (AssignedAt r) (AssignedByID r) (SLAPolicyID r) (FirstResponseDue r)
     (ResolutionDue r) (FirstResponsedAt r) (Tags r) (CustomFields r)
     (MessageCount r) (InternalNotes r) (ReopenCount r) (SatisfactionRating
     r) (SatisfactionComment r) (RatedAt r) (CCEmails r) (CreatedAt r)
     (UpdatedAt r) (ResolvedAt r) (ClosedAt r) (DeletedAt r) (IsDeleted r)
     (DeletedBy r) (LastActivityAt r) (LastCustomerReplyAt r) v.
End Ticket.

(** models.Agent (capacity, workload and rating fields). *)
Module Agent.
Record t : Type := mk {
  TenantID : string;
  UserID : string;
  Name : string;
  Email : string;
  DepartmentIDs : list ObjectID;
  Status : string;
  MaxTickets : Z;
  CurrentTickets : Z;
  TicketsToday : Z;
  AvgRating : float;
  TotalResolved : Z;
  UpdatedAt : Timestamp;
  IsDeleted : bool;
  IsActive : bool
}.
Definition set_CurrentTickets (v : Z) (r : t) : t :=
  mk (TenantID r) (UserID r) (Name r) (Email r) (DepartmentIDs r) (Status r)
     (MaxTickets r) v (TicketsToday r) (AvgRating r) (TotalResolved r)
     (UpdatedAt r) (IsDeleted r) (IsActive r).
Definition set_TicketsToday (v : Z) (r : t) : t :=
  mk (TenantID r) (UserID r) (Name r) (Email r) (DepartmentIDs r) (Status r)
     (MaxTickets r) (CurrentTickets r) v (AvgRating r) (TotalResolved r)
     (UpdatedAt r) (IsDeleted r) (IsActive r).
Definition set_AvgRating (v : float) (r : t) : t :=
  mk (TenantID r) (UserID r) (Name r) (Email r) (DepartmentIDs r) (Status r)
     (MaxTickets r) (CurrentTickets r) (TicketsToday r) v (TotalResolved r)
     (UpdatedAt r) (IsDeleted r) (IsActive r).
Definition set_TotalResolved (v : Z) (r : t) : t :=
  mk (TenantID r) (UserID r) (Name r) (Email r) (DepartmentIDs r) (Status r)
     (MaxTickets r) (CurrentTickets r) (TicketsToday r) (AvgRating r) v
     (UpdatedAt r) (IsDeleted r) (IsActive r).
Definition set_UpdatedAt (v : Timestamp) (r : t) : t :=
  mk (TenantID r) (UserID r) (Name r) (Email r) (DepartmentIDs r) (Status r)
     (MaxTickets r) (CurrentTickets r) (TicketsToday r) (AvgRating r)
     (TotalResolved r) v (IsDeleted r) (IsActive r).
End Agent.

(** models.Department (name, SLA policy reference and ticket counters). *)
Module Department.
Record t : Type := mk {
  TenantID : string;
  Name : string;
  SLAPolicyID : option ObjectID;
  OpenTickets : Z;
  TotalTickets : Z;
  UpdatedAt : Timestamp;
  IsDeleted : bool
}.
Definition set_OpenTickets (v : Z) (r : t) : t :=
  mk (TenantID r) (Name r) (SLAPolicyID r) v (TotalTickets r) (UpdatedAt r)
     (IsDeleted r).
Definition set_TotalTickets (v : Z) (r : t) : t :=
  mk (TenantID r) (Name r) (SLAPolicyID r) (OpenTickets r) v (UpdatedAt r)
     (IsDeleted r).
Definition set_UpdatedAt (v : Timestamp) (r : t) : t :=
  mk (TenantID r) (Name r) (SLAPolicyID r) (OpenTickets r) (TotalTickets r)
     v (IsDeleted r).
End Department.

(** models.Category. *)
Module Category.
Record t : Type := mk {
  Name : string;
  IsDeleted : bool
}.
End Category.

(** models.SLAPriority. *)
Module SLAPriority.
Record t : Type := mk {
  Priority : string;
  FirstResponseMins : Z;
  ResolutionMins : Z
}.
End SLAPriority.

(** models.SLAPolicy. *)
Module SLAPolicy.
Record t : Type := mk {
  TenantID : string;
  IsDefault : bool;
  IsActive : bool;
  Priorities : list SLAPriority.t
}.
End SLAPolicy.

(** models.TicketHistory. *)
Module TicketHistory.
Record t : Type := mk {
  TicketID : ObjectID;
  TenantID : string;
  Action : string;
  Field : string;
  OldValue : Value;
  NewValue : Value;
  ChangedBy : string;
  ChangedByName : string;
  Comment : string;
  CreatedAt : Timestamp
}.
End TicketHistory.

(** models.TicketMessage. *)
Module TicketMessage.
Record t : Type := mk {
  TicketID : ObjectID;
  TenantID : string;
  Type_ : string;
  Content : string;
  SenderType : string;
  SenderID : string;
  SenderName : string;
  SenderEmail : string;
  IsPrivate : bool;
  CreatedAt : Timestamp
}.
End TicketMessage.

(** config.Config: the SLA and ticket settings the usecases read. *)
Module Config.
Record t : Type := mk {
  SLA_Enabled : bool;
  SLA_DefaultResponseHours : Z;
  SLA_DefaultResolveHours : Z;
  Ticket_AutoAssignEnabled : bool
}.
End Config.

(** The collections of the database the repositories work on. *)
Module Store.
Record t : Type := mk {
  tickets : gmap ObjectID Ticket.t;
  agents : gmap ObjectID Agent.t;
  departments : gmap ObjectID Department.t;
  categories : gmap ObjectID Category.t;
  sla_policies : gmap ObjectID SLAPolicy.t;
  ticket_history : list TicketHistory.t;
  ticket_messages : list TicketMessage.t;
  ticket_counters : gmap string Z
}.
Definition set_tickets (v : gmap ObjectID Ticket.t) (r : t) : t :=
  mk v (agents r) (departments r) (categories r) (sla_policies r)
     (ticket_history r) (ticket_messages r) (ticket_counters r).
Definition set_agents (v : gmap ObjectID Agent.t) (r : t) : t :=
  mk (tickets r) v (departments r) (categories r) (sla_policies r)
     (ticket_history r) (ticket_messages r) (ticket_counters r).
Definition set_departments (v : gmap ObjectID Department.t) (r : t) : t :=
  mk (tickets r) (agents r) v (categories r) (sla_policies r)
     (ticket_history r) (ticket_messages r) (ticket_counters r).
Definition set_categories (v : gmap ObjectID Category.t) (r : t) : t :=
  mk (tickets r) (agents r) (departments r) v (sla_policies r)
     (ticket_history r) (ticket_messages r) (ticket_counters r).
Definition set_sla_policies (v : gmap ObjectID SLAPolicy.t) (r : t) : t :=
  mk (tickets r) (agents r) (departments r) (categories r) v (ticket_history
     r) (ticket_messages r) (ticket_counters r).
Definition set_ticket_history (v : list TicketHistory.t) (r : t) : t :=
  mk (tickets r) (agents r) (departments r) (categories r) (sla_policies r)
     v (ticket_messages r) (ticket_counters r).
Definition set_ticket_messages (v : list TicketMessage.t) (r : t) : t :=
  mk (tickets r) (agents r) (departments r) (categories r) (sla_policies r)
     (ticket_history r) v (ticket_counters r).
Definition set_ticket_counters (v : gmap string Z) (r : t) : t :=
  mk (tickets r) (agents r) (departments r) (categories r) (sla_policies r)
     (ticket_history r) (ticket_messages r) v.
End Store.


(** ** Repositories

    Each function is one repository method: the filter and the update
    document of its [FindOne] / [UpdateOne] / [InsertOne] call. *)

(** [bson:",omitempty"]: a zero value is left out of the marshalled
    document, so a [$set] of the whole struct keeps what is stored. *)
Definition keep_string (new old : string) : string :=
  if String.eqb new "" then old else new.
Definition keep_option {A : Type} (new old : option A) : option A :=
  match new with
  | Some _ => new
  | None => old
  end.
Definition keep_list {A : Type} (new old : list A) : list A :=
  match new with
  | [] => old
  | _ :: _ => new
  end.
Definition keep_float (new old : float) : float :=
  if PrimFloat.eqb new 0%float then old else new.

(** [bson.M{"$set": ticket}] applied to the stored document. *)
Definition ticket_bson_set (new old : Ticket.t) : Ticket.t :=
  Ticket.mk
    (Ticket.TenantID new)
    (Ticket.TicketNumber new)
    (Ticket.Subject new)
    (Ticket.Description new)
    (Ticket.Type_ new)
    (Ticket.Status new)
    (Ticket.Priority new)
    (Ticket.Source new)
    (Ticket.CustomerID new)
    (Ticket.CustomerName new)
    (Ticket.CustomerEmail new)
    (keep_option (Ticket.DepartmentID new) (Ticket.DepartmentID old))
    (keep_string (Ticket.DepartmentName new) (Ticket.DepartmentName old))
    (keep_option (Ticket.CategoryID new) (Ticket.CategoryID old))
    (keep_string (Ticket.CategoryName new) (Ticket.CategoryName old))
    (keep_string (Ticket.AssignedToID new) (Ticket.AssignedToID old))
    (keep_string (Ticket.AssignedToName new) (Ticket.AssignedToName old))
    (keep_string (Ticket.AssignedToEmail new) (Ticket.AssignedToEmail old))
    (keep_option (Ticket.AssignedAt new) (Ticket.AssignedAt old))
    (keep_string (Ticket.AssignedByID new) (Ticket.AssignedByID old))
    (keep_option (Ticket.SLAPolicyID new) (Ticket.SLAPolicyID old))
    (keep_option (Ticket.FirstResponseDue new) (Ticket.FirstResponseDue old))
    (keep_option (Ticket.ResolutionDue new) (Ticket.ResolutionDue old))
    (keep_option (Ticket.FirstResponsedAt new) (Ticket.FirstResponsedAt old))
    (keep_list (Ticket.Tags new) (Ticket.Tags old))
    (keep_list (Ticket.CustomFields new) (Ticket.CustomFields old))
    (Ticket.MessageCount new)
    (Ticket.InternalNotes new)
    (Ticket.ReopenCount new)
    (keep_option (Ticket.SatisfactionRating new) (Ticket.SatisfactionRating old))
    (keep_string (Ticket.SatisfactionComment new) (Ticket.SatisfactionComment old))
    (keep_option (Ticket.RatedAt new) (Ticket.RatedAt old))
    (keep_list (Ticket.CCEmails new) (Ticket.CCEmails old))
    (Ticket.CreatedAt new)
    (Ticket.UpdatedAt new)
    (keep_option (Ticket.ResolvedAt new) (Ticket.ResolvedAt old))
    (keep_option (Ticket.ClosedAt new) (Ticket.ClosedAt old))
    (keep_option (Ticket.DeletedAt new) (Ticket.DeletedAt old))
    (Ticket.IsDeleted new)
    (keep_string (Ticket.DeletedBy new) (Ticket.DeletedBy old))
    (Ticket.LastActivityAt new)
    (keep_option (Ticket.LastCustomerReplyAt new) (Ticket.LastCustomerReplyAt old))
    (keep_option (Ticket.LastAgentReplyAt new) (Ticket.LastAgentReplyAt old)).

(** [bson.M{"$set": agent}] applied to the stored document. *)
Definition agent_bson_set (new old : Agent.t) : Agent.t :=
  Agent.mk
    (Agent.TenantID new)
    (Agent.UserID new)
    (Agent.Name new)
    (Agent.Email new)
    (keep_list (Agent.DepartmentIDs new) (Agent.DepartmentIDs old))
    (Agent.Status new)
    (Agent.MaxTickets new)
    (Agent.CurrentTickets new)
    (Agent.TicketsToday new)
    (keep_float (Agent.AvgRating new) (Agent.AvgRating old))
    (Agent.TotalResolved new)
    (Agent.UpdatedAt new)
    (Agent.IsDeleted new)
    (Agent.IsActive new).

(** *** TicketRepository *)

(** [GetByID]: filter [_id], [is_deleted: false]. *)
Definition ticket_GetByID (s : Store.t) (id : ObjectID) : option Ticket.t :=
  match Store.tickets s !! id with
  | Some t => if Ticket.IsDeleted t then None else Some t
  | None => None
  end.

(** [Create]: stamps the three timestamps and inserts; [newID] is the
    inserted identifier, a duplicate key is the error. *)
Definition ticket_Create (now : Timestamp) (s : Store.t) (newID : ObjectID)
    (t : Ticket.t) : option (Store.t * Ticket.t) :=
  let t' := Ticket.set_LastActivityAt now
              (Ticket.set_UpdatedAt now (Ticket.set_CreatedAt now t)) in
  match Store.tickets s !! newID with
  | Some _ => None
  | None => Some (Store.set_tickets (<[newID := t']> (Store.tickets s)) s, t')
  end.

(** [Update]: stamps [UpdatedAt] on the struct and [$set]s the struct on
    the document with that [_id]. *)
Definition ticket_Update (now : Timestamp) (s : Store.t) (id : ObjectID)
    (t : Ticket.t) : Store.t * Ticket.t :=
  let t' := Ticket.set_UpdatedAt now t in
  (Store.set_tickets (alter (ticket_bson_set t') id (Store.tickets s)) s, t').

(** The keys the usecases put in the [updates] map of [UpdateFields]. *)
Inductive TicketField : Type :=
  | F_status (v : string)
  | F_priority (v : string)
  | F_assigned_to_id (v : string)
  | F_assigned_to_name (v : string)
  | F_assigned_at (v : Timestamp)
  | F_updated_at (v : Timestamp)
  | F_resolved_at (v : Timestamp)
  | F_department_id (v : ObjectID)
  | F_department_name (v : string)
  | F_last_activity_at (v : Timestamp)
  | F_last_customer_reply_at (v : Timestamp)
  | F_last_agent_reply_at (v : Timestamp)
  | F_first_responsed_at (v : Timestamp).

Definition set_field (f : TicketField) (t : Ticket.t) : Ticket.t :=
  match f with
  | F_status v => Ticket.set_Status v t
  | F_priority v => Ticket.set_Priority v t
  | F_assigned_to_id v => Ticket.set_AssignedToID v t
  | F_assigned_to_name v => Ticket.set_AssignedToName v t
  | F_assigned_at v => Ticket.set_AssignedAt (Some v) t
  | F_updated_at v => Ticket.set_UpdatedAt v t
  | F_resolved_at v => Ticket.set_ResolvedAt (Some v) t
  | F_department_id v => Ticket.set_DepartmentID (Some v) t
  | F_department_name v => Ticket.set_DepartmentName v t
  | F_last_activity_at v => Ticket.set_LastActivityAt v t
  | F_last_customer_reply_at v => Ticket.set_LastCustomerReplyAt (Some v) t
  | F_last_agent_reply_at v => Ticket.set_LastAgentReplyAt (Some v) t
  | F_first_responsed_at v => Ticket.set_FirstResponsedAt (Some v) t
  end.

(** [UpdateFields]: adds [updated_at] to the map and [$set]s its entries. *)
Definition ticket_UpdateFields (now : Timestamp) (s : Store.t) (id : ObjectID)
    (fields : list TicketField) : Store.t :=
  let doc_set t := foldr set_field t (F_updated_at now :: fields) in
  Store.set_tickets (alter doc_set id (Store.tickets s)) s.

(** [Delete]: the soft delete. *)
Definition ticket_Delete (now : Timestamp) (s : Store.t) (id : ObjectID)
    (deletedBy : string) : Store.t :=
  let doc_set t :=
    Ticket.set_UpdatedAt now
      (Ticket.set_DeletedBy deletedBy
         (Ticket.set_DeletedAt (Some now) (Ticket.set_IsDeleted true t))) in
  Store.set_tickets (alter doc_set id (Store.tickets s)) s.

(** [IncrementMessageCount]: for an internal note the [$inc] document is
    replaced, so only [internal_notes] grows. *)
Definition ticket_IncrementMessageCount (now : Timestamp) (s : Store.t)
    (id : ObjectID) (isInternal : bool) : Store.t :=
  let doc_set t :=
    let t1 := if isInternal
              then Ticket.set_InternalNotes (Ticket.InternalNotes t + 1) t
              else Ticket.set_MessageCount (Ticket.MessageCount t + 1) t in
    Ticket.set_LastActivityAt now (Ticket.set_UpdatedAt now t1) in
  Store.set_tickets (alter doc_set id (Store.tickets s)) s.

Fixpoint decimal_digits (fuel : nat) (n : N) (acc : string) : string :=
  match fuel with
  | O => acc
  | S fuel' =>
      let acc' := String (ascii_of_N (48 + n mod 10)) acc in
      if (n / 10 =? 0)%N then acc' else decimal_digits fuel' (n / 10)%N acc'
  end.

Fixpoint zero_pad (k : nat) (s : string) : string :=
  match k with
  | O => s
  | S k' => zero_pad k' (String "0"%char s)
  end.

(** [fmt.Sprintf("TKT-%06d", seq)]: width 6 counts the sign. *)
Definition ticket_number (seq : Z) : string :=
  let digits := decimal_digits 20 (Z.abs_N seq) "" in
  let body :=
    if seq <? 0
    then String "-"%char (zero_pad (5 - String.length digits) digits)
    else zero_pad (6 - String.length digits) digits in
  "TKT-" +:+ body.

(** [GetNextTicketNumber]: upsert with [$inc sequence 1], the document
    after the update is the one read. *)
Definition ticket_GetNextTicketNumber (s : Store.t) (tenantID : string)
    : Store.t * string :=
  let seq := default 0 (Store.ticket_counters s !! tenantID) + 1 in
  (Store.set_ticket_counters (<[tenantID := seq]> (Store.ticket_counters s)) s,
   ticket_number seq).

(** *** AgentRepository *)

(** [GetByID]: filter [_id], [is_deleted: false]. *)
Definition agent_GetByID (s : Store.t) (id : ObjectID) : option Agent.t :=
  match Store.agents s !! id with
  | Some a => if Agent.IsDeleted a then None else Some a
  | None => None
  end.

(** [GetByUserID]: the first agent of the tenant with that user id. *)
Definition agent_GetByUserID (s : Store.t) (tenantID userID : string)
    : option (ObjectID * Agent.t) :=
  List.find
    (fun '(_, a) =>
       String.eqb (Agent.TenantID a) tenantID
       && String.eqb (Agent.UserID a) userID
       && negb (Agent.IsDeleted a))
    (map_to_list (Store.agents s)).

(** [IncrementTicketCount]: [$inc current_tickets 1, tickets_today 1]. *)
Definition agent_inc (now : Timestamp) (a : Agent.t) : Agent.t :=
  Agent.set_UpdatedAt now
    (Agent.set_TicketsToday (Agent.TicketsToday a + 1)
       (Agent.set_CurrentTickets (Agent.CurrentTickets a + 1) a)).
Definition agent_IncrementTicketCount (now : Timestamp) (s : Store.t)
    (id : ObjectID) : Store.t :=
  Store.set_agents (alter (agent_inc now) id (Store.agents s)) s.

(** [DecrementTicketCount]: the filter asks for [current_tickets > 0], so
    an agent at zero matches nothing and stays as it is. *)
Definition agent_dec (now : Timestamp) (a : Agent.t) : Agent.t :=
  if 0 <? Agent.CurrentTickets a
  then Agent.set_UpdatedAt now
         (Agent.set_CurrentTickets (Agent.CurrentTickets a - 1) a)
  else a.
Definition agent_DecrementTicketCount (now : Timestamp) (s : Store.t)
    (id : ObjectID) : Store.t :=
  Store.set_agents (alter (agent_dec now) id (Store.agents s)) s.

(** [IncrementResolved]: [$inc total_resolved 1]. *)
Definition agent_resolved (now : Timestamp) (a : Agent.t) : Agent.t :=
  Agent.set_UpdatedAt now
    (Agent.set_TotalResolved (Agent.TotalResolved a + 1) a).
Definition agent_IncrementResolved (now : Timestamp) (s : Store.t)
    (id : ObjectID) : Store.t :=
  Store.set_agents (alter (agent_resolved now) id (Store.agents s)) s.

(** [Update]: [$set] of the whole agent. *)
Definition agent_Update (now : Timestamp) (s : Store.t) (id : ObjectID)
    (a : Agent.t) : Store.t :=
  let a' := Agent.set_UpdatedAt now a in
  Store.set_agents (alter (agent_bson_set a') id (Store.agents s)) s.

Definition agent_available (tenantID : string) (departmentID : option ObjectID)
    (a : Agent.t) : bool :=
  String.eqb (Agent.TenantID a) tenantID
  && negb (Agent.IsDeleted a)
  && Agent.IsActive a
  && String.eqb (Agent.Status a) AgentStatusAvailable
  && (Agent.CurrentTickets a <? Agent.MaxTickets a)
  && match departmentID with
     | Some d => bool_decide (d ∈ Agent.DepartmentIDs a)
     | None => true
     end.

Definition less_busy (x y : ObjectID * Agent.t) : Prop :=
  Agent.CurrentTickets x.2 ≤ Agent.CurrentTickets y.2.
#[local] Instance less_busy_dec x y : Decision (less_busy x y).
Proof. unfold less_busy. apply _. Defined.

(** [GetAvailable]: the agents that can take a ticket, least busy first. *)
Definition agent_GetAvailable (s : Store.t) (tenantID : string)
    (departmentID : option ObjectID) : list (ObjectID * Agent.t) :=
  merge_sort less_busy
    (List.filter (fun '(_, a) => agent_available tenantID departmentID a)
       (map_to_list (Store.agents s))).

(** *** DepartmentRepository and CategoryRepository *)

Definition department_GetByID (s : Store.t) (id : ObjectID)
    : option Department.t :=
  match Store.departments s !! id with
  | Some d => if Department.IsDeleted d then None else Some d
  | None => None
  end.

(** [IncrementTicketCount]: [total_tickets] always, [open_tickets] when
    [isOpen]. *)
Definition department_inc (now : Timestamp) (isOpen : bool) (d : Department.t)
    : Department.t :=
  let d1 := Department.set_TotalTickets (Department.TotalTickets d + 1) d in
  let d2 := if isOpen
            then Department.set_OpenTickets (Department.OpenTickets d1 + 1) d1
            else d1 in
  Department.set_UpdatedAt now d2.
Definition department_IncrementTicketCount (now : Timestamp) (s : Store.t)
    (id : ObjectID) (isOpen : bool) : Store.t :=
  Store.set_departments
    (alter (department_inc now isOpen) id (Store.departments s)) s.

(** [DecrementOpenTickets]: the filter asks for [open_tickets > 0]. *)
Definition department_dec (now : Timestamp) (d : Department.t) : Department.t :=
  if 0 <? Department.OpenTickets d
  then Department.set_UpdatedAt now
         (Department.set_OpenTickets (Department.OpenTickets d - 1) d)
  else d.
Definition department_DecrementOpenTickets (now : Timestamp) (s : Store.t)
    (id : ObjectID) : Store.t :=
  Store.set_departments (alter (department_dec now) id (Store.departments s)) s.

Definition category_GetByID (s : Store.t) (id : ObjectID) : option Category.t :=
  match Store.categories s !! id with
  | Some c => if Category.IsDeleted c then None else Some c
  | None => None
  end.

(** *** SLAPolicyRepository *)

Definition sla_GetByID (s : Store.t) (id : ObjectID)
    : option (ObjectID * SLAPolicy.t) :=
  match Store.sla_policies s !! id with
  | Some p => Some (id, p)
  | None => None
  end.

(** [GetDefault]: the first active default policy of the tenant. *)
Definition sla_GetDefault (s : Store.t) (tenantID : string)
    : option (ObjectID * SLAPolicy.t) :=
  List.find
    (fun '(_, p) =>
       String.eqb (SLAPolicy.TenantID p) tenantID
       && SLAPolicy.IsDefault p && SLAPolicy.IsActive p)
    (map_to_list (Store.sla_policies s)).

(** *** HistoryRepository and MessageRepository

    The history repository has two methods, [Create] and [GetByTicketID];
    nothing rewrites or removes an entry. *)

Definition history_Create (now : Timestamp) (s : Store.t) (h : TicketHistory.t)
    : Store.t :=
  let h' := TicketHistory.mk (TicketHistory.TicketID h)
              (TicketHistory.TenantID h) (TicketHistory.Action h)
              (TicketHistory.Field h) (TicketHistory.OldValue h)
              (TicketHistory.NewValue h) (TicketHistory.ChangedBy h)
              (TicketHistory.ChangedByName h) (TicketHistory.Comment h) now in
  Store.set_ticket_history (Store.ticket_history s ++ [h'])%list s.

Definition history_GetByTicketID (s : Store.t) (ticketID : ObjectID)
    : list TicketHistory.t :=
  List.filter (fun h => N.eqb (TicketHistory.TicketID h) ticketID)
    (Store.ticket_history s).

Definition message_Create (now : Timestamp) (s : Store.t) (m : TicketMessage.t)
    : Store.t * TicketMessage.t :=
  let m' := TicketMessage.mk (TicketMessage.TicketID m)
              (TicketMessage.TenantID m) (TicketMessage.Type_ m)
              (TicketMessage.Content m) (TicketMessage.SenderType m)
              (TicketMessage.SenderID m) (TicketMessage.SenderName m)
              (TicketMessage.SenderEmail m) (TicketMessage.IsPrivate m) now in
  (Store.set_ticket_messages (Store.ticket_messages s ++ [m'])%list s, m').

(** ** Requests *)

Module CreateTicketRequest.
Record t : Type := mk {
  TenantID : string;
  Subject : string;
  Description : string;
  Type_ : string;
  Priority : string;
  Source : string;
  DepartmentID : string;
  CategoryID : string;
  Tags : list string;
  CustomFields : list (string * string);
  CCEmails : list string
}.
End CreateTicketRequest.

(** A pointer field or a nil-able slice of the patch is an [option]. *)
Module UpdateTicketRequest.
Record t : Type := mk {
  Subject : option string;
  Description : option string;
  Type_ : option string;
  Priority : option string;
  DepartmentID : option string;
  CategoryID : option string;
  Tags : option (list string);
  CustomFields : option (list (string * string));
  CCEmails : option (list string)
}.
End UpdateTicketRequest.

Module ChangeStatusRequest.
Record t : Type := mk {
  Status : string;
  Comment : string
}.
End ChangeStatusRequest.

Module AssignTicketRequest.
Record t : Type := mk {
  AssigneeID : string;
  Comment : string
}.
End AssignTicketRequest.

Module TransferTicketRequest.
Record t : Type := mk {
  DepartmentID : string;
  AssigneeID : string;
  Comment : string
}.
End TransferTicketRequest.

Module CreateMessageRequest.
Record t : Type := mk {
  Content : string;
  Type_ : string;
  IsPrivate : bool
}.
End CreateMessageRequest.

Module RateTicketRequest.
Record t : Type := mk {
  Rating : Z;
  Comment : string
}.
End RateTicketRequest.

(** ** TicketUsecase *)

Section TicketUsecase.

Variable config : Config.t.

(** Error messages of the usecase layer, under the names the design gives
    to the error classes they belong to. *)
Definition InvalidTransitionError := "invalid status transition".
Definition CapacityError := "agent has reached maximum capacity".
Definition DepartmentNotFoundError := "department not found".
Definition AgentNotFoundError := "agent not found".
Definition TicketNotFoundError := "ticket not found".

Definition createHistory (now : Timestamp) (s : Store.t) (ticketID : ObjectID)
    (tenantID action field : string) (oldValue newValue : Value)
    (changedBy changedByName comment : string) : Store.t :=
  history_Create now s
    (TicketHistory.mk ticketID tenantID action field oldValue newValue
       changedBy changedByName comment 0).

Definition isValidStatusTransition (from to : string) (isAgent : bool) : bool :=
  if isAgent then true
  else if String.eqb from StatusResolved
       then String.eqb to StatusReopened || String.eqb to StatusClosed
  else if String.eqb from StatusPending then String.eqb to StatusOpen
  else if String.eqb from StatusOpen then String.eqb to StatusCancelled
  else false.

(** The policy [calculateSLA] settles on: the department's, else the
    tenant's default. *)
Definition resolve_policy (s : Store.t) (ticket : Ticket.t)
    : option (ObjectID * SLAPolicy.t) :=
  let policy :=
    match Ticket.DepartmentID ticket with
    | Some deptID =>
        match department_GetByID s deptID with
        | Some dept =>
            match Department.SLAPolicyID dept with
            | Some pid => sla_GetByID s pid
            | None => None
            end
        | None => None
        end
    | None => None
    end in
  match policy with
  | Some p => Some p
  | None => sla_GetDefault s (Ticket.TenantID ticket)
  end.

Definition calculateSLA (now : Timestamp) (s : Store.t) (ticket : Ticket.t)
    : Ticket.t :=
  if negb (Config.SLA_Enabled config) then ticket
  else
    match resolve_policy s ticket with
    | None =>
        let responseDue :=
          add_duration now (Config.SLA_DefaultResponseHours config) Hour in
        let resolveDue :=
          add_duration now (Config.SLA_DefaultResolveHours config) Hour in
        Ticket.set_ResolutionDue (Some resolveDue)
          (Ticket.set_FirstResponseDue (Some responseDue) ticket)
    | Some (policyID, policy) =>
        match List.find
                (fun p => String.eqb (SLAPriority.Priority p)
                            (Ticket.Priority ticket))
                (SLAPolicy.Priorities policy) with
        | Some p =>
            let responseDue :=
              add_duration now (SLAPriority.FirstResponseMins p) Minute in
            let resolveDue :=
              add_duration now (SLAPriority.ResolutionMins p) Minute in
            Ticket.set_SLAPolicyID (Some policyID)
              (Ticket.set_ResolutionDue (Some resolveDue)
                 (Ticket.set_FirstResponseDue (Some responseDue) ticket))
        | None => ticket
        end
    end.

Definition autoAssign (now : Timestamp) (s : Store.t) (ticketID : ObjectID)
    (ticket : Ticket.t) : Store.t * Ticket.t :=
  match agent_GetAvailable s (Ticket.TenantID ticket)
          (Ticket.DepartmentID ticket) with
  | [] => (s, ticket)
  | (agentID, agent) :: _ =>
      let t1 :=
        Ticket.set_AssignedAt (Some now)
          (Ticket.set_AssignedToEmail (Agent.Email agent)
             (Ticket.set_AssignedToName (Agent.Name agent)
                (Ticket.set_AssignedToID (Agent.UserID agent) ticket))) in
      let '(s1, t2) := ticket_Update now s ticketID t1 in
      let s2 := agent_IncrementTicketCount now s1 agentID in
      let s3 := createHistory now s2 ticketID (Ticket.TenantID t2)
                  "auto_assigned" "assignee" (VString "")
                  (VString (Agent.Name agent)) "system" "System" "" in
      (s3, t2)
  end.

Definition GetTicket (s : Store.t) (id : string)
    : Result (ObjectID * Ticket.t) :=
  match ObjectIDFromHex id with
  | None => Err "invalid ticket ID"
  | Some ticketID =>
      match ticket_GetByID s ticketID with
      | None => Err TicketNotFoundError
      | Some ticket => Ok (ticketID, ticket)
      end
  end.

Definition new_ticket (req : CreateTicketRequest.t) (ticketNumber : string)
    (customerID customerName customerEmail : string) : Ticket.t :=
  let priority := if String.eqb (CreateTicketRequest.Priority req) ""
                  then PriorityMedium else CreateTicketRequest.Priority req in
  let source := if String.eqb (CreateTicketRequest.Source req) ""
                then SourceWeb else CreateTicketRequest.Source req in
  let type := if String.eqb (CreateTicketRequest.Type_ req) ""
              then TypeQuestion else CreateTicketRequest.Type_ req in
  {| Ticket.TenantID := CreateTicketRequest.TenantID req;
     Ticket.TicketNumber := ticketNumber;
     Ticket.Subject := CreateTicketRequest.Subject req;
     Ticket.Description := CreateTicketRequest.Description req;
     Ticket.Type_ := type;
     Ticket.Status := StatusOpen;
     Ticket.Priority := priority;
     Ticket.Source := source;
     Ticket.CustomerID := customerID;
     Ticket.CustomerName := customerName;
     Ticket.CustomerEmail := customerEmail;
     Ticket.DepartmentID := None;
     Ticket.DepartmentName := "";
     Ticket.CategoryID := None;
     Ticket.CategoryName := "";
     Ticket.AssignedToID := "";
     Ticket.AssignedToName := "";
     Ticket.AssignedToEmail := "";
     Ticket.AssignedAt := None;
     Ticket.AssignedByID := "";
     Ticket.SLAPolicyID := None;
     Ticket.FirstResponseDue := None;
     Ticket.ResolutionDue := None;
     Ticket.FirstResponsedAt := None;
     Ticket.Tags := CreateTicketRequest.Tags req;
     Ticket.CustomFields := CreateTicketRequest.CustomFields req;
     Ticket.MessageCount := 0;
     Ticket.InternalNotes := 0;
     Ticket.ReopenCount := 0;
     Ticket.SatisfactionRating := None;
     Ticket.SatisfactionComment := "";
     Ticket.RatedAt := None;
     Ticket.CCEmails := CreateTicketRequest.CCEmails req;
     Ticket.CreatedAt := 0;
     Ticket.UpdatedAt := 0;
     Ticket.ResolvedAt := None;
     Ticket.ClosedAt := None;
     Ticket.DeletedAt := None;
     Ticket.IsDeleted := false;
     Ticket.DeletedBy := "";
     Ticket.LastActivityAt := 0;
     Ticket.LastCustomerReplyAt := None;
     Ticket.LastAgentReplyAt := None |}.

Definition CreateTicket (now : Timestamp) (newID : ObjectID) (s : Store.t)
    (req : CreateTicketRequest.t)
    (customerID customerName customerEmail : string)
    : Store.t * Result (ObjectID * Ticket.t) :=
  if String.eqb (CreateTicketRequest.Subject req) ""
  then (s, Err "subject is required")
  else if String.eqb (CreateTicketRequest.Description req) ""
  then (s, Err "description is required")
  else
    let '(s1, ticketNumber) :=
      ticket_GetNextTicketNumber s (CreateTicketRequest.TenantID req) in
    let t0 := new_ticket req ticketNumber customerID customerName
                customerEmail in
    let t1 :=
      if String.eqb (CreateTicketRequest.DepartmentID req) "" then t0
      else
        match ObjectIDFromHex (CreateTicketRequest.DepartmentID req) with
        | Some deptID =>
            match department_GetByID s1 deptID with
            | Some dept =>
                Ticket.set_DepartmentName (Department.Name dept)
                  (Ticket.set_DepartmentID (Some deptID) t0)
            | None => t0
            end
        | None => t0
        end in
    let t2 :=
      if String.eqb (CreateTicketRequest.CategoryID req) "" then t1
      else
        match ObjectIDFromHex (CreateTicketRequest.CategoryID req) with
        | Some catID =>
            match category_GetByID s1 catID with
            | Some cat =>
                Ticket.set_CategoryName (Category.Name cat)
                  (Ticket.set_CategoryID (Some catID) t1)
            | None => t1
            end
        | None => t1
        end in
    let t3 := calculateSLA now s1 t2 in
    match ticket_Create now s1 newID t3 with
    | None => (s1, Err "failed to create ticket")
    | Some (s2, ticket) =>
        let s3 :=
          match Ticket.DepartmentID ticket with
          | Some deptID => department_IncrementTicketCount now s2 deptID true
          | None => s2
          end in
        let s4 := createHistory now s3 newID (CreateTicketRequest.TenantID req)
                    "created" "" VNil VNil customerID customerName "" in
        if Config.Ticket_AutoAssignEnabled config
           && bool_decide (Ticket.DepartmentID ticket ≠ None)
        then let '(s5, ticket') := autoAssign now s4 newID ticket in
             (s5, Ok (newID, ticket'))
        else (s4, Ok (newID, ticket))
    end.

(** One tracked change of [UpdateTicket]: field name, old and new value. *)
Definition Change : Type := string * Value * Value.

(** The compared fields of the patch, in the order the code visits them;
    each step returns the patched ticket and the change it recorded. *)
Definition patch_string (field : string) (get : Ticket.t → string)
    (set : string → Ticket.t → Ticket.t) (patch : option string)
    (ticket : Ticket.t) : Ticket.t * list Change :=
  match patch with
  | Some v =>
      if negb (String.eqb v (get ticket))
      then (set v ticket, [(field, VString (get ticket), VString v)])
      else (ticket, [])
  | None => (ticket, [])
  end.

Definition patch_priority (now : Timestamp) (s : Store.t)
    (patch : option string) (ticket : Ticket.t) : Ticket.t * list Change :=
  match patch with
  | Some v =>
      if negb (String.eqb v (Ticket.Priority ticket))
      then (calculateSLA now s (Ticket.set_Priority v ticket),
            [("priority", VString (Ticket.Priority ticket), VString v)])
      else (ticket, [])
  | None => (ticket, [])
  end.

Definition patch_department (s : Store.t) (patch : option string)
    (ticket : Ticket.t) : Ticket.t * list Change :=
  match patch with
  | Some id =>
      match ObjectIDFromHex id with
      | Some deptID =>
          match department_GetByID s deptID with
          | Some dept =>
              if bool_decide (Ticket.DepartmentID ticket ≠ Some deptID)
              then (Ticket.set_DepartmentName (Department.Name dept)
                      (Ticket.set_DepartmentID (Some deptID) ticket),
                    [("department", VString (Ticket.DepartmentName ticket),
                      VString (Department.Name dept))])
              else (ticket, [])
          | None => (ticket, [])
          end
      | None => (ticket, [])
      end
  | None => (ticket, [])
  end.

Definition patch_category (s : Store.t) (patch : option string)
    (ticket : Ticket.t) : Ticket.t * list Change :=
  match patch with
  | Some id =>
      match ObjectIDFromHex id with
      | Some catID =>
          match category_GetByID s catID with
          | Some cat =>
              (Ticket.set_CategoryName (Category.Name cat)
                 (Ticket.set_CategoryID (Some catID) ticket),
               [("category", VString (Ticket.CategoryName ticket),
                 VString (Category.Name cat))])
          | None => (ticket, [])
          end
      | None => (ticket, [])
      end
  | None => (ticket, [])
  end.

Definition patch_untracked {A : Type} (set : A → Ticket.t → Ticket.t)
    (patch : option A) (ticket : Ticket.t) : Ticket.t :=
  match patch with
  | Some v => set v ticket
  | None => ticket
  end.

(** The patched ticket and the [changes] map of [UpdateTicket]. The keys of
    the map are distinct, so the map is the list of its entries. *)
Definition apply_patch (now : Timestamp) (s : Store.t)
    (req : UpdateTicketRequest.t) (ticket : Ticket.t)
    : Ticket.t * list Change :=
  let '(t1, c1) := patch_string "subject" Ticket.Subject Ticket.set_Subject
                     (UpdateTicketRequest.Subject req) ticket in
  let '(t2, c2) := patch_string "description" Ticket.Description
                     Ticket.set_Description
                     (UpdateTicketRequest.Description req) t1 in
  let '(t3, c3) := patch_string "type" Ticket.Type_ Ticket.set_Type_
                     (UpdateTicketRequest.Type_ req) t2 in
  let '(t4, c4) := patch_priority now s (UpdateTicketRequest.Priority req) t3 in
  let '(t5, c5) := patch_department s
                     (UpdateTicketRequest.DepartmentID req) t4 in
  let '(t6, c6) := patch_category s (UpdateTicketRequest.CategoryID req) t5 in
  let t7 := patch_untracked Ticket.set_Tags (UpdateTicketRequest.Tags req) t6 in
  let t8 := patch_untracked Ticket.set_CCEmails
              (UpdateTicketRequest.CCEmails req) t7 in
  let t9 := patch_untracked Ticket.set_CustomFields
              (UpdateTicketRequest.CustomFields req) t8 in
  (t9, (c1 ++ c2 ++ c3 ++ c4 ++ c5 ++ c6)%list).

(** The loop over [changes]: one "updated" entry per change. Go ranges over
    a map in no fixed order; the entries are written here in the order the
    fields are compared. *)
Definition write_changes (now : Timestamp) (ticketID : ObjectID)
    (tenantID userID userName : string) (changes : list Change) (s : Store.t)
    : Store.t :=
  foldl (fun s '(field, old, new) =>
           createHistory now s ticketID tenantID "updated" field old new
             userID userName "")
    s changes.

Definition UpdateTicket (now : Timestamp) (s : Store.t) (id : string)
    (req : UpdateTicketRequest.t) (userID userName : string) (isAgent : bool)
    : Store.t * Result (ObjectID * Ticket.t) :=
  match GetTicket s id with
  | Err e => (s, Err e)
  | Ok (ticketID, ticket) =>
      if negb isAgent && negb (String.eqb (Ticket.CustomerID ticket) userID)
      then (s, Err "you can only update your own tickets")
      else
        let '(t1, changes) := apply_patch now s req ticket in
        let '(s1, t2) := ticket_Update now s ticketID t1 in
        let s2 := write_changes now ticketID (Ticket.TenantID t2) userID
                    userName changes s1 in
        (s2, Ok (ticketID, t2))
  end.

Definition ChangeStatus (now : Timestamp) (s : Store.t) (id : string)
    (req : ChangeStatusRequest.t) (userID userName : string) (isAgent : bool)
    : Store.t * Result (ObjectID * Ticket.t) :=
  match GetTicket s id with
  | Err e => (s, Err e)
  | Ok (ticketID, ticket) =>
      let status := ChangeStatusRequest.Status req in
      if negb (isValidStatusTransition (Ticket.Status ticket) status isAgent)
      then (s, Err InvalidTransitionError)
      else
        let oldStatus := Ticket.Status ticket in
        let t1 := Ticket.set_LastActivityAt now
                    (Ticket.set_Status status ticket) in
        let agentID := ObjectIDFromHex_ (Ticket.AssignedToID t1) in
        let dec_agent s :=
          if negb (String.eqb (Ticket.AssignedToID t1) "")
          then agent_DecrementTicketCount now s agentID else s in
        let dec_department s :=
          match Ticket.DepartmentID t1 with
          | Some deptID => department_DecrementOpenTickets now s deptID
          | None => s
          end in
        let '(s1, t2) :=
          if String.eqb status StatusResolved then
            let sa :=
              if negb (String.eqb (Ticket.AssignedToID t1) "")
              then agent_DecrementTicketCount now
                     (agent_IncrementResolved now s agentID) agentID
              else s in
            (dec_department sa, Ticket.set_ResolvedAt (Some now) t1)
          else if String.eqb status StatusClosed then
            (if negb (String.eqb oldStatus StatusResolved)
             then dec_department (dec_agent s) else s,
             Ticket.set_ClosedAt (Some now) t1)
          else if String.eqb status StatusReopened then
            (match Ticket.DepartmentID t1 with
             | Some deptID => department_IncrementTicketCount now s deptID true
             | None => s
             end,
             Ticket.set_ReopenCount (wrap64 (Ticket.ReopenCount t1 + 1))
               (Ticket.set_ClosedAt None (Ticket.set_ResolvedAt None t1)))
          else (s, t1) in
        let '(s2, t3) := ticket_Update now s1 ticketID t2 in
        let s3 := createHistory now s2 ticketID (Ticket.TenantID t3)
                    "status_changed" "status" (VString oldStatus)
                    (VString status) userID userName
                    (ChangeStatusRequest.Comment req) in
        (s3, Ok (ticketID, t3))
  end.

Definition AssignTicket (now : Timestamp) (s : Store.t) (id : string)
    (req : AssignTicketRequest.t) (assignedByID assignedByName : string)
    : Store.t * Result (ObjectID * Ticket.t) :=
  match GetTicket s id with
  | Err e => (s, Err e)
  | Ok (ticketID, ticket) =>
      match agent_GetByUserID s (Ticket.TenantID ticket)
              (AssignTicketRequest.AssigneeID req) with
      | None => (s, Err AgentNotFoundError)
      | Some (agentID, agent) =>
          if Agent.MaxTickets agent <=? Agent.CurrentTickets agent
          then (s, Err CapacityError)
          else
            let s1 :=
              if negb (String.eqb (Ticket.AssignedToID ticket) "")
              then agent_DecrementTicketCount now s
                     (ObjectIDFromHex_ (Ticket.AssignedToID ticket))
              else s in
            let oldAssignee := Ticket.AssignedToName ticket in
            let t1 :=
              Ticket.set_LastActivityAt now
                (Ticket.set_AssignedByID assignedByID
                   (Ticket.set_AssignedAt (Some now)
                      (Ticket.set_AssignedToEmail (Agent.Email agent)
                         (Ticket.set_AssignedToName (Agent.Name agent)
                            (Ticket.set_AssignedToID (Agent.UserID agent)
                               ticket))))) in
            let t2 :=
              match Ticket.FirstResponseDue t1 with
              | None => calculateSLA now s1 t1
              | Some _ => t1
              end in
            let t3 :=
              if String.eqb (Ticket.Status t2) StatusOpen
              then Ticket.set_Status StatusInProgress t2 else t2 in
            let '(s2, t4) := ticket_Update now s1 ticketID t3 in
            let s3 := agent_IncrementTicketCount now s2 agentID in
            let s4 := createHistory now s3 ticketID (Ticket.TenantID t4)
                        "assigned" "assignee" (VString oldAssignee)
                        (VString (Agent.Name agent)) assignedByID
                        assignedByName (AssignTicketRequest.Comment req) in
            (s4, Ok (ticketID, t4))
      end
  end.

Definition TransferTicket (now : Timestamp) (s : Store.t) (id : string)
    (req : TransferTicketRequest.t) (userID userName : string)
    : Store.t * Result (ObjectID * Ticket.t) :=
  match GetTicket s id with
  | Err e => (s, Err e)
  | Ok (ticketID, ticket) =>
      match ObjectIDFromHex (TransferTicketRequest.DepartmentID req) with
      | None => (s, Err "invalid department ID")
      | Some deptID =>
          match department_GetByID s deptID with
          | None => (s, Err DepartmentNotFoundError)
          | Some dept =>
              let oldDept := Ticket.DepartmentName ticket in
              let s1 :=
                match Ticket.DepartmentID ticket with
                | Some old => department_DecrementOpenTickets now s old
                | None => s
                end in
              let s2 :=
                if negb (String.eqb (Ticket.AssignedToID ticket) "")
                then agent_DecrementTicketCount now s1
                       (ObjectIDFromHex_ (Ticket.AssignedToID ticket))
                else s1 in
              let t1 :=
                Ticket.set_LastActivityAt now
                  (Ticket.set_AssignedAt None
                     (Ticket.set_AssignedToEmail ""
                        (Ticket.set_AssignedToName ""
                           (Ticket.set_AssignedToID ""
                              (Ticket.set_DepartmentName (Department.Name dept)
                                 (Ticket.set_DepartmentID (Some deptID)
                                    ticket)))))) in
              let s3 := department_IncrementTicketCount now s2 deptID true in
              let '(s4, t2) := ticket_Update now s3 ticketID t1 in
              let s5 := createHistory now s4 ticketID (Ticket.TenantID t2)
                          "transferred" "department" (VString oldDept)
                          (VString (Department.Name dept)) userID userName
                          (TransferTicketRequest.Comment req) in
              if negb (String.eqb (TransferTicketRequest.AssigneeID req) "")
              then
                let '(s6, _) :=
                  AssignTicket now s5 id
                    (AssignTicketRequest.mk
                       (TransferTicketRequest.AssigneeID req) "")
                    userID userName in
                (s6, Ok (ticketID, t2))
              else if Config.Ticket_AutoAssignEnabled config
              then let '(s6, t3) := autoAssign now s5 ticketID t2 in
                   (s6, Ok (ticketID, t3))
              else (s5, Ok (ticketID, t2))
          end
      end
  end.

Definition AddReply (now : Timestamp) (s : Store.t) (ticketID : string)
    (req : CreateMessageRequest.t) (senderID senderName senderEmail : string)
    (senderType : string) : Store.t * Result TicketMessage.t :=
  match GetTicket s ticketID with
  | Err e => (s, Err e)
  | Ok (tid, ticket) =>
      let msgType0 := if negb (String.eqb (CreateMessageRequest.Type_ req) "")
                      then CreateMessageRequest.Type_ req
                      else MessageTypeReply in
      let msgType := if CreateMessageRequest.IsPrivate req
                     then MessageTypeInternalNote else msgType0 in
      let message :=
        TicketMessage.mk tid (Ticket.TenantID ticket) msgType
          (CreateMessageRequest.Content req) senderType senderID senderName
          senderEmail (CreateMessageRequest.IsPrivate req) 0 in
      let '(s1, message') := message_Create now s message in
      let s2 := ticket_IncrementMessageCount now s1 tid
                  (CreateMessageRequest.IsPrivate req) in
      let updates :=
        F_last_activity_at now ::
        (if String.eqb senderType SenderCustomer then
           F_last_customer_reply_at now ::
           (if String.eqb (Ticket.Status ticket) StatusPending
            then [F_status StatusOpen] else [])
         else if String.eqb senderType SenderAgent
                 && negb (CreateMessageRequest.IsPrivate req) then
           F_last_agent_reply_at now ::
           (match Ticket.FirstResponsedAt ticket with
            | None => [F_first_responsed_at now]
            | Some _ => []
            end)
         else []) in
      (ticket_UpdateFields now s2 tid updates, Ok message')
  end.

(** The running mean of [RateTicket], in [float64] as the code has it. *)
Definition new_average (agent : Agent.t) (rating : Z) : float :=
  PrimFloat.div
    (PrimFloat.add
       (PrimFloat.mul (Agent.AvgRating agent)
          (float64_of_int (wrap64 (Agent.TotalResolved agent - 1))))
       (float64_of_int rating))
    (float64_of_int (Agent.TotalResolved agent)).

Definition RateTicket (now : Timestamp) (s : Store.t) (id : string)
    (req : RateTicketRequest.t) (userID : string)
    : Store.t * Result (ObjectID * Ticket.t) :=
  match GetTicket s id with
  | Err e => (s, Err e)
  | Ok (ticketID, ticket) =>
      if negb (String.eqb (Ticket.CustomerID ticket) userID)
      then (s, Err "you can only rate your own tickets")
      else if negb (String.eqb (Ticket.Status ticket) StatusResolved)
              && negb (String.eqb (Ticket.Status ticket) StatusClosed)
      then (s, Err "can only rate resolved or closed tickets")
      else
        let t1 :=
          Ticket.set_RatedAt (Some now)
            (Ticket.set_SatisfactionComment (RateTicketRequest.Comment req)
               (Ticket.set_SatisfactionRating
                  (Some (RateTicketRequest.Rating req)) ticket)) in
        let '(s1, t2) := ticket_Update now s ticketID t1 in
        let s2 :=
          if negb (String.eqb (Ticket.AssignedToID t2) "") then
            let agentID := ObjectIDFromHex_ (Ticket.AssignedToID t2) in
            match agent_GetByID s1 agentID with
            | Some agent =>
                agent_Update now s1 agentID
                  (Agent.set_AvgRating
                     (new_average agent (RateTicketRequest.Rating req)) agent)
            | None => s1
            end
          else s1 in
        (s2, Ok (ticketID, t2))
  end.

Definition DeleteTicket (now : Timestamp) (s : Store.t) (id : string)
    (deletedBy : string) : Store.t * Result unit :=
  match GetTicket s id with
  | Err e => (s, Err e)
  | Ok (ticketID, ticket) =>
      let s1 :=
        if negb (String.eqb (Ticket.AssignedToID ticket) "")
        then agent_DecrementTicketCount now s
               (ObjectIDFromHex_ (Ticket.AssignedToID ticket))
        else s in
      let s2 :=
        match Ticket.DepartmentID ticket with
        | Some deptID =>
            if negb (String.eqb (Ticket.Status ticket) StatusClosed)
               && negb (String.eqb (Ticket.Status ticket) StatusResolved)
            then department_DecrementOpenTickets now s1 deptID else s1
        | None => s1
        end in
      (ticket_Delete now s2 ticketID deletedBy, Ok tt)
  end.

End TicketUsecase.

(** ** AdminUsecase: the bulk operations

    Each loop is a fold over the ticket ids; the accumulator is the store
    and [successCount]. An item that [continue]s leaves both as they are. *)

Section AdminUsecase.

Definition bulk_loop (item : Store.t → string → option Store.t)
    (ticketIDs : list string) (s : Store.t) : Store.t * Z :=
  foldl (fun '(s, successCount) ticketIDStr =>
           match item s ticketIDStr with
           | Some s' => (s', successCount + 1)
           | None => (s, successCount)
           end)
    (s, 0) ticketIDs.

Definition BulkAssignTickets_item (now : Timestamp)
    (agentID : ObjectID) (agent : Agent.t) (changedBy changedByName : string)
    (s : Store.t) (ticketIDStr : string) : option Store.t :=
  match ObjectIDFromHex ticketIDStr with
  | None => None
  | Some ticketID =>
      match ticket_GetByID s ticketID with
      | None => None
      | Some ticket =>
          let oldAssignee := Ticket.AssignedToID ticket in
          let updates :=
            ([F_assigned_to_id (Agent.UserID agent);
             F_assigned_to_name (Agent.Name agent);
             F_assigned_at now;
             F_updated_at now]
            ++ (if String.eqb (Ticket.Status ticket) StatusOpen
                then [F_status StatusInProgress] else []))%list in
          let s1 := ticket_UpdateFields now s ticketID updates in
          let s2 := history_Create now s1
                      (TicketHistory.mk ticketID (Ticket.TenantID ticket)
                         "assigned" "" (VString oldAssignee)
                         (VString (Agent.UserID agent)) changedBy
                         changedByName "" now) in
          Some (agent_IncrementTicketCount now s2 agentID)
      end
  end.

Definition BulkAssignTickets (now : Timestamp) (s : Store.t)
    (tenantID : string) (ticketIDs : list string)
    (agentID changedBy changedByName : string) : Store.t * Result Z :=
  match agent_GetByUserID s tenantID agentID with
  | None => (s, Err "agent not found")
  | Some (aid, agent) =>
      let '(s', successCount) :=
        bulk_loop (BulkAssignTickets_item now aid agent changedBy changedByName)
          ticketIDs s in
      (s', Ok successCount)
  end.

Definition BulkChangeStatus_item (now : Timestamp) (status : string)
    (changedBy changedByName : string) (s : Store.t) (ticketIDStr : string)
    : option Store.t :=
  match ObjectIDFromHex ticketIDStr with
  | None => None
  | Some ticketID =>
      match ticket_GetByID s ticketID with
      | None => None
      | Some ticket =>
          let oldStatus := Ticket.Status ticket in
          let updates :=
            ([F_status status; F_updated_at now]
             ++ (if String.eqb status StatusResolved
                    || String.eqb status StatusClosed
                 then [F_resolved_at now] else []))%list in
          let s1 := ticket_UpdateFields now s ticketID updates in
          Some (history_Create now s1
                  (TicketHistory.mk ticketID (Ticket.TenantID ticket)
                     "status_changed" "" (VString oldStatus) (VString status)
                     changedBy changedByName "" now))
      end
  end.

Definition BulkChangeStatus (now : Timestamp) (s : Store.t)
    (tenantID : string) (ticketIDs : list string) (status : string)
    (changedBy changedByName : string) : Store.t * Result Z :=
  let '(s', successCount) :=
    bulk_loop (BulkChangeStatus_item now status changedBy changedByName)
      ticketIDs s in
  (s', Ok successCount).

Definition BulkChangePriority_item (now : Timestamp) (priority : string)
    (changedBy changedByName : string) (s : Store.t) (ticketIDStr : string)
    : option Store.t :=
  match ObjectIDFromHex ticketIDStr with
  | None => None
  | Some ticketID =>
      match ticket_GetByID s ticketID with
      | None => None
      | Some ticket =>
          let oldPriority := Ticket.Priority ticket in
          let updates := [F_priority priority; F_updated_at now] in
          let s1 := ticket_UpdateFields now s ticketID updates in
          Some (history_Create now s1
                  (TicketHistory.mk ticketID (Ticket.TenantID ticket)
                     "priority_changed" "" (VString oldPriority)
                     (VString priority) changedBy changedByName "" now))
      end
  end.

Definition BulkChangePriority (now : Timestamp) (s : Store.t)
    (tenantID : string) (ticketIDs : list string) (priority : string)
    (changedBy changedByName : string) : Store.t * Result Z :=
  let '(s', successCount) :=
    bulk_loop (BulkChangePriority_item now priority changedBy changedByName)
      ticketIDs s in
  (s', Ok successCount).

Definition BulkTransferDepartment_item (now : Timestamp) (deptID : ObjectID)
    (dept : Department.t) (changedBy changedByName : string) (s : Store.t)
    (ticketIDStr : string) : option Store.t :=
  match ObjectIDFromHex ticketIDStr with
  | None => None
  | Some ticketID =>
      match ticket_GetByID s ticketID with
      | None => None
      | Some ticket =>
          let oldDeptID :=
            match Ticket.DepartmentID ticket with
            | Some old => Hex old
            | None => ""
            end in
          let updates :=
            [F_department_id deptID;
             F_department_name (Department.Name dept);
             F_updated_at now] in
          let s1 := ticket_UpdateFields now s ticketID updates in
          let s2 :=
            match Ticket.DepartmentID ticket with
            | Some old => department_DecrementOpenTickets now s1 old
            | None => s1
            end in
          let s3 := department_IncrementTicketCount now s2 deptID true in
          Some (history_Create now s3
                  (TicketHistory.mk ticketID (Ticket.TenantID ticket)
                     "transferred" "" (VString oldDeptID) (VString (Hex deptID))
                     changedBy changedByName "" now))
      end
  end.

Definition BulkTransferDepartment (now : Timestamp) (s : Store.t)
    (tenantID : string) (ticketIDs : list string)
    (departmentID changedBy changedByName : string) : Store.t * Result Z :=
  match ObjectIDFromHex departmentID with
  | None => (s, Err "invalid department ID")
  | Some deptID =>
      match department_GetByID s deptID with
      | None => (s, Err "department not found")
      | Some dept =>
          let '(s', successCount) :=
            bulk_loop
              (BulkTransferDepartment_item now deptID dept changedBy
                 changedByName)
              ticketIDs s in
          (s', Ok successCount)
      end
  end.

Definition BulkDeleteTickets_item (now : Timestamp) (tenantID : string)
    (s : Store.t) (ticketIDStr : string) : option Store.t :=
  match ObjectIDFromHex ticketIDStr with
  | None => None
  | Some ticketID =>
      match ticket_GetByID s ticketID with
      | None => None
      | Some ticket =>
          if negb (String.eqb (Ticket.TenantID ticket) tenantID) then None
          else
            let s1 := ticket_Delete now s ticketID "" in
            let s2 :=
              match Ticket.DepartmentID ticket with
              | Some deptID => department_DecrementOpenTickets now s1 deptID
              | None => s1
              end in
            let s3 :=
              if negb (String.eqb (Ticket.AssignedToID ticket) "") then
                match agent_GetByUserID s2 tenantID
                        (Ticket.AssignedToID ticket) with
                | Some (agentID, _) => agent_DecrementTicketCount now s2 agentID
                | None => s2
                end
              else s2 in
            Some s3
      end
  end.

Definition BulkDeleteTickets (now : Timestamp) (s : Store.t)
    (tenantID : string) (ticketIDs : list string) : Store.t * Result Z :=
  let '(s', successCount) :=
    bulk_loop (BulkDeleteTickets_item now tenantID) ticketIDs s in
  (s', Ok successCount).

End AdminUsecase.

(** ** The rate limiter (middleware)

    [RateLimiter]: a map from the request's key to a count and the time the
    window ends; the handler runs under the lock, so it is a function of the
    map. *)

Module RateLimitConfig.
Record t : Type := mk {
  Max : Z;
  Expiration : Z
}.
End RateLimitConfig.

Module rateLimitEntry.
Record t : Type := mk {
  count : Z;
  expiresAt : Timestamp
}.
End rateLimitEntry.

Definition DefaultRateLimitConfig : RateLimitConfig.t :=
  {| RateLimitConfig.Max := 100; RateLimitConfig.Expiration := Minute |}.

(** [Handler]: the map after the request and whether the request goes on
    to the next handler; [false] is the answer 429. *)
Definition Handler (config : RateLimitConfig.t) (now : Timestamp)
    (key : string) (entries : gmap string rateLimitEntry.t)
    : gmap string rateLimitEntry.t * bool :=
  let fresh :=
    {| rateLimitEntry.count := 1;
       rateLimitEntry.expiresAt := now + RateLimitConfig.Expiration config |} in
  match entries !! key with
  | None => (<[key := fresh]> entries, true)
  | Some entry =>
      if rateLimitEntry.expiresAt entry <? now
      then (<[key := fresh]> entries, true)
      else if RateLimitConfig.Max config <=? rateLimitEntry.count entry
      then (entries, false)
      else (<[key := {| rateLimitEntry.count :=
                          wrap64 (rateLimitEntry.count entry + 1);
                        rateLimitEntry.expiresAt :=
                          rateLimitEntry.expiresAt entry |}]> entries,
            true)
  end.

(** One round of [cleanup]: the entries whose window has ended go. *)
Definition cleanup (now : Timestamp) (entries : gmap string rateLimitEntry.t)
    : gmap string rateLimitEntry.t :=
  filter (fun kv => ¬ rateLimitEntry.expiresAt kv.2 < now) entries.

(** The answers to a list of requests, each a time and a key. *)
Fixpoint serve (config : RateLimitConfig.t) (requests : list (Timestamp * string))
    (entries : gmap string rateLimitEntry.t) : list bool :=
  match requests with
  | [] => []
  | (now, key) :: rest =>
      let '(entries', next) := Handler config now key entries in
      next :: serve config rest entries'
  end.

(** How many of the requests are for [key], and how many of them go on. *)
Definition requests_of (key : string) (requests : list (Timestamp * string))
    : Z :=
  Z.of_nat (length (filter (fun r => r.2 = key) requests)).

Definition admitted (config : RateLimitConfig.t) (key : string)
    (requests : list (Timestamp * string))
    (entries : gmap string rateLimitEntry.t) : Z :=
  Z.of_nat
    (length (filter (fun rn => rn.1.2 = key ∧ rn.2 = true)
               (zip requests (serve config requests entries)))).

(** ** Roles and permissions (middleware)

    [RequireRole] and [RequirePermission] as functions of the list stored
    in the request context, [None] when there is none. *)

Definition RequireRole (roles : list string) (userRoles : option (list string))
    : bool :=
  match userRoles with
  | None => false
  | Some userRoles =>
      existsb (fun requiredRole =>
                 existsb (fun userRole => String.eqb userRole requiredRole)
                   userRoles)
        roles
  end.

Definition RequirePermission (permissions : list string)
    (userPermissions : option (list string)) : bool :=
  match userPermissions with
  | None => false
  | Some userPermissions =>
      forallb (fun requiredPerm =>
                 existsb (fun userPerm => String.eqb userPerm requiredPerm)
                   userPermissions)
        permissions
  end.

Definition AgentMiddleware : option (list string) → bool :=
  RequireRole ["agent"; "admin"; "supervisor"].

Definition AdminMiddleware : option (list string) → bool :=
  RequireRole ["admin"; "supervisor"].

(** ** AdminUsecase: SLA policies *)

(** [SLAPolicyRepository.Delete]: the document is removed. *)
Definition sla_Delete (s : Store.t) (id : ObjectID) : Store.t :=
  Store.set_sla_policies (delete id (Store.sla_policies s)) s.

Definition GetSLAPolicy (s : Store.t) (id : string)
    : Result (ObjectID * SLAPolicy.t) :=
  match ObjectIDFromHex id with
  | None => Err "invalid SLA policy ID"
  | Some slaID =>
      match sla_GetByID s slaID with
      | None => Err "SLA policy not found"
      | Some policy => Ok policy
      end
  end.

Definition DeleteSLAPolicy (s : Store.t) (id : string) : Store.t * Result unit :=
  match GetSLAPolicy s id with
  | Err e => (s, Err e)
  | Ok (policyID, policy) =>
      if SLAPolicy.IsDefault policy
      then (s, Err "cannot delete default SLA policy")
      else (sla_Delete s policyID, Ok tt)
  end.

(** ** Operations as data

    The lifecycle and bulk operations with their inputs, so that a run of
    the service is a list. *)
Inductive Op : Type :=
  | OpCreate (now : Timestamp) (newID : ObjectID) (req : CreateTicketRequest.t)
      (customerID customerName customerEmail : string)
  | OpUpdate (now : Timestamp) (id : string) (req : UpdateTicketRequest.t)
      (userID userName : string) (isAgent : bool)
  | OpChangeStatus (now : Timestamp) (id : string) (req : ChangeStatusRequest.t)
      (userID userName : string) (isAgent : bool)
  | OpAssign (now : Timestamp) (id : string) (req : AssignTicketRequest.t)
      (assignedByID assignedByName : string)
  | OpTransfer (now : Timestamp) (id : string) (req : TransferTicketRequest.t)
      (userID userName : string)
  | OpAddReply (now : Timestamp) (ticketID : string)
      (req : CreateMessageRequest.t)
      (senderID senderName senderEmail senderType : string)
  | OpRate (now : Timestamp) (id : string) (req : RateTicketRequest.t)
      (userID : string)
  | OpDelete (now : Timestamp) (id : string) (deletedBy : string)
  | OpBulkAssign (now : Timestamp) (tenantID : string) (ticketIDs : list string)
      (agentID changedBy changedByName : string)
  | OpBulkChangeStatus (now : Timestamp) (tenantID : string)
      (ticketIDs : list string) (status changedBy changedByName : string)
  | OpBulkChangePriority (now : Timestamp) (tenantID : string)
      (ticketIDs : list string) (priority changedBy changedByName : string)
  | OpBulkTransfer (now : Timestamp) (tenantID : string)
      (ticketIDs : list string) (departmentID changedBy changedByName : string)
  | OpBulkDelete (now : Timestamp) (tenantID : string)
      (ticketIDs : list string).

Definition succeeded {A : Type} (r : Result A) : bool :=
  match r with
  | Ok _ => true
  | Err _ => false
  end.

(** One operation: the database after it and whether it returned without
    an error. *)
Definition step (config : Config.t) (op : Op) (s : Store.t) : Store.t * bool :=
  match op with
  | OpCreate now newID req cid cname cemail =>
      let '(s', r) := CreateTicket config now newID s req cid cname cemail in
      (s', succeeded r)
  | OpUpdate now id req uid uname isAgent =>
      let '(s', r) := UpdateTicket config now s id req uid uname isAgent in
      (s', succeeded r)
  | OpChangeStatus now id req uid uname isAgent =>
      let '(s', r) := ChangeStatus now s id req uid uname isAgent in
      (s', succeeded r)
  | OpAssign now id req bid bname =>
      let '(s', r) := AssignTicket config now s id req bid bname in
      (s', succeeded r)
  | OpTransfer now id req uid uname =>
      let '(s', r) := TransferTicket config now s id req uid uname in
      (s', succeeded r)
  | OpAddReply now tid req sid sname semail stype =>
      let '(s', r) := AddReply now s tid req sid sname semail stype in
      (s', succeeded r)
  | OpRate now id req uid =>
      let '(s', r) := RateTicket now s id req uid in (s', succeeded r)
  | OpDelete now id by_ =>
      let '(s', r) := DeleteTicket now s id by_ in (s', succeeded r)
  | OpBulkAssign now tenant ids agentID cb cbn =>
      let '(s', r) := BulkAssignTickets now s tenant ids agentID cb cbn in
      (s', succeeded r)
  | OpBulkChangeStatus now tenant ids status cb cbn =>
      let '(s', r) := BulkChangeStatus now s tenant ids status cb cbn in
      (s', succeeded r)
  | OpBulkChangePriority now tenant ids priority cb cbn =>
      let '(s', r) := BulkChangePriority now s tenant ids priority cb cbn in
      (s', succeeded r)
  | OpBulkTransfer now tenant ids dept cb cbn =>
      let '(s', r) := BulkTransferDepartment now s tenant ids dept cb cbn in
      (s', succeeded r)
  | OpBulkDelete now tenant ids =>
      let '(s', r) := BulkDeleteTickets now s tenant ids in (s', succeeded r)
  end.

(** A sequence of operations, first to last. *)
Definition run (config : Config.t) (ops : list Op) (s : Store.t) : Store.t :=
  foldl (fun s op => (step config op s).1) s ops.

(** ** A small database used to run the operations *)

Definition id_hex (n : N) : string := Hex n.

Definition ex_config : Config.t :=
  {| Config.SLA_Enabled := true;
     Config.SLA_DefaultResponseHours := 24;
     Config.SLA_DefaultResolveHours := 72;
     Config.Ticket_AutoAssignEnabled := false |}.

Definition ex_department (name : string) (open : Z) : Department.t :=
  {| Department.TenantID := "acme"; Department.Name := name;
     Department.SLAPolicyID := None; Department.OpenTickets := open;
     Department.TotalTickets := open; Department.UpdatedAt := 0;
     Department.IsDeleted := false |}.

Definition ex_agent (user : string) (current max : Z) : Agent.t :=
  {| Agent.TenantID := "acme"; Agent.UserID := user; Agent.Name := user;
     Agent.Email := user +:+ "@acme.test"; Agent.DepartmentIDs := [1%N];
     Agent.Status := AgentStatusAvailable; Agent.MaxTickets := max;
     Agent.CurrentTickets := current; Agent.TicketsToday := 0;
     Agent.AvgRating := 0%float; Agent.TotalResolved := 0;
     Agent.UpdatedAt := 0; Agent.IsDeleted := false; Agent.IsActive := true |}.

Definition ex_request (department : string) : CreateTicketRequest.t :=
  {| CreateTicketRequest.TenantID := "acme";
     CreateTicketRequest.Subject := "Printer is on fire";
     CreateTicketRequest.Description := "Smoke comes out of tray two";
     CreateTicketRequest.Type_ := "";
     CreateTicketRequest.Priority := "";
     CreateTicketRequest.Source := "";
     CreateTicketRequest.DepartmentID := department;
     CreateTicketRequest.CategoryID := "";
     CreateTicketRequest.Tags := [];
     CreateTicketRequest.CustomFields := [];
     CreateTicketRequest.CCEmails := [] |}.

(** Two departments, two agents (the second one's user id is the hex form
    of its document id), no ticket. *)
Definition ex_store : Store.t :=
  {| Store.tickets := ∅;
     Store.agents := <[10%N := ex_agent "alice" 0 5]>
                       (<[11%N := ex_agent (id_hex 11) 0 1]> ∅);
     Store.departments := <[1%N := ex_department "Support" 0]>
                            (<[2%N := ex_department "Billing" 0]> ∅);
     Store.categories := ∅;
     Store.sla_policies := ∅;
     Store.ticket_history := [];
     Store.ticket_messages := [];
     Store.ticket_counters := ∅ |}.

(** [ex_store] after a customer opened ticket 100 in department 1. *)
Definition ex_store_1 : Store.t := Eval vm_compute in
  (CreateTicket ex_config 1000 100%N ex_store (ex_request (id_hex 1))
     "carol" "Carol" "carol@example.test").1.

(** [ex_store_1] after ticket 100 was assigned to the agent stored under
    id 11, whose capacity is one ticket. *)
Definition ex_store_2 : Store.t := Eval vm_compute in
  (AssignTicket ex_config 1500 ex_store_1 (id_hex 100)
     (AssignTicketRequest.mk (id_hex 11) "") "boss" "Boss").1.

(** A run that decrements more often than it incremented: ticket 100 is
    created, assigned to the agent stored under id 11, resolved (the
    agent's count goes back to zero) and deleted (the count is decremented
    once more). *)
Definition ex_resolve_then_delete : list Op :=
  [OpCreate 1000 100%N (ex_request (id_hex 1)) "carol" "Carol"
     "carol@example.test";
   OpAssign 1500 (id_hex 100) (AssignTicketRequest.mk (id_hex 11) "")
     "boss" "Boss";
   OpChangeStatus 2000 (id_hex 100) (ChangeStatusRequest.mk StatusResolved "")
     "bob" "Bob" true;
   OpDelete 4000 (id_hex 100) "bob"].

Definition ex_config_sla_off : Config.t :=
  {| Config.SLA_Enabled := false;
     Config.SLA_DefaultResponseHours := 24;
     Config.SLA_DefaultResolveHours := 72;
     Config.Ticket_AutoAssignEnabled := false |}.

(** A ticket as [CreateTicket] builds it before the SLA step. *)
Definition ex_new_ticket : Ticket.t :=
  new_ticket (ex_request "") "TKT-000001" "carol" "Carol" "carol@example.test".

(** A patch with a new subject and the description the ticket has. *)
Definition ex_patch_subject : UpdateTicketRequest.t :=
  {| UpdateTicketRequest.Subject := Some "Printer was on fire";
     UpdateTicketRequest.Description := Some "Smoke comes out of tray two";
     UpdateTicketRequest.Type_ := None;
     UpdateTicketRequest.Priority := None;
     UpdateTicketRequest.DepartmentID := None;
     UpdateTicketRequest.CategoryID := None;
     UpdateTicketRequest.Tags := None;
     UpdateTicketRequest.CustomFields := None;
     UpdateTicketRequest.CCEmails := None |}.

(** A patch that only replaces the tags. *)
Definition ex_patch_tags : UpdateTicketRequest.t :=
  {| UpdateTicketRequest.Subject := None;
     UpdateTicketRequest.Description := None;
     UpdateTicketRequest.Type_ := None;
     UpdateTicketRequest.Priority := None;
     UpdateTicketRequest.DepartmentID := None;
     UpdateTicketRequest.CategoryID := None;
     UpdateTicketRequest.Tags := Some ["vip"];
     UpdateTicketRequest.CustomFields := None;
     UpdateTicketRequest.CCEmails := None |}.

(** Ticket 100 is created in department 1, resolved by an agent and then
    transferred to department 2. *)
Definition ex_create_resolve : list Op :=
  [OpCreate 1000 100%N (ex_request (id_hex 1)) "carol" "Carol"
     "carol@example.test";
   OpChangeStatus 2000 (id_hex 100) (ChangeStatusRequest.mk StatusResolved "")
     "bob" "Bob" true].

Definition ex_create_resolve_transfer : list Op :=
  (ex_create_resolve
   ++ [OpTransfer 3000 (id_hex 100)
         (TransferTicketRequest.mk (id_hex 2) "" "") "bob" "Bob"])%list.

Definition ex_config_auto : Config.t :=
  {| Config.SLA_Enabled := true;
     Config.SLA_DefaultResponseHours := 24;
     Config.SLA_DefaultResolveHours := 72;
     Config.Ticket_AutoAssignEnabled := true |}.

(** [ex_store] after ticket 100 was created in department 1 and resolved. *)
Definition ex_store_resolved : Store.t := Eval vm_compute in
  run ex_config ex_create_resolve ex_store.

Definition ex_patch_department : UpdateTicketRequest.t :=
  {| UpdateTicketRequest.Subject := None;
     UpdateTicketRequest.Description := None;
     UpdateTicketRequest.Type_ := None;
     UpdateTicketRequest.Priority := None;
     UpdateTicketRequest.DepartmentID := Some (id_hex 2);
     UpdateTicketRequest.CategoryID := None;
     UpdateTicketRequest.Tags := None;
     UpdateTicketRequest.CustomFields := None;
     UpdateTicketRequest.CCEmails := None |}.

(** [ex_store] with two policies of tenant acme, the second the default,
    and the first named by department 1. *)
Definition ex_store_sla : Store.t :=
  Store.set_sla_policies
    (<[20%N := SLAPolicy.mk "acme" false true []]>
       (<[21%N := SLAPolicy.mk "acme" true true []]> ∅))
    (Store.set_departments
       (<[1%N := {| Department.TenantID := "acme";
                    Department.Name := "Support";
                    Department.SLAPolicyID := Some 20%N;
                    Department.OpenTickets := 0;
                    Department.TotalTickets := 0;
                    Department.UpdatedAt := 0;
                    Department.IsDeleted := false |}]> ∅)
       ex_store).

(** ** Statements

    The predicates and observations the properties are stated with. *)

(** The customer side of the transition table of the design. *)
Definition customer_transitions : list (string * string) :=
  [(StatusResolved, StatusReopened); (StatusResolved, StatusClosed);
   (StatusPending, StatusOpen); (StatusOpen, StatusCancelled)].

(** The table: agents may do any transition, customers the four pairs. *)
Definition permitted (from to : string) (isAgent : bool) : Prop :=
  isAgent = true ∨ (from, to) ∈ customer_transitions.

(** The stored status of a ticket. *)
Definition stored_status (s : Store.t) (ticketID : ObjectID) : option string :=
  Ticket.Status <$> Store.tickets s !! ticketID.

#[local] Instance permitted_dec from to isAgent :
  Decision (permitted from to isAgent).
Proof. unfold permitted. apply _. Defined.

(** The code and the table give the same answer on one combination. *)
Definition table_agrees (from to : string) (isAgent : bool) : bool :=
  Bool.eqb (isValidStatusTransition from to isAgent)
    (bool_decide (permitted from to isAgent)).

(** No agent holds more tickets than its maximum. *)
Definition within_capacity (s : Store.t) : Prop :=
  map_Forall (fun _ a => Agent.CurrentTickets a ≤ Agent.MaxTickets a)
    (Store.agents s).

(** No agent workload and no department open counter is below zero. *)
Definition counters_nonneg (s : Store.t) : Prop :=
  map_Forall (fun _ a => 0 ≤ Agent.CurrentTickets a) (Store.agents s)
  ∧ map_Forall (fun _ d => 0 ≤ Department.OpenTickets d) (Store.departments s).

#[local] Instance counters_nonneg_dec s : Decision (counters_nonneg s).
Proof. unfold counters_nonneg. apply _. Defined.

Definition stored_current (s : Store.t) (agentID : ObjectID) : option Z :=
  Agent.CurrentTickets <$> Store.agents s !! agentID.

(** The history after is the history before with entries added at the end:
    no entry is rewritten or removed. *)
Definition history_prefix (s s' : Store.t) : Prop :=
  Store.ticket_history s `prefix_of` Store.ticket_history s'.

Definition history_grows (s s' : Store.t) : Prop :=
  (length (Store.ticket_history s) < length (Store.ticket_history s'))%nat.

(** No policy can be resolved for the ticket: its department, if it has one
    that is stored and refers to a policy, refers to a policy that is not
    stored, and the tenant has no active default policy. *)
Definition no_policy (s : Store.t) (ticket : Ticket.t) : Prop :=
  (∀ deptID dept policyID,
     Ticket.DepartmentID ticket = Some deptID →
     department_GetByID s deptID = Some dept →
     Department.SLAPolicyID dept = Some policyID →
     Store.sla_policies s !! policyID = None)
  ∧ sla_GetDefault s (Ticket.TenantID ticket) = None.

(** The change a compared string field records: present in the patch and
    different from the current value. *)
Definition change_of (field : string) (patch : option string)
    (current : string) : list Change :=
  match patch with
  | Some v =>
      if String.eqb v current then []
      else [(field, VString current, VString v)]
  | None => []
  end.

(** The change the department reference records: present, resolving to a
    stored department, and another department than the current one; the
    values are the department names. *)
Definition department_change (s : Store.t) (patch : option string)
    (ticket : Ticket.t) : list Change :=
  match patch with
  | Some id =>
      match ObjectIDFromHex id with
      | Some deptID =>
          match department_GetByID s deptID with
          | Some dept =>
              if bool_decide (Ticket.DepartmentID ticket = Some deptID) then []
              else [("department", VString (Ticket.DepartmentName ticket),
                     VString (Department.Name dept))]
          | None => []
          end
      | None => []
      end
  | None => []
  end.

(** The history entry of a change. *)
Definition entry_of (now : Timestamp) (ticketID : ObjectID)
    (tenantID userID userName : string) (c : Change) : TicketHistory.t :=
  TicketHistory.mk ticketID tenantID "updated" c.1.1 c.1.2 c.2
    userID userName "" now.

Definition entries_for (field : string) (hs : list TicketHistory.t)
    : list TicketHistory.t :=
  List.filter (fun h => String.eqb (TicketHistory.Field h) field) hs.

(** The lifecycle operations that write a history entry of their own when
    they succeed, and those that write none. [UpdateTicket] is in neither
    class: it writes one entry per recorded change, which may be none. *)
Definition writes_entry (op : Op) : bool :=
  match op with
  | OpCreate _ _ _ _ _ _ | OpChangeStatus _ _ _ _ _ _
  | OpAssign _ _ _ _ _ | OpTransfer _ _ _ _ _ => true
  | _ => false
  end.

Definition writes_nothing (op : Op) : bool :=
  match op with
  | OpAddReply _ _ _ _ _ _ _ | OpRate _ _ _ _ | OpDelete _ _ _ => true
  | _ => false
  end.

(** The fields [UpdateTicket] compares and records, the category apart. *)
Definition compared_fields : list string :=
  ["subject"; "description"; "type"; "priority"; "department"].

Definition stored_tags (s : Store.t) (ticketID : ObjectID)
    : option (list string) :=
  Ticket.Tags <$> Store.tickets s !! ticketID.

(** The tickets attached to a department that are neither resolved nor
    closed nor soft-deleted. *)
Definition counted_open (s : Store.t) (deptID : ObjectID) : Z :=
  Z.of_nat
    (length
       (List.filter
          (fun '(_, t) =>
             bool_decide (Ticket.DepartmentID t = Some deptID)
             && negb (String.eqb (Ticket.Status t) StatusResolved)
             && negb (String.eqb (Ticket.Status t) StatusClosed)
             && negb (Ticket.IsDeleted t))
          (map_to_list (Store.tickets s)))).

Definition stored_open (s : Store.t) (deptID : ObjectID) : option Z :=
  Department.OpenTickets <$> Store.departments s !! deptID.

Definition stored_priority (s : Store.t) (ticketID : ObjectID)
    : option string :=
  Ticket.Priority <$> Store.tickets s !! ticketID.

Definition stored_tenant (s : Store.t) (ticketID : ObjectID) : option string :=
  Ticket.TenantID <$> Store.tickets s !! ticketID.

(** The number a string of decimal digits stands for, read after [acc]. *)
Fixpoint digits_value (s : string) (acc : N) : N :=
  match s with
  | EmptyString => acc
  | String c s' => digits_value s' (10 * acc + (N_of_ascii c - 48))%N
  end.

(** The sequence of a tenant: the last value handed out, zero before the
    first. *)
Definition sequence_of (s : Store.t) (tenantID : string) : Z :=
  default 0 (Store.ticket_counters s !! tenantID).

(** Nothing stored goes away: every ticket id stays, the messages are only
    added to, no tenant's sequence goes back. *)
Definition store_grows (s s' : Store.t) : Prop :=
  (∀ id, is_Some (Store.tickets s !! id) → is_Some (Store.tickets s' !! id))
  ∧ Store.ticket_messages s `prefix_of` Store.ticket_messages s'
  ∧ ∀ tenantID, sequence_of s tenantID ≤ sequence_of s' tenantID.

(** An agent document after, against the same document before: identity,
    departments, availability and capacity are as they were, the resolved
    and daily totals did not go down. *)
Definition agent_kept (a a' : Agent.t) : Prop :=
  Agent.TenantID a' = Agent.TenantID a
  ∧ Agent.UserID a' = Agent.UserID a
  ∧ Agent.Name a' = Agent.Name a
  ∧ Agent.Email a' = Agent.Email a
  ∧ Agent.DepartmentIDs a' = Agent.DepartmentIDs a
  ∧ Agent.Status a' = Agent.Status a
  ∧ Agent.MaxTickets a' = Agent.MaxTickets a
  ∧ Agent.IsDeleted a' = Agent.IsDeleted a
  ∧ Agent.IsActive a' = Agent.IsActive a
  ∧ Agent.TotalResolved a ≤ Agent.TotalResolved a'
  ∧ Agent.TicketsToday a ≤ Agent.TicketsToday a'.

Definition department_kept (d d' : Department.t) : Prop :=
  Department.TenantID d' = Department.TenantID d
  ∧ Department.Name d' = Department.Name d
  ∧ Department.SLAPolicyID d' = Department.SLAPolicyID d
  ∧ Department.IsDeleted d' = Department.IsDeleted d
  ∧ Department.TotalTickets d ≤ Department.TotalTickets d'.

(** The same agents and departments are stored, each kept as above, and
    the categories and SLA policies are untouched. *)
Definition staff_kept (s s' : Store.t) : Prop :=
  (∀ id, option_Forall2 agent_kept (Store.agents s !! id)
           (Store.agents s' !! id))
  ∧ (∀ id, option_Forall2 department_kept (Store.departments s !! id)
             (Store.departments s' !! id))
  ∧ Store.categories s' = Store.categories s
  ∧ Store.sla_policies s' = Store.sla_policies s.

(** The fields of a ticket that say what it is about, whose it is and
    where it stands. *)
Definition same_core (t t' : Ticket.t) : Prop :=
  Ticket.TenantID t' = Ticket.TenantID t
  ∧ Ticket.TicketNumber t' = Ticket.TicketNumber t
  ∧ Ticket.Subject t' = Ticket.Subject t
  ∧ Ticket.Description t' = Ticket.Description t
  ∧ Ticket.Type_ t' = Ticket.Type_ t
  ∧ Ticket.Status t' = Ticket.Status t
  ∧ Ticket.Priority t' = Ticket.Priority t
  ∧ Ticket.Source t' = Ticket.Source t
  ∧ Ticket.CustomerID t' = Ticket.CustomerID t
  ∧ Ticket.DepartmentID t' = Ticket.DepartmentID t
  ∧ Ticket.DepartmentName t' = Ticket.DepartmentName t
  ∧ Ticket.IsDeleted t' = Ticket.IsDeleted t.

(** The department [CreateTicket] gives the ticket: the requested one when
    it resolves to a stored department that is not deleted. *)
Definition requested_department (s : Store.t) (req : CreateTicketRequest.t)
    : option ObjectID :=
  match ObjectIDFromHex (CreateTicketRequest.DepartmentID req) with
  | Some deptID =>
      match department_GetByID s deptID with
      | Some _ => Some deptID
      | None => None
      end
  | None => None
  end.

(** The count a bulk operation reports; an operation that fails before its
    loop reports none. *)
Definition reported (r : Result Z) : Z :=
  match r with
  | Ok successCount => successCount
  | Err _ => 0
  end.

(** What makes the delete loop skip an id: it does not parse, or names no
    stored ticket that is not deleted, or the ticket is of another
    tenant. *)
Definition bulk_delete_skips (tenantID : string) (s : Store.t) (i : string)
    : Prop :=
  ∀ ticketID ticket,
    ObjectIDFromHex i = Some ticketID →
    ticket_GetByID s ticketID = Some ticket →
    Ticket.TenantID ticket ≠ tenantID.

(** The limiter's map with and without entries that ended before [t]: a
    key has the same entry in both, or none in the first and one that ended
    before [t] in the second. *)
Definition agree_from (t : Timestamp)
    (entries1 entries2 : gmap string rateLimitEntry.t) : Prop :=
  ∀ key,
    entries1 !! key = entries2 !! key
    ∨ (entries1 !! key = None
       ∧ ∃ entry, entries2 !! key = Some entry
                  ∧ rateLimitEntry.expiresAt entry < t).

(** ** Properties *)

(** *** Status transitions *)

Lemma isValidStatusTransition_permitted from to isAgent :
  isValidStatusTransition from to isAgent = true ↔ permitted from to isAgent.
Proof.
  unfold isValidStatusTransition, permitted, customer_transitions.
  destruct isAgent; [naive_solver|].
  rewrite !elem_of_cons, elem_of_nil.
  destruct (String.eqb_spec from StatusResolved) as [->|Hr].
  - rewrite orb_true_iff, !String.eqb_eq. split.
    + intros [->| ->]; auto.
    + intros [H|[[= ->]|[[= ->]|[[=]|[[=]|[]]]]]]; auto; discriminate.
  - destruct (String.eqb_spec from StatusPending) as [->|Hp].
    + rewrite String.eqb_eq. split.
      * intros ->; auto 6.
      * intros [H|[[=]|[[=]|[[= ->]|[[=]|[]]]]]]; auto; discriminate.
    + destruct (String.eqb_spec from StatusOpen) as [->|Ho].
      * rewrite String.eqb_eq. split.
        -- intros ->; auto 6.
        -- intros [H|[[=]|[[=]|[[=]|[[= ->]|[]]]]]]; auto; discriminate.
      * split; [discriminate|].
        intros [H|[[= -> _]|[[= -> _]|[[= -> _]|[[= -> _]|[]]]]]];
          try discriminate; congruence.
Qed.

Lemma ticket_bson_set_Status new old :
  Ticket.Status (ticket_bson_set new old) = Ticket.Status new.
Proof. reflexivity. Qed.

Lemma GetTicket_stored s id ticketID ticket :
  GetTicket s id = Ok (ticketID, ticket) →
  ObjectIDFromHex id = Some ticketID
  ∧ Store.tickets s !! ticketID = Some ticket
  ∧ Ticket.IsDeleted ticket = false.
Proof.
  unfold GetTicket, ticket_GetByID. intros H.
  destruct (ObjectIDFromHex id) as [oid|]; [|discriminate].
  destruct (Store.tickets s !! oid) as [t|] eqn:Hl; [|discriminate].
  destruct (Ticket.IsDeleted t) eqn:Hd; [discriminate|].
  by simplify_eq.
Qed.

(** C1. For every source status, target status and role, [ChangeStatus] on
    an existing ticket succeeds (and the ticket, returned and stored, has
    the target status) when the actor is an agent or the pair is one of
    resolved→reopened, resolved→closed, pending→open, open→cancelled; in
    every other case it fails with the invalid-transition error and the
    database is left as it was. The statement ranges over all strings, so
    over the 9×9×2 combinations of the nine statuses in particular. *)
Theorem ChangeStatus_transition_table now s id ticketID ticket req
    userID userName isAgent :
  GetTicket s id = Ok (ticketID, ticket) →
  let from := Ticket.Status ticket in
  let to := ChangeStatusRequest.Status req in
  (permitted from to isAgent →
   ∃ s' ticket',
     ChangeStatus now s id req userID userName isAgent
       = (s', Ok (ticketID, ticket'))
     ∧ Ticket.Status ticket' = to
     ∧ stored_status s' ticketID = Some to)
  ∧ (¬ permitted from to isAgent →
     ChangeStatus now s id req userID userName isAgent
       = (s, Err InvalidTransitionError)).
Proof.
  intros Hget from to. unfold ChangeStatus. rewrite Hget.
  apply GetTicket_stored in Hget as (_ & Hl & _).
  fold to from. split.
  - intros Hp. apply isValidStatusTransition_permitted in Hp. rewrite Hp.
    cbn [negb].
    match goal with
    | |- context [ (let '(s1, t2) := ?c in _) ] => destruct c as [s1 t2] eqn:Hc
    end.
    assert (Ticket.Status t2 = to ∧ Store.tickets s1 = Store.tickets s)
      as [Hst Htk].
    { repeat (case_match; simplify_eq); split; reflexivity. }
    eexists _, _. split; [reflexivity|]. split; [exact Hst|].
    unfold stored_status. cbn. rewrite Htk, lookup_alter_eq, Hl. cbn.
    by rewrite Hst.
  - intros Hn.
    destruct (isValidStatusTransition from to isAgent) eqn:Hv; [|reflexivity].
    apply isValidStatusTransition_permitted in Hv. contradiction.
Qed.

Lemma ChangeStatus_transition_table_witness :
  ChangeStatus 2000 ex_store_1 (id_hex 100)
    (ChangeStatusRequest.mk StatusClosed "") "carol" "Carol" false
  = (ex_store_1, Err InvalidTransitionError).
Proof.
  assert (∃ t, GetTicket ex_store_1 (id_hex 100) = Ok (100%N, t)
               ∧ Ticket.Status t = StatusOpen) as (t & Hget & Hst).
  { eexists. split; vm_compute; reflexivity. }
  refine (proj2 (ChangeStatus_transition_table 2000 ex_store_1 (id_hex 100)
                   100%N t (ChangeStatusRequest.mk StatusClosed "")
                   "carol" "Carol" false Hget) _).
  rewrite Hst. apply (bool_decide_eq_false_1 (permitted _ _ _)).
  vm_compute. reflexivity.
Defined.

(** The table checked by running the code on the 9×9×2 combinations of the
    nine statuses. *)
Example transition_table_exhaustive :
  forallb (fun from =>
    forallb (fun to =>
      forallb (table_agrees from to) [true; false]) all_statuses)
    all_statuses = true.
Proof. vm_compute. reflexivity. Qed.

(** *** Transfer to a department that does not exist *)



(** A malformed department id is turned away one step earlier, with its own
    message; the database is untouched as well. *)
Lemma TransferTicket_malformed_department config now s id req userID userName
    ticketID ticket :
  GetTicket s id = Ok (ticketID, ticket) →
  ObjectIDFromHex (TransferTicketRequest.DepartmentID req) = None →
  TransferTicket config now s id req userID userName
  = (s, Err "invalid department ID").
Proof.
  intros Hget Hhex. unfold TransferTicket. by rewrite Hget, Hhex.
Qed.

(** *** Capacity of the assignee *)

Lemma agent_GetByUserID_lookup s tenantID userID agentID agent :
  agent_GetByUserID s tenantID userID = Some (agentID, agent) →
  Store.agents s !! agentID = Some agent.
Proof.
  unfold agent_GetByUserID. intros H. apply find_some in H as [Hin _].
  apply list_elem_of_In in Hin. by apply elem_of_map_to_list in Hin.
Qed.

Lemma agent_dec_CurrentTickets now a :
  Agent.CurrentTickets (agent_dec now a) ≤ Agent.CurrentTickets a
  ∧ Agent.MaxTickets (agent_dec now a) = Agent.MaxTickets a.
Proof.
  unfold agent_dec. destruct (0 <? Agent.CurrentTickets a); cbn; lia.
Qed.

Lemma map_Forall_alter_lookup {A : Type} (P : ObjectID → A → Prop) (f : A → A)
    (i : ObjectID) (m : gmap ObjectID A) :
  (∀ x, m !! i = Some x → P i (f x)) →
  map_Forall P m → map_Forall P (alter f i m).
Proof.
  intros Hf Hm j y Hj.
  apply lookup_alter_Some in Hj as [(-> & x & Hx & ->)|[_ Hj]].
  - by apply Hf.
  - by apply Hm.
Qed.

(** C3. [AssignTicket] on an existing ticket, with the assignee resolved to
    an agent of the ticket's tenant: when the agent's current count has
    reached its maximum the call fails with the capacity error and returns
    the database it was given; whenever the call succeeds, the agent's
    stored current count is at most its maximum; and if no agent was over
    its maximum before the call, none is after it. *)
Theorem AssignTicket_capacity config now s id req assignedByID assignedByName
    ticketID ticket agentID agent :
  GetTicket s id = Ok (ticketID, ticket) →
  agent_GetByUserID s (Ticket.TenantID ticket)
    (AssignTicketRequest.AssigneeID req) = Some (agentID, agent) →
  (Agent.MaxTickets agent ≤ Agent.CurrentTickets agent →
   AssignTicket config now s id req assignedByID assignedByName
   = (s, Err CapacityError))
  ∧ (∀ s' r,
       AssignTicket config now s id req assignedByID assignedByName
       = (s', Ok r) →
       ∃ agent', Store.agents s' !! agentID = Some agent'
                 ∧ Agent.CurrentTickets agent' ≤ Agent.MaxTickets agent')
  ∧ (within_capacity s →
     within_capacity
       (AssignTicket config now s id req assignedByID assignedByName).1).
Proof.
  intros Hget Hagent. unfold AssignTicket. rewrite Hget, Hagent.
  apply agent_GetByUserID_lookup in Hagent as Hl.
  split; [|split].
  - intros Hfull. apply Z.leb_le in Hfull. by rewrite Hfull.
  - intros s' r.
    destruct (Agent.MaxTickets agent <=? Agent.CurrentTickets agent) eqn:Hcap;
      [discriminate|].
    apply Z.leb_gt in Hcap. intros [= <- _]. cbn.
    rewrite lookup_alter_eq.
    destruct (negb (Ticket.AssignedToID ticket =? "")%string); cbn.
    + rewrite lookup_alter.
      destruct (decide (ObjectIDFromHex_ (Ticket.AssignedToID ticket)
                        = agentID)) as [->|Hne].
      * rewrite Hl. cbn. eexists. split; [done|].
        cbn. destruct (agent_dec_CurrentTickets now agent) as [H1 H2].
        rewrite H2. lia.
      * rewrite Hl. cbn. eexists.
        split; [done|]. cbn. lia.
    + rewrite Hl. cbn. eexists. split; [done|]. cbn. lia.
  - intros Hs.
    destruct (Agent.MaxTickets agent <=? Agent.CurrentTickets agent) eqn:Hcap;
      [exact Hs|].
    apply Z.leb_gt in Hcap. unfold within_capacity. cbn.
    assert (map_Forall
              (fun _ a => Agent.CurrentTickets a ≤ Agent.MaxTickets a)
              (Store.agents
                 (if negb (Ticket.AssignedToID ticket =? "")%string
                  then agent_DecrementTicketCount now s
                         (ObjectIDFromHex_ (Ticket.AssignedToID ticket))
                  else s))
            ∧ ∃ a, Store.agents
                     (if negb (Ticket.AssignedToID ticket =? "")%string
                      then agent_DecrementTicketCount now s
                             (ObjectIDFromHex_ (Ticket.AssignedToID ticket))
                      else s) !! agentID = Some a
                   ∧ Agent.CurrentTickets a < Agent.MaxTickets a)
      as (Hall & a & Ha & Hlt).
    { destruct (negb (Ticket.AssignedToID ticket =? "")%string); cbn.
      - split.
        + apply map_Forall_alter_lookup; [|exact Hs]. intros x Hx.
          destruct (agent_dec_CurrentTickets now x) as [H1 H2].
          rewrite H2. specialize (Hs _ _ Hx). cbn in Hs. lia.
        + rewrite lookup_alter.
          destruct (decide (ObjectIDFromHex_ (Ticket.AssignedToID ticket)
                            = agentID)) as [->|Hne].
          * rewrite Hl. cbn. eexists. split; [done|].
            destruct (agent_dec_CurrentTickets now agent) as [H1 H2].
            rewrite H2. lia.
          * rewrite Hl. eauto.
      - split; [exact Hs|]. eauto. }
    apply map_Forall_alter_lookup; [|exact Hall].
    intros x Hx. rewrite Ha in Hx. injection Hx as <-. cbn. lia.
Qed.

Lemma AssignTicket_capacity_witness :
  AssignTicket ex_config 2000 ex_store_2 (id_hex 100)
    (AssignTicketRequest.mk (id_hex 11) "") "boss" "Boss"
  = (ex_store_2, Err CapacityError).
Proof.
  assert (∃ t a, GetTicket ex_store_2 (id_hex 100) = Ok (100%N, t)
                 ∧ agent_GetByUserID ex_store_2 (Ticket.TenantID t) (id_hex 11)
                   = Some (11%N, a)
                 ∧ Agent.MaxTickets a = 1 ∧ Agent.CurrentTickets a = 1)
    as (t & a & Hget & Hagent & Hmax & Hcur).
  { eexists _, _. split; [|split; [|split]]; vm_compute; reflexivity. }
  apply (proj1 (AssignTicket_capacity ex_config 2000 ex_store_2 (id_hex 100)
                  (AssignTicketRequest.mk (id_hex 11) "") "boss" "Boss"
                  100%N t 11%N a Hget Hagent)).
  rewrite Hmax, Hcur. lia.
Defined.

(** *** Relations every repository write respects

    A relation between the database before and after that is reflexive,
    transitive and holds across each write of the repositories holds
    across every operation. The history only growing and the counters
    staying non-negative are two instances. *)

Section WriteClosed.

Variable R : Store.t → Store.t → Prop.

Hypothesis R_refl : ∀ s, R s s.

Hypothesis R_trans : ∀ s1 s2 s3, R s1 s2 → R s2 s3 → R s1 s3.

Hypothesis R_ticket_Create : ∀ now s newID t s' t',
  ticket_Create now s newID t = Some (s', t') → R s s'.

Hypothesis R_set_tickets : ∀ s m, R s (Store.set_tickets m s).

Hypothesis R_set_ticket_messages : ∀ s m, R s (Store.set_ticket_messages m s).

Hypothesis R_set_ticket_counters : ∀ s m, R s (Store.set_ticket_counters m s).

Hypothesis R_agent_inc : ∀ now s id, R s (agent_IncrementTicketCount now s id).

Hypothesis R_agent_dec : ∀ now s id, R s (agent_DecrementTicketCount now s id).

Hypothesis R_agent_resolved : ∀ now s id, R s (agent_IncrementResolved now s id).

Hypothesis R_agent_Update : ∀ now s id a v,
  agent_GetByID s id = Some a →
  R s (agent_Update now s id (Agent.set_AvgRating v a)).

Hypothesis R_department_inc : ∀ now s id isOpen,
  R s (department_IncrementTicketCount now s id isOpen).

Hypothesis R_department_dec : ∀ now s id,
  R s (department_DecrementOpenTickets now s id).

Hypothesis R_history_Create : ∀ now s h, R s (history_Create now s h).

Variable config : Config.t.

Lemma R_ticket_Update now s id t s' t' :
  ticket_Update now s id t = (s', t') → R s s'.
Proof. intros [= <- _]. apply R_set_tickets. Qed.

Lemma R_message_Create now s m s' m' :
  message_Create now s m = (s', m') → R s s'.
Proof. intros [= <- _]. apply R_set_ticket_messages. Qed.

Lemma R_GetNextTicketNumber s tenantID s' n :
  ticket_GetNextTicketNumber s tenantID = (s', n) → R s s'.
Proof. intros [= <- _]. apply R_set_ticket_counters. Qed.

(** Peels the writes off the database on the right, last write first. *)
Ltac peel :=
  repeat first
    [ apply R_refl
    | assumption
    | match goal with
      | |- R _ (agent_IncrementTicketCount _ _ _) =>
          eapply R_trans; [|apply R_agent_inc]
      | |- R _ (agent_DecrementTicketCount _ _ _) =>
          eapply R_trans; [|apply R_agent_dec]
      | |- R _ (agent_IncrementResolved _ _ _) =>
          eapply R_trans; [|apply R_agent_resolved]
      | H : agent_GetByID ?s ?i = Some ?a |- R _ (agent_Update _ ?s ?i _) =>
          eapply R_trans; [|apply (R_agent_Update _ _ _ _ _ H)]
      | |- R _ (department_IncrementTicketCount _ _ _ _) =>
          eapply R_trans; [|apply R_department_inc]
      | |- R _ (department_DecrementOpenTickets _ _ _) =>
          eapply R_trans; [|apply R_department_dec]
      | |- R _ (history_Create _ _ _) =>
          eapply R_trans; [|apply R_history_Create]
      | |- R _ (createHistory _ _ _ _ _ _ _ _ _ _ _) =>
          eapply R_trans; [|apply R_history_Create]
      | |- R _ (ticket_UpdateFields _ _ _ _) =>
          eapply R_trans; [|apply R_set_tickets]
      | |- R _ (ticket_Delete _ _ _ _) =>
          eapply R_trans; [|apply R_set_tickets]
      | |- R _ (ticket_IncrementMessageCount _ _ _ _) =>
          eapply R_trans; [|apply R_set_tickets]
      | H : ticket_Update _ _ _ _ = (?s1, _) |- R _ ?s1 =>
          eapply R_trans; [|apply (R_ticket_Update _ _ _ _ _ _ H)]
      | H : message_Create _ _ _ = (?s1, _) |- R _ ?s1 =>
          eapply R_trans; [|apply (R_message_Create _ _ _ _ _ H)]
      | H : ticket_GetNextTicketNumber _ _ = (?s1, _) |- R _ ?s1 =>
          eapply R_trans; [|apply (R_GetNextTicketNumber _ _ _ _ H)]
      | H : ticket_Create _ _ _ _ = Some (?s1, _) |- R _ ?s1 =>
          eapply R_trans; [|apply (R_ticket_Create _ _ _ _ _ _ H)]
      end ].

Ltac cases := repeat (case_match; simplify_eq); cbn [fst snd].

Lemma R_autoAssign now s ticketID ticket :
  R s (autoAssign now s ticketID ticket).1.
Proof. unfold autoAssign. cases; peel. Qed.

Lemma R_autoAssign' now s ticketID ticket s' t' :
  autoAssign now s ticketID ticket = (s', t') → R s s'.
Proof. intros H. pose proof (R_autoAssign now s ticketID ticket) as HR. by rewrite H in HR. Qed.

Lemma R_CreateTicket now newID s req cid cname cemail :
  R s (CreateTicket config now newID s req cid cname cemail).1.
Proof.
  unfold CreateTicket. cases; peel;
    try (eapply R_trans; [|eapply R_autoAssign'; eassumption]; peel).
Qed.

Lemma R_write_changes now ticketID tenantID userID userName changes s :
  R s (write_changes now ticketID tenantID userID userName changes s).
Proof.
  unfold write_changes. revert s.
  induction changes as [|[[field old] new] changes IH]; intros s; cbn.
  - apply R_refl.
  - eapply R_trans; [|apply IH]. apply R_history_Create.
Qed.

Lemma R_UpdateTicket now s id req userID userName isAgent :
  R s (UpdateTicket config now s id req userID userName isAgent).1.
Proof.
  unfold UpdateTicket. cases; peel.
  eapply R_trans; [|apply R_write_changes]. peel.
Qed.

Lemma R_ChangeStatus now s id req userID userName isAgent :
  R s (ChangeStatus now s id req userID userName isAgent).1.
Proof. unfold ChangeStatus. cases; peel. Qed.

Lemma R_AssignTicket now s id req assignedByID assignedByName :
  R s (AssignTicket config now s id req assignedByID assignedByName).1.
Proof. unfold AssignTicket. cases; peel. Qed.

Lemma R_TransferTicket now s id req userID userName :
  R s (TransferTicket config now s id req userID userName).1.
Proof.
  unfold TransferTicket. cases; peel;
    match goal with
    | H : AssignTicket ?c ?n ?s0 ?i ?r ?a ?b = (?s1, _) |- R _ ?s1 =>
        pose proof (R_AssignTicket n s0 i r a b) as HR; rewrite H in HR;
        eapply R_trans; [|exact HR]
    | H : autoAssign _ _ _ _ = (?s1, _) |- R _ ?s1 =>
        eapply R_trans; [|eapply R_autoAssign'; eassumption]
    end; peel.
Qed.

Lemma R_AddReply now s ticketID req senderID senderName senderEmail senderType :
  R s (AddReply now s ticketID req senderID senderName senderEmail
         senderType).1.
Proof. unfold AddReply. cases; peel. Qed.

Lemma R_RateTicket now s id req userID :
  R s (RateTicket now s id req userID).1.
Proof. unfold RateTicket. cases; peel. Qed.

Lemma R_DeleteTicket now s id deletedBy :
  R s (DeleteTicket now s id deletedBy).1.
Proof. unfold DeleteTicket. cases; peel. Qed.

Lemma R_bulk_loop item ticketIDs s :
  (∀ s0 i s1, item s0 i = Some s1 → R s0 s1) →
  R s (bulk_loop item ticketIDs s).1.
Proof.
  intros Hitem. unfold bulk_loop. generalize 0 as n. revert s.
  induction ticketIDs as [|i ids IH]; intros s n; cbn.
  - apply R_refl.
  - destruct (item s i) as [s1|] eqn:Hi.
    + eapply R_trans; [eapply Hitem; eassumption|]. apply IH.
    + apply IH.
Qed.

Lemma R_BulkAssignTickets now s tenantID ticketIDs agentID changedBy changedByName :
  R s (BulkAssignTickets now s tenantID ticketIDs agentID changedBy changedByName).1.
Proof.
  unfold BulkAssignTickets.
  destruct (agent_GetByUserID s tenantID agentID) as [[aid agent]|];
    [|apply R_refl].
  match goal with
  | |- context [bulk_loop ?f ?l ?s0] =>
      pose proof (R_bulk_loop f l s0) as HR; destruct (bulk_loop f l s0)
  end.
  apply HR. intros s0 i s1. unfold BulkAssignTickets_item.
  intros; cases; peel.
Qed.

Lemma R_BulkChangeStatus now s tenantID ticketIDs status changedBy changedByName :
  R s (BulkChangeStatus now s tenantID ticketIDs status changedBy changedByName).1.
Proof.
  unfold BulkChangeStatus.
  match goal with
  | |- context [bulk_loop ?f ?l ?s0] =>
      pose proof (R_bulk_loop f l s0) as HR; destruct (bulk_loop f l s0)
  end.
  apply HR. intros s0 i s1. unfold BulkChangeStatus_item.
  intros; cases; peel.
Qed.

Lemma R_BulkChangePriority now s tenantID ticketIDs priority changedBy changedByName :
  R s (BulkChangePriority now s tenantID ticketIDs priority changedBy changedByName).1.
Proof.
  unfold BulkChangePriority.
  match goal with
  | |- context [bulk_loop ?f ?l ?s0] =>
      pose proof (R_bulk_loop f l s0) as HR; destruct (bulk_loop f l s0)
  end.
  apply HR. intros s0 i s1. unfold BulkChangePriority_item.
  intros; cases; peel.
Qed.

Lemma R_BulkTransferDepartment now s tenantID ticketIDs dept changedBy changedByName :
  R s (BulkTransferDepartment now s tenantID ticketIDs dept changedBy changedByName).1.
Proof.
  unfold BulkTransferDepartment.
  destruct (ObjectIDFromHex dept) as [deptID|]; [|apply R_refl].
  destruct (department_GetByID s deptID) as [d|]; [|apply R_refl].
  match goal with
  | |- context [bulk_loop ?f ?l ?s0] =>
      pose proof (R_bulk_loop f l s0) as HR; destruct (bulk_loop f l s0)
  end.
  apply HR. intros s0 i s1. unfold BulkTransferDepartment_item.
  intros; cases; peel.
Qed.

Lemma R_BulkDeleteTickets now s tenantID ticketIDs :
  R s (BulkDeleteTickets now s tenantID ticketIDs).1.
Proof.
  unfold BulkDeleteTickets.
  match goal with
  | |- context [bulk_loop ?f ?l ?s0] =>
      pose proof (R_bulk_loop f l s0) as HR; destruct (bulk_loop f l s0)
  end.
  apply HR. intros s0 i s1. unfold BulkDeleteTickets_item.
  intros; cases; peel.
Qed.

Lemma R_step op s : R s (step config op s).1.
Proof.
  destruct op; cbn [step].
  - pose proof (R_CreateTicket now newID s req customerID customerName
                  customerEmail) as H. by case_match.
  - pose proof (R_UpdateTicket now s id req userID userName isAgent) as H.
    by case_match.
  - pose proof (R_ChangeStatus now s id req userID userName isAgent) as H.
    by case_match.
  - pose proof (R_AssignTicket now s id req assignedByID assignedByName) as H.
    by case_match.
  - pose proof (R_TransferTicket now s id req userID userName) as H.
    by case_match.
  - pose proof (R_AddReply now s ticketID req senderID senderName senderEmail
                  senderType) as H. by case_match.
  - pose proof (R_RateTicket now s id req userID) as H. by case_match.
  - pose proof (R_DeleteTicket now s id deletedBy) as H. by case_match.
  - pose proof (R_BulkAssignTickets now s tenantID ticketIDs agentID changedBy
                  changedByName) as H. by case_match.
  - pose proof (R_BulkChangeStatus now s tenantID ticketIDs status changedBy
                  changedByName) as H. by case_match.
  - pose proof (R_BulkChangePriority now s tenantID ticketIDs priority
                  changedBy changedByName) as H. by case_match.
  - pose proof (R_BulkTransferDepartment now s tenantID ticketIDs departmentID
                  changedBy changedByName) as H. by case_match.
  - pose proof (R_BulkDeleteTickets now s tenantID ticketIDs) as H.
    by case_match.
Qed.

Lemma R_run ops s : R s (run config ops s).
Proof.
  unfold run. revert s. induction ops as [|op ops IH]; intros s; cbn.
  - apply R_refl.
  - eapply R_trans; [apply R_step|apply IH].
Qed.

End WriteClosed.

(** *** The counters stay non-negative *)

Lemma map_Forall_alter {A : Type} (P : ObjectID → A → Prop) (f : A → A)
    (i : ObjectID) (m : gmap ObjectID A) :
  (∀ x, P i x → P i (f x)) → map_Forall P m → map_Forall P (alter f i m).
Proof.
  intros Hf Hm j y Hj. apply lookup_alter_Some in Hj as [(-> & x & Hx & ->)|[_ Hj]].
  - apply Hf. by apply Hm.
  - by apply Hm.
Qed.

Lemma agent_dec_nonneg now a :
  0 ≤ Agent.CurrentTickets a → 0 ≤ Agent.CurrentTickets (agent_dec now a).
Proof.
  unfold agent_dec. destruct (0 <? Agent.CurrentTickets a) eqn:H; cbn; [|done].
  apply Z.ltb_lt in H. lia.
Qed.

Lemma department_dec_nonneg now d :
  0 ≤ Department.OpenTickets d →
  0 ≤ Department.OpenTickets (department_dec now d).
Proof.
  unfold department_dec.
  destruct (0 <? Department.OpenTickets d) eqn:H; cbn; [|done].
  apply Z.ltb_lt in H. lia.
Qed.

Lemma agent_dec_zero now a :
  Agent.CurrentTickets a = 0 → agent_dec now a = a.
Proof. unfold agent_dec. by intros ->. Qed.

Lemma department_dec_zero now d :
  Department.OpenTickets d = 0 → department_dec now d = d.
Proof. unfold department_dec. by intros ->. Qed.

(** C10. The two decrements leave a counter that is zero as it is, and from
    a database whose agent and department counters are non-negative every
    sequence of lifecycle and bulk operations leads to a database whose
    counters are non-negative. *)
Theorem counters_never_negative config ops s :
  counters_nonneg s →
  (∀ now a, Agent.CurrentTickets a = 0 → agent_dec now a = a)
  ∧ (∀ now d, Department.OpenTickets d = 0 → department_dec now d = d)
  ∧ counters_nonneg (run config ops s).
Proof.
  intros Hs. split; [exact agent_dec_zero|]. split; [exact department_dec_zero|].
  revert Hs.
  apply (R_run (fun s s' => counters_nonneg s → counters_nonneg s'));
    unfold counters_nonneg; try (intros; cbn; tauto).
  - intros now s0 newID t s' t' Hc. unfold ticket_Create in Hc.
    destruct (Store.tickets s0 !! newID); simplify_eq. cbn. tauto.
  - intros now s0 id [Ha Hd]. split; [|exact Hd]. cbn.
    apply map_Forall_alter; [|exact Ha]. intros x Hx. cbn. lia.
  - intros now s0 id [Ha Hd]. split; [|exact Hd]. cbn.
    apply map_Forall_alter; [|exact Ha]. intros x. apply agent_dec_nonneg.
  - intros now s0 id [Ha Hd]. split; [|exact Hd]. cbn.
    by apply map_Forall_alter.
  - intros now s0 id a v Hget [Ha Hd]. split; [|exact Hd]. cbn.
    apply map_Forall_alter; [|exact Ha]. intros x _. cbn.
    unfold agent_GetByID in Hget.
    destruct (Store.agents s0 !! id) as [a0|] eqn:Hl; [|discriminate].
    destruct (Agent.IsDeleted a0); [discriminate|]. simplify_eq.
    by apply (Ha id).
  - intros now s0 id isOpen [Ha Hd]. split; [exact Ha|]. cbn.
    apply map_Forall_alter; [|exact Hd]. intros x Hx. unfold department_inc.
    destruct isOpen; cbn; lia.
  - intros now s0 id [Ha Hd]. split; [exact Ha|]. cbn.
    apply map_Forall_alter; [|exact Hd]. intros x.
    apply department_dec_nonneg.
Qed.

Lemma counters_never_negative_witness :
  counters_nonneg (run ex_config ex_resolve_then_delete ex_store).
Proof.
  apply (counters_never_negative ex_config ex_resolve_then_delete ex_store).
  apply (bool_decide_unpack (counters_nonneg ex_store)).
  vm_compute. reflexivity.
Defined.

(** The agent's count along that run: 0, 1 after the assignment, 0 after
    the resolve, and still 0 after the delete. *)
Example ex_resolve_then_delete_counts :
  stored_current (run ex_config (take 2 ex_resolve_then_delete) ex_store) 11%N
  = Some 1
  ∧ stored_current (run ex_config (take 3 ex_resolve_then_delete) ex_store)
      11%N = Some 0
  ∧ stored_current (run ex_config ex_resolve_then_delete ex_store) 11%N
    = Some 0.
Proof. repeat split; vm_compute; reflexivity. Qed.

(** *** The history *)

Ltac history_prefix_writes :=
  unfold history_prefix;
  first
    [ by (intros; cbn)
    | by (intros; etrans; eassumption)
    | by (intros; cbn; apply prefix_app_r)
    | by (intros ?????? Hc; unfold ticket_Create in Hc; case_match;
          simplify_eq; cbn) ].

Lemma history_prefix_step config op s : history_prefix s (step config op s).1.
Proof. apply (R_step history_prefix); history_prefix_writes. Qed.

Lemma history_prefix_run config ops s : history_prefix s (run config ops s).
Proof. apply (R_run history_prefix); history_prefix_writes. Qed.

Lemma history_prefix_autoAssign now s ticketID ticket :
  history_prefix s (autoAssign now s ticketID ticket).1.
Proof. apply (R_autoAssign history_prefix); history_prefix_writes. Qed.

Lemma history_prefix_AssignTicket config now s id req byID byName :
  history_prefix s (AssignTicket config now s id req byID byName).1.
Proof. apply (R_AssignTicket history_prefix); history_prefix_writes. Qed.

Lemma history_prefix_length s s' :
  history_prefix s s' →
  (length (Store.ticket_history s) ≤ length (Store.ticket_history s'))%nat.
Proof. apply prefix_length. Qed.

(** Closes [history_grows s s'] once [s'] is spelled out, a trailing
    [AssignTicket] or [autoAssign] being monotone. *)
Ltac history_grows_tac :=
  unfold history_grows;
  try match goal with
      | H : AssignTicket ?c ?n ?s0 ?i ?q ?a ?b = (?s1, _)
        |- context [Store.ticket_history ?s1] =>
          let HP := fresh "HP" in
          pose proof (history_prefix_length _ _
                        (history_prefix_AssignTicket c n s0 i q a b)) as HP;
          rewrite H in HP; cbn in HP; rewrite length_app in HP; cbn in HP
      | H : autoAssign ?n ?s0 ?i ?t = (?s1, _)
        |- context [Store.ticket_history ?s1] =>
          let HP := fresh "HP" in
          pose proof (history_prefix_length _ _
                        (history_prefix_autoAssign n s0 i t)) as HP;
          rewrite H in HP; cbn in HP; rewrite length_app in HP; cbn in HP
      end;
  cbn; rewrite ?length_app; cbn; lia.

Lemma ChangeStatus_history now s id req userID userName isAgent s' r :
  ChangeStatus now s id req userID userName isAgent = (s', Ok r) →
  history_grows s s'.
Proof.
  unfold ChangeStatus, ticket_Update, createHistory. intros H.
  repeat (case_match; simplify_eq); history_grows_tac.
Qed.

Lemma AssignTicket_history config now s id req byID byName s' r :
  AssignTicket config now s id req byID byName = (s', Ok r) →
  history_grows s s'.
Proof.
  unfold AssignTicket, ticket_Update, createHistory. intros H.
  repeat (case_match; simplify_eq); history_grows_tac.
Qed.

Lemma TransferTicket_history config now s id req userID userName s' r :
  TransferTicket config now s id req userID userName = (s', Ok r) →
  history_grows s s'.
Proof.
  unfold TransferTicket, ticket_Update, createHistory. intros H.
  repeat (case_match; simplify_eq); history_grows_tac.
Qed.

Lemma CreateTicket_history config now newID s req cid cname cemail s' r :
  CreateTicket config now newID s req cid cname cemail = (s', Ok r) →
  history_grows s s'.
Proof.
  unfold CreateTicket, ticket_GetNextTicketNumber, ticket_Create, createHistory.
  intros H.
  repeat (case_match; simplify_eq); history_grows_tac.
Qed.

Lemma AddReply_history now s ticketID req sid sname semail stype :
  Store.ticket_history (AddReply now s ticketID req sid sname semail stype).1
  = Store.ticket_history s.
Proof.
  unfold AddReply, message_Create.
  repeat (case_match; simplify_eq); reflexivity.
Qed.

Lemma RateTicket_history now s id req userID :
  Store.ticket_history (RateTicket now s id req userID).1
  = Store.ticket_history s.
Proof.
  unfold RateTicket, ticket_Update.
  repeat (case_match; simplify_eq); reflexivity.
Qed.

Lemma DeleteTicket_history now s id deletedBy :
  Store.ticket_history (DeleteTicket now s id deletedBy).1
  = Store.ticket_history s.
Proof. unfold DeleteTicket. repeat (case_match; simplify_eq); reflexivity. Qed.

(** *** SLA resolution *)

Lemma resolve_policy_no_policy s ticket :
  no_policy s ticket → resolve_policy s ticket = None.
Proof.
  intros [Hdept Hdefault]. unfold resolve_policy, sla_GetByID.
  destruct (Ticket.DepartmentID ticket) as [deptID|]; [|done].
  destruct (department_GetByID s deptID) as [dept|] eqn:Hd; [|done].
  destruct (Department.SLAPolicyID dept) as [policyID|] eqn:Hp; [|done].
  by rewrite (Hdept deptID dept policyID eq_refl Hd Hp).
Qed.

(** C6, as the code has it. [calculateSLA] is a total function of the
    configuration, the clock, the database and the ticket. With SLA disabled
    it returns the ticket as it is. With SLA enabled and neither a
    department policy nor a tenant default to be found, both due dates are
    set from the configured default hours; with a policy found that lists
    the ticket's priority, both are set from that entry's minutes. *)
Theorem calculateSLA_due_dates config now s ticket :
  (Config.SLA_Enabled config = false → calculateSLA config now s ticket = ticket)
  ∧ (Config.SLA_Enabled config = true → no_policy s ticket →
     let ticket' := calculateSLA config now s ticket in
     Ticket.FirstResponseDue ticket'
       = Some (add_duration now (Config.SLA_DefaultResponseHours config) Hour)
     ∧ Ticket.ResolutionDue ticket'
       = Some (add_duration now (Config.SLA_DefaultResolveHours config) Hour))
  ∧ (∀ policyID policy p,
       Config.SLA_Enabled config = true →
       resolve_policy s ticket = Some (policyID, policy) →
       List.find (fun p => String.eqb (SLAPriority.Priority p)
                             (Ticket.Priority ticket))
         (SLAPolicy.Priorities policy) = Some p →
       let ticket' := calculateSLA config now s ticket in
       Ticket.FirstResponseDue ticket'
         = Some (add_duration now (SLAPriority.FirstResponseMins p) Minute)
       ∧ Ticket.ResolutionDue ticket'
         = Some (add_duration now (SLAPriority.ResolutionMins p) Minute)
       ∧ Ticket.SLAPolicyID ticket' = Some policyID).
Proof.
  unfold calculateSLA. split; [|split].
  - by intros ->.
  - intros -> Hno. by rewrite (resolve_policy_no_policy s ticket Hno).
  - by intros policyID policy p -> -> ->.
Qed.

(** C6 as stated fails when SLA is switched off in the configuration: no
    policy can be resolved for the ticket, and yet neither due date is
    set. *)
Lemma calculateSLA_disabled_counterexample :
  no_policy ex_store ex_new_ticket
  ∧ Ticket.FirstResponseDue
      (calculateSLA ex_config_sla_off 1000 ex_store ex_new_ticket) = None
  ∧ Ticket.ResolutionDue
      (calculateSLA ex_config_sla_off 1000 ex_store ex_new_ticket) = None.
Proof.
  split; [|split; vm_compute; reflexivity].
  split; [intros ??? [=]|vm_compute; reflexivity].
Qed.

(** *** History of an update *)

Lemma write_changes_history now ticketID tenantID userID userName changes s :
  Store.ticket_history
    (write_changes now ticketID tenantID userID userName changes s)
  = (Store.ticket_history s
     ++ map (entry_of now ticketID tenantID userID userName) changes)%list.
Proof.
  unfold write_changes. revert s.
  induction changes as [|[[field old] new] changes IH]; intros s; cbn.
  - by rewrite app_nil_r.
  - rewrite IH. cbn. by rewrite <- app_assoc.
Qed.

Lemma calculateSLA_keeps config now s t :
  Ticket.TenantID (calculateSLA config now s t) = Ticket.TenantID t
  ∧ Ticket.DepartmentID (calculateSLA config now s t) = Ticket.DepartmentID t
  ∧ Ticket.DepartmentName (calculateSLA config now s t)
    = Ticket.DepartmentName t.
Proof. unfold calculateSLA. repeat case_match; done. Qed.

Lemma patch_string_changes field get set patch t :
  (patch_string field get set patch t).2 = change_of field patch (get t).
Proof.
  unfold patch_string, change_of. destruct patch as [v|]; [|done].
  by destruct (String.eqb v (get t)).
Qed.

Lemma patch_priority_changes config now s patch t :
  (patch_priority config now s patch t).2
  = change_of "priority" patch (Ticket.Priority t).
Proof.
  unfold patch_priority, change_of. destruct patch as [v|]; [|done].
  by destruct (String.eqb v (Ticket.Priority t)).
Qed.

Lemma patch_department_changes s patch t :
  (patch_department s patch t).2 = department_change s patch t.
Proof.
  unfold patch_department, department_change. repeat case_match; try done.
  - exfalso. match goal with H : bool_decide _ = true |- _ =>
      apply bool_decide_eq_true_1 in H end.
    match goal with H : bool_decide _ = true |- _ =>
      apply bool_decide_eq_true_1 in H end. contradiction.
  - exfalso. match goal with H : bool_decide (_ ≠ _) = false |- _ =>
      apply bool_decide_eq_false_1 in H; apply H end.
    match goal with H : bool_decide (_ = _) = false |- _ =>
      by apply bool_decide_eq_false_1 in H end.
Qed.

Lemma patch_category_changes s patch t :
  Forall (fun c : Change => c.1.1 = "category") (patch_category s patch t).2.
Proof.
  unfold patch_category. repeat case_match; cbn; auto.
Qed.

Lemma patch_string_keeps {A : Type} (g : Ticket.t → A) field get set patch t :
  (∀ v t, g (set v t) = g t) →
  g (patch_string field get set patch t).1 = g t.
Proof.
  intros Hset. unfold patch_string. destruct patch as [v|]; [|done].
  destruct (negb (String.eqb v (get t))); [apply Hset|done].
Qed.

Lemma patch_priority_keeps config now s patch t :
  Ticket.TenantID (patch_priority config now s patch t).1 = Ticket.TenantID t
  ∧ Ticket.DepartmentID (patch_priority config now s patch t).1
    = Ticket.DepartmentID t
  ∧ Ticket.DepartmentName (patch_priority config now s patch t).1
    = Ticket.DepartmentName t.
Proof.
  unfold patch_priority. destruct patch as [v|]; [|done].
  destruct (negb (String.eqb v (Ticket.Priority t))); [|done].
  apply (calculateSLA_keeps config now s (Ticket.set_Priority v t)).
Qed.

Lemma patch_department_keeps s patch t :
  Ticket.TenantID (patch_department s patch t).1 = Ticket.TenantID t.
Proof. unfold patch_department. repeat case_match; done. Qed.

Lemma patch_category_keeps s patch t :
  Ticket.TenantID (patch_category s patch t).1 = Ticket.TenantID t.
Proof. unfold patch_category. repeat case_match; done. Qed.

Lemma patch_untracked_keeps {A B : Type} (g : Ticket.t → B)
    (set : A → Ticket.t → Ticket.t) patch t :
  (∀ v t, g (set v t) = g t) → g (patch_untracked set patch t) = g t.
Proof. intros Hset. destruct patch; [apply Hset|done]. Qed.

(** What [apply_patch] records, read off the ticket as it was loaded. *)
Lemma apply_patch_changes config now s req ticket :
  Ticket.TenantID (apply_patch config now s req ticket).1
  = Ticket.TenantID ticket
  ∧ ∃ category_changes,
      (apply_patch config now s req ticket).2
      = (change_of "subject" (UpdateTicketRequest.Subject req)
           (Ticket.Subject ticket)
         ++ change_of "description" (UpdateTicketRequest.Description req)
              (Ticket.Description ticket)
         ++ change_of "type" (UpdateTicketRequest.Type_ req)
              (Ticket.Type_ ticket)
         ++ change_of "priority" (UpdateTicketRequest.Priority req)
              (Ticket.Priority ticket)
         ++ department_change s (UpdateTicketRequest.DepartmentID req) ticket
         ++ category_changes)%list
      ∧ Forall (fun c : Change => c.1.1 = "category") category_changes.
Proof.
  unfold apply_patch.
  pose proof (patch_string_changes "subject" Ticket.Subject Ticket.set_Subject
                (UpdateTicketRequest.Subject req) ticket) as Hc1.
  destruct (patch_string "subject" _ _ _ ticket) as [t1 c1] eqn:H1.
  pose proof (patch_string_changes "description" Ticket.Description
                Ticket.set_Description
                (UpdateTicketRequest.Description req) t1) as Hc2.
  destruct (patch_string "description" _ _ _ t1) as [t2 c2] eqn:H2.
  pose proof (patch_string_changes "type" Ticket.Type_ Ticket.set_Type_
                (UpdateTicketRequest.Type_ req) t2) as Hc3.
  destruct (patch_string "type" _ _ _ t2) as [t3 c3] eqn:H3.
  pose proof (patch_priority_changes config now s
                (UpdateTicketRequest.Priority req) t3) as Hc4.
  pose proof (patch_priority_keeps config now s
                (UpdateTicketRequest.Priority req) t3) as (Hk4 & Hd4 & Hn4).
  destruct (patch_priority config now s _ t3) as [t4 c4] eqn:H4.
  pose proof (patch_department_changes s
                (UpdateTicketRequest.DepartmentID req) t4) as Hc5.
  pose proof (patch_department_keeps s
                (UpdateTicketRequest.DepartmentID req) t4) as Hk5.
  destruct (patch_department s _ t4) as [t5 c5] eqn:H5.
  pose proof (patch_category_changes s
                (UpdateTicketRequest.CategoryID req) t5) as Hc6.
  pose proof (patch_category_keeps s
                (UpdateTicketRequest.CategoryID req) t5) as Hk6.
  destruct (patch_category s _ t5) as [t6 c6] eqn:H6.
  cbn [fst snd] in *.
  assert (t1 = (patch_string "subject" Ticket.Subject Ticket.set_Subject
                  (UpdateTicketRequest.Subject req) ticket).1) as E1
    by (by rewrite H1).
  assert (t2 = (patch_string "description" Ticket.Description
                  Ticket.set_Description
                  (UpdateTicketRequest.Description req) t1).1) as E2
    by (by rewrite H2).
  assert (t3 = (patch_string "type" Ticket.Type_ Ticket.set_Type_
                  (UpdateTicketRequest.Type_ req) t2).1) as E3
    by (by rewrite H3).
  assert (Ticket.Description t1 = Ticket.Description ticket) as D1
    by (rewrite E1; by apply patch_string_keeps).
  assert (Ticket.Type_ t2 = Ticket.Type_ ticket) as T2.
  { rewrite E2, patch_string_keeps by done.
    rewrite E1. by apply patch_string_keeps. }
  assert (Ticket.Priority t3 = Ticket.Priority ticket) as P3.
  { rewrite E3, patch_string_keeps by done.
    rewrite E2, patch_string_keeps by done.
    rewrite E1. by apply patch_string_keeps. }
  assert (∀ {A} (g : Ticket.t → A),
            (∀ v t, g (Ticket.set_Subject v t) = g t) →
            (∀ v t, g (Ticket.set_Description v t) = g t) →
            (∀ v t, g (Ticket.set_Type_ v t) = g t) →
            g t3 = g ticket) as K3.
  { intros A g G1 G2 G3.
    rewrite E3, patch_string_keeps by done.
    rewrite E2, patch_string_keeps by done.
    rewrite E1. by apply patch_string_keeps. }
  split.
  - rewrite !patch_untracked_keeps by done.
    rewrite Hk6, Hk5, Hk4. by apply K3.
  - exists c6. split; [|exact Hc6].
    rewrite Hc1, Hc2, Hc3, Hc4, Hc5, D1, T2, P3.
    unfold department_change. rewrite Hd4, Hn4.
    rewrite (K3 _ Ticket.DepartmentID), (K3 _ Ticket.DepartmentName) by done.
    reflexivity.
Qed.

(** A permitted update appends one entry per recorded change. *)
Lemma UpdateTicket_appends config now s id req userID userName isAgent
    ticketID ticket :
  GetTicket s id = Ok (ticketID, ticket) →
  isAgent = true ∨ Ticket.CustomerID ticket = userID →
  ∃ s' ticket',
    UpdateTicket config now s id req userID userName isAgent
    = (s', Ok (ticketID, ticket'))
    ∧ Store.ticket_history s'
      = (Store.ticket_history s
         ++ map (entry_of now ticketID (Ticket.TenantID ticket) userID userName)
              (apply_patch config now s req ticket).2)%list.
Proof.
  intros Hget Hauth. unfold UpdateTicket. rewrite Hget.
  assert (negb isAgent && negb (String.eqb (Ticket.CustomerID ticket) userID)
          = false) as ->.
  { destruct Hauth as [->| ->]; [done|].
    rewrite String.eqb_refl. by destruct isAgent. }
  destruct (apply_patch_changes config now s req ticket) as (Hten & _).
  destruct (apply_patch config now s req ticket) as [t1 changes].
  cbn [fst snd] in Hten. cbn.
  eexists _, _. split; [reflexivity|].
  rewrite write_changes_history. cbn. by rewrite Hten.
Qed.

(** C5, as the code has it. Across every operation the history is only
    extended at its end; a successful create, change-status, assign or
    transfer adds at least one entry; add-reply, rate and delete add none;
    a permitted update of an existing ticket adds as many entries as it
    recorded changes. *)
Theorem lifecycle_history config :
  (∀ op s, history_prefix s (step config op s).1)
  ∧ (∀ op s,
       writes_entry op = true → (step config op s).2 = true →
       history_grows s (step config op s).1)
  ∧ (∀ op s,
       writes_nothing op = true →
       Store.ticket_history (step config op s).1 = Store.ticket_history s)
  ∧ (∀ now id req userID userName isAgent s ticketID ticket,
       GetTicket s id = Ok (ticketID, ticket) →
       isAgent = true ∨ Ticket.CustomerID ticket = userID →
       length
         (Store.ticket_history
            (step config (OpUpdate now id req userID userName isAgent) s).1)
       = (length (Store.ticket_history s)
          + length (apply_patch config now s req ticket).2)%nat).
Proof.
  split; [apply history_prefix_step|]. split; [|split].
  - intros op s Hop. destruct op; try discriminate Hop; cbn [step].
    + destruct (CreateTicket _ _ _ _ _ _ _ _) as [s' [r|e]] eqn:H;
        [|discriminate]. intros _. eapply CreateTicket_history, H.
    + destruct (ChangeStatus _ _ _ _ _ _ _) as [s' [r|e]] eqn:H;
        [|discriminate]. intros _. eapply ChangeStatus_history, H.
    + destruct (AssignTicket _ _ _ _ _ _ _) as [s' [r|e]] eqn:H;
        [|discriminate]. intros _. eapply AssignTicket_history, H.
    + destruct (TransferTicket _ _ _ _ _ _ _) as [s' [r|e]] eqn:H;
        [|discriminate]. intros _. eapply TransferTicket_history, H.
  - intros op s Hop. destruct op; try discriminate Hop; cbn [step].
    + rewrite <- (AddReply_history now s ticketID req senderID senderName
                    senderEmail senderType). by case_match.
    + rewrite <- (RateTicket_history now s id req userID). by case_match.
    + rewrite <- (DeleteTicket_history now s id deletedBy). by case_match.
  - intros now id req userID userName isAgent s ticketID ticket Hget Hauth.
    destruct (UpdateTicket_appends config now s id req userID userName isAgent
                ticketID ticket Hget Hauth) as (s' & t' & Heq & Hh).
    cbn [step]. rewrite Heq. cbn [fst].
    by rewrite Hh, length_app, length_map.
Qed.

(** C5 as stated fails on delete: the ticket is found before and gone
    after, the call returns no error, and the history is what it was. *)
Lemma DeleteTicket_no_history_counterexample :
  is_Some (ticket_GetByID ex_store_1 100%N)
  ∧ (DeleteTicket 2000 ex_store_1 (id_hex 100) "bob").2 = Ok tt
  ∧ ticket_GetByID (DeleteTicket 2000 ex_store_1 (id_hex 100) "bob").1 100%N
    = None
  ∧ Store.ticket_history (DeleteTicket 2000 ex_store_1 (id_hex 100) "bob").1
    = Store.ticket_history ex_store_1.
Proof.
  split; [eexists; vm_compute; reflexivity|].
  split; [|split]; vm_compute; reflexivity.
Qed.

Section UpdateHistory.

Variables (now : Timestamp) (ticketID : ObjectID).

Variables (tenantID userID userName : string).

Let entry := entry_of now ticketID tenantID userID userName.

Lemma entries_for_app field hs1 hs2 :
  entries_for field (hs1 ++ hs2)
  = (entries_for field hs1 ++ entries_for field hs2)%list.
Proof. apply List.filter_app. Qed.

Lemma entries_for_field field (changes : list Change) name :
  Forall (fun c : Change => c.1.1 = name) changes →
  entries_for field (map entry changes)
  = if String.eqb name field then map entry changes else [].
Proof.
  induction 1 as [|c changes Hc _ IH]; cbn.
  - by destruct (String.eqb name field).
  - rewrite Hc. fold (entries_for field (map entry changes)). rewrite IH.
    by destruct (String.eqb name field).
Qed.

Lemma change_of_field name patch current :
  Forall (fun c : Change => c.1.1 = name) (change_of name patch current).
Proof. unfold change_of. repeat case_match; auto. Qed.

Lemma department_change_field s patch ticket :
  Forall (fun c : Change => c.1.1 = "department")
    (department_change s patch ticket).
Proof. unfold department_change. repeat case_match; auto. Qed.

End UpdateHistory.

(** C7, as the code has it. [UpdateTicket] on an existing ticket, by an
    agent or by the ticket's customer, succeeds and adds to the history:
    for each of subject, description, type and priority exactly one
    "updated" entry with the old and the new value when the field is in the
    patch with another value than the ticket's, and none otherwise; for the
    department one entry with the old and new department names when the
    patch names a stored department other than the ticket's, and none
    otherwise; and no entry under any other field name than "category" (so
    none for tags, CC addresses and custom fields, whatever the patch). *)
Theorem UpdateTicket_history config now s id req userID userName isAgent
    ticketID ticket :
  GetTicket s id = Ok (ticketID, ticket) →
  isAgent = true ∨ Ticket.CustomerID ticket = userID →
  ∃ s' ticket' added,
    UpdateTicket config now s id req userID userName isAgent
    = (s', Ok (ticketID, ticket'))
    ∧ Store.ticket_history s' = (Store.ticket_history s ++ added)%list
    ∧ let entry :=
        entry_of now ticketID (Ticket.TenantID ticket) userID userName in
      entries_for "subject" added
      = map entry (change_of "subject" (UpdateTicketRequest.Subject req)
                     (Ticket.Subject ticket))
      ∧ entries_for "description" added
        = map entry (change_of "description"
                       (UpdateTicketRequest.Description req)
                       (Ticket.Description ticket))
      ∧ entries_for "type" added
        = map entry (change_of "type" (UpdateTicketRequest.Type_ req)
                       (Ticket.Type_ ticket))
      ∧ entries_for "priority" added
        = map entry (change_of "priority" (UpdateTicketRequest.Priority req)
                       (Ticket.Priority ticket))
      ∧ entries_for "department" added
        = map entry (department_change s
                       (UpdateTicketRequest.DepartmentID req) ticket)
      ∧ ∀ field, field ∉ "category" :: compared_fields →
                 entries_for field added = [].
Proof.
  intros Hget Hauth.
  destruct (UpdateTicket_appends config now s id req userID userName isAgent
              ticketID ticket Hget Hauth) as (s' & t' & Heq & Hh).
  destruct (apply_patch_changes config now s req ticket)
    as (_ & cat & Hch & Hcat).
  exists s', t'. eexists. split; [exact Heq|]. split; [exact Hh|].
  rewrite Hch. clear Hch.
  set (entry := entry_of now ticketID (Ticket.TenantID ticket) userID userName).
  rewrite !map_app, !entries_for_app.
  pose proof (fun f n p c =>
                entries_for_field now ticketID (Ticket.TenantID ticket) userID
                  userName f _ n (change_of_field n p c)) as Hf.
  pose proof (fun f p =>
                entries_for_field now ticketID (Ticket.TenantID ticket) userID
                  userName f _ "department"
                  (department_change_field s p ticket)) as Hd.
  pose proof (fun f =>
                entries_for_field now ticketID (Ticket.TenantID ticket) userID
                  userName f _ "category" Hcat) as Hc.
  fold entry in Hf, Hd, Hc.
  repeat split.
  1-5: rewrite !Hf, Hd, Hc; cbn; by rewrite ?app_nil_r.
  intros field Hfield. rewrite !entries_for_app, !Hf, Hd, Hc.
  unfold compared_fields in Hfield.
  rewrite !not_elem_of_cons in Hfield.
  destruct Hfield as (H0 & H1 & H2 & H3 & H4 & H5 & _).
  by repeat match goal with
            | |- context [String.eqb ?a field] =>
                destruct (String.eqb_spec a field); [congruence|]
            end.
Qed.

Lemma UpdateTicket_history_witness :
  ∃ s' added,
    (UpdateTicket ex_config 2000 ex_store_1 (id_hex 100) ex_patch_subject
       "carol" "Carol" false).1 = s'
    ∧ Store.ticket_history s' = (Store.ticket_history ex_store_1 ++ added)%list
    ∧ entries_for "subject" added
      = [entry_of 2000 100%N "acme" "carol" "Carol"
           ("subject", VString "Printer is on fire",
            VString "Printer was on fire")]
    ∧ entries_for "description" added = [].
Proof.
  assert (∃ t, GetTicket ex_store_1 (id_hex 100) = Ok (100%N, t)
               ∧ Ticket.CustomerID t = "carol"
               ∧ Ticket.TenantID t = "acme"
               ∧ Ticket.Subject t = "Printer is on fire"
               ∧ Ticket.Description t = "Smoke comes out of tray two")
    as (t & Hget & Hcust & Hten & Hsub & Hdesc).
  { eexists. split; [|split; [|split; [|split]]]; vm_compute; reflexivity. }
  destruct (UpdateTicket_history ex_config 2000 ex_store_1 (id_hex 100)
              ex_patch_subject "carol" "Carol" false 100%N t Hget
              (or_intror Hcust))
    as (s' & t' & added & Heq & Hhist & Hs & Hd & _).
  exists s', added. rewrite Heq. split; [reflexivity|]. split; [exact Hhist|].
  rewrite Hs, Hd, Hten, Hsub, Hdesc. split; reflexivity.
Defined.

(** C7 as stated fails on a field that is present and changed: the tags of
    ticket 100 go from none to ["vip"], the call succeeds, and the history
    has no new entry. *)
Lemma UpdateTicket_tags_counterexample :
  stored_tags ex_store_1 100%N = Some []
  ∧ succeeded (UpdateTicket ex_config 2000 ex_store_1 (id_hex 100)
                 ex_patch_tags "carol" "Carol" false).2 = true
  ∧ stored_tags (UpdateTicket ex_config 2000 ex_store_1 (id_hex 100)
                   ex_patch_tags "carol" "Carol" false).1 100%N
    = Some ["vip"]
  ∧ Store.ticket_history
      (UpdateTicket ex_config 2000 ex_store_1 (id_hex 100) ex_patch_tags
         "carol" "Carol" false).1
    = Store.ticket_history ex_store_1.
Proof. split; [|split; [|split]]; vm_compute; reflexivity. Qed.

(** *** Department counters against the tickets *)

(** C2 on the code. The counters agree with the tickets at the start, after
    the create and after the resolve. The transfer of the resolved ticket
    then counts it as open in department 2, where no open ticket is
    attached: [TransferTicket] increments the target's open counter
    whatever the status, where [DeleteTicket] looks at the status first. *)
Theorem transfer_of_resolved_breaks_counter :
  (stored_open ex_store 1%N = Some (counted_open ex_store 1%N)
   ∧ stored_open ex_store 2%N = Some (counted_open ex_store 2%N))
  ∧ (let s := run ex_config ex_create_resolve ex_store in
     stored_open s 1%N = Some (counted_open s 1%N)
     ∧ stored_open s 2%N = Some (counted_open s 2%N))
  ∧ (let s := run ex_config ex_create_resolve_transfer ex_store in
     stored_status s 100%N = Some StatusResolved
     ∧ stored_open s 2%N = Some 1
     ∧ counted_open s 2%N = 0).
Proof. repeat split; vm_compute; reflexivity. Qed.

(** *** Bulk operations against the single-item operations *)

(** C4 on the code. Ticket 100 is open in department 1, whose open counter
    is 1. [ChangeStatus] to resolved brings the counter to 0;
    [BulkChangeStatus] to resolved over the same ticket reports one
    success, stores the same status and leaves the counter at 1. *)
Theorem bulk_status_leaves_counters :
  stored_open ex_store_1 1%N = Some 1
  ∧ (let s := (ChangeStatus 2000 ex_store_1 (id_hex 100)
                 (ChangeStatusRequest.mk StatusResolved "") "bob" "Bob"
                 true).1 in
     stored_status s 100%N = Some StatusResolved
     ∧ stored_open s 1%N = Some 0)
  ∧ (let r := BulkChangeStatus 2000 ex_store_1 "acme" [id_hex 100]
                StatusResolved "bob" "Bob" in
     r.2 = Ok 1
     ∧ stored_status r.1 100%N = Some StatusResolved
     ∧ stored_open r.1 1%N = Some 1).
Proof. repeat split; vm_compute; reflexivity. Qed.

(** *** Bulk operations and the caller's tenant *)

(** C8 on the code. Ticket 100 belongs to tenant "acme". Called for tenant
    "globex", [BulkDeleteTickets] skips it and reports no success, while
    [BulkChangePriority] rewrites its priority and reports one success: the
    tenant check of the delete loop is missing from the other loops. A
    malformed id next to a valid one is skipped by both. *)
Theorem bulk_priority_ignores_tenant :
  stored_tenant ex_store_1 100%N = Some "acme"
  ∧ stored_priority ex_store_1 100%N = Some PriorityMedium
  ∧ (let r := BulkDeleteTickets 2000 ex_store_1 "globex" [id_hex 100] in
     r.2 = Ok 0 ∧ r.1 = ex_store_1)
  ∧ (let r := BulkChangePriority 2000 ex_store_1 "globex" [id_hex 100]
                PriorityHigh "eve" "Eve" in
     r.2 = Ok 1 ∧ stored_priority r.1 100%N = Some PriorityHigh)
  ∧ (BulkDeleteTickets 2000 ex_store_1 "acme" [id_hex 100; "not-an-id"]).2
    = Ok 1
  ∧ (BulkChangePriority 2000 ex_store_1 "acme" [id_hex 100; "not-an-id"]
       PriorityHigh "bob" "Bob").2 = Ok 1.
Proof. repeat split; vm_compute; reflexivity. Qed.

(** What holds of the skipping in every bulk loop: an id that does not
    parse is skipped by each of the five items whatever the database, and
    an item that is skipped leaves the loop's result as if the id were not
    in the list. *)
Lemma bulk_loop_skip item ids1 i ids2 s :
  (∀ s0, item s0 i = None) →
  bulk_loop item (ids1 ++ i :: ids2) s = bulk_loop item (ids1 ++ ids2) s.
Proof.
  intros Hskip. unfold bulk_loop. rewrite !foldl_app. cbn.
  destruct (foldl _ (s, 0) ids1) as [s1 n]. by rewrite Hskip.
Qed.

Lemma bulk_items_skip_malformed now tenantID agentID agent deptID dept
    status priority changedBy changedByName s i :
  ObjectIDFromHex i = None →
  BulkAssignTickets_item now agentID agent changedBy changedByName s i = None
  ∧ BulkChangeStatus_item now status changedBy changedByName s i = None
  ∧ BulkChangePriority_item now priority changedBy changedByName s i = None
  ∧ BulkTransferDepartment_item now deptID dept changedBy changedByName s i = None
  ∧ BulkDeleteTickets_item now tenantID s i = None.
Proof.
  intros H.
  unfold BulkAssignTickets_item, BulkChangeStatus_item,
    BulkChangePriority_item, BulkTransferDepartment_item,
    BulkDeleteTickets_item.
  by rewrite H.
Qed.

Lemma bulk_items_skip_missing now tenantID agentID agent deptID dept
    status priority changedBy changedByName s i ticketID :
  ObjectIDFromHex i = Some ticketID →
  ticket_GetByID s ticketID = None →
  BulkAssignTickets_item now agentID agent changedBy changedByName s i = None
  ∧ BulkChangeStatus_item now status changedBy changedByName s i = None
  ∧ BulkChangePriority_item now priority changedBy changedByName s i = None
  ∧ BulkTransferDepartment_item now deptID dept changedBy changedByName s i = None
  ∧ BulkDeleteTickets_item now tenantID s i = None.
Proof.
  intros H1 H2.
  unfold BulkAssignTickets_item, BulkChangeStatus_item,
    BulkChangePriority_item, BulkTransferDepartment_item,
    BulkDeleteTickets_item.
  by rewrite H1, H2.
Qed.

(** Only the delete loop looks at the tenant. *)
Lemma BulkDeleteTickets_item_other_tenant now tenantID s i ticketID ticket :
  ObjectIDFromHex i = Some ticketID →
  ticket_GetByID s ticketID = Some ticket →
  Ticket.TenantID ticket ≠ tenantID →
  BulkDeleteTickets_item now tenantID s i = None.
Proof.
  intros H1 H2 Hne. unfold BulkDeleteTickets_item. rewrite H1, H2.
  apply String.eqb_neq in Hne. by rewrite Hne.
Qed.

Lemma BulkChangePriority_item_any_tenant now priority changedBy changedByName s i ticketID
    ticket :
  ObjectIDFromHex i = Some ticketID →
  ticket_GetByID s ticketID = Some ticket →
  is_Some (BulkChangePriority_item now priority changedBy changedByName s i).
Proof.
  intros H1 H2. unfold BulkChangePriority_item. rewrite H1, H2. eauto.
Qed.

(** *** Relations every write respects, the ticket writes told apart

    As above, with the writes on tickets, messages and ticket sequences
    as the repositories make them: a ticket is inserted under a fresh id
    or rewritten in place, a message is added at the end, a sequence is
    advanced. *)

Section WriteClosedFine.

Variable R : Store.t → Store.t → Prop.

Hypothesis F_refl : ∀ s, R s s.

Hypothesis F_trans : ∀ s1 s2 s3, R s1 s2 → R s2 s3 → R s1 s3.

Hypothesis F_ticket_insert : ∀ s id t,
  Store.tickets s !! id = None →
  R s (Store.set_tickets (<[id := t]> (Store.tickets s)) s).

Hypothesis F_ticket_alter : ∀ s f id,
  R s (Store.set_tickets (alter f id (Store.tickets s)) s).

Hypothesis F_message_append : ∀ s m,
  R s (Store.set_ticket_messages (Store.ticket_messages s ++ [m])%list s).

Hypothesis F_next_number : ∀ s tenantID,
  R s (ticket_GetNextTicketNumber s tenantID).1.

Hypothesis F_agent_inc : ∀ now s id, R s (agent_IncrementTicketCount now s id).

Hypothesis F_agent_dec : ∀ now s id, R s (agent_DecrementTicketCount now s id).

Hypothesis F_agent_resolved : ∀ now s id, R s (agent_IncrementResolved now s id).

Hypothesis F_agent_Update : ∀ now s id a v,
  agent_GetByID s id = Some a →
  R s (agent_Update now s id (Agent.set_AvgRating v a)).

Hypothesis F_department_inc : ∀ now s id isOpen,
  R s (department_IncrementTicketCount now s id isOpen).

Hypothesis F_department_dec : ∀ now s id,
  R s (department_DecrementOpenTickets now s id).

Hypothesis F_history_Create : ∀ now s h, R s (history_Create now s h).

Variable config : Config.t.

Lemma F_ticket_Update now s id t s' t' :
  ticket_Update now s id t = (s', t') → R s s'.
Proof. intros [= <- _]. apply F_ticket_alter. Qed.

Lemma F_message_Create now s m s' m' :
  message_Create now s m = (s', m') → R s s'.
Proof. intros [= <- _]. apply F_message_append. Qed.

Lemma F_GetNextTicketNumber s tenantID s' n :
  ticket_GetNextTicketNumber s tenantID = (s', n) → R s s'.
Proof.
  intros H. pose proof (F_next_number s tenantID) as HR. by rewrite H in HR.
Qed.

Lemma F_ticket_Create now s newID t s' t' :
  ticket_Create now s newID t = Some (s', t') → R s s'.
Proof.
  unfold ticket_Create. intros H.
  destruct (Store.tickets s !! newID) eqn:Hl; [discriminate|].
  injection H as <- _. by apply F_ticket_insert.
Qed.

(** Peels the writes off the database on the right, last write first. *)
Ltac peel_fine :=
  repeat first
    [ apply F_refl
    | assumption
    | match goal with
      | |- R _ (agent_IncrementTicketCount _ _ _) =>
          eapply F_trans; [|apply F_agent_inc]
      | |- R _ (agent_DecrementTicketCount _ _ _) =>
          eapply F_trans; [|apply F_agent_dec]
      | |- R _ (agent_IncrementResolved _ _ _) =>
          eapply F_trans; [|apply F_agent_resolved]
      | H : agent_GetByID ?s ?i = Some ?a |- R _ (agent_Update _ ?s ?i _) =>
          eapply F_trans; [|apply (F_agent_Update _ _ _ _ _ H)]
      | |- R _ (department_IncrementTicketCount _ _ _ _) =>
          eapply F_trans; [|apply F_department_inc]
      | |- R _ (department_DecrementOpenTickets _ _ _) =>
          eapply F_trans; [|apply F_department_dec]
      | |- R _ (history_Create _ _ _) =>
          eapply F_trans; [|apply F_history_Create]
      | |- R _ (createHistory _ _ _ _ _ _ _ _ _ _ _) =>
          eapply F_trans; [|apply F_history_Create]
      | |- R _ (ticket_UpdateFields _ _ _ _) =>
          eapply F_trans; [|apply F_ticket_alter]
      | |- R _ (ticket_Delete _ _ _ _) =>
          eapply F_trans; [|apply F_ticket_alter]
      | |- R _ (ticket_IncrementMessageCount _ _ _ _) =>
          eapply F_trans; [|apply F_ticket_alter]
      | H : ticket_Update _ _ _ _ = (?s1, _) |- R _ ?s1 =>
          eapply F_trans; [|apply (F_ticket_Update _ _ _ _ _ _ H)]
      | H : message_Create _ _ _ = (?s1, _) |- R _ ?s1 =>
          eapply F_trans; [|apply (F_message_Create _ _ _ _ _ H)]
      | H : ticket_GetNextTicketNumber _ _ = (?s1, _) |- R _ ?s1 =>
          eapply F_trans; [|apply (F_GetNextTicketNumber _ _ _ _ H)]
      | H : ticket_Create _ _ _ _ = Some (?s1, _) |- R _ ?s1 =>
          eapply F_trans; [|apply (F_ticket_Create _ _ _ _ _ _ H)]
      end ].

Ltac cases_fine := repeat (case_match; simplify_eq); cbn [fst snd].

Lemma F_autoAssign now s ticketID ticket :
  R s (autoAssign now s ticketID ticket).1.
Proof. unfold autoAssign. cases_fine; peel_fine. Qed.

Lemma F_autoAssign' now s ticketID ticket s' t' :
  autoAssign now s ticketID ticket = (s', t') → R s s'.
Proof. intros H. pose proof (F_autoAssign now s ticketID ticket) as HR. by rewrite H in HR. Qed.

Lemma F_CreateTicket now newID s req cid cname cemail :
  R s (CreateTicket config now newID s req cid cname cemail).1.
Proof.
  unfold CreateTicket. cases_fine; peel_fine;
    try (eapply F_trans; [|eapply F_autoAssign'; eassumption]; peel_fine).
Qed.

Lemma F_write_changes now ticketID tenantID userID userName changes s :
  R s (write_changes now ticketID tenantID userID userName changes s).
Proof.
  unfold write_changes. revert s.
  induction changes as [|[[field old] new] changes IH]; intros s; cbn.
  - apply F_refl.
  - eapply F_trans; [|apply IH]. apply F_history_Create.
Qed.

Lemma F_UpdateTicket now s id req userID userName isAgent :
  R s (UpdateTicket config now s id req userID userName isAgent).1.
Proof.
  unfold UpdateTicket. cases_fine; peel_fine.
  eapply F_trans; [|apply F_write_changes]. peel_fine.
Qed.

Lemma F_ChangeStatus now s id req userID userName isAgent :
  R s (ChangeStatus now s id req userID userName isAgent).1.
Proof. unfold ChangeStatus. cases_fine; peel_fine. Qed.

Lemma F_AssignTicket now s id req assignedByID assignedByName :
  R s (AssignTicket config now s id req assignedByID assignedByName).1.
Proof. unfold AssignTicket. cases_fine; peel_fine. Qed.

Lemma F_TransferTicket now s id req userID userName :
  R s (TransferTicket config now s id req userID userName).1.
Proof.
  unfold TransferTicket. cases_fine; peel_fine;
    match goal with
    | H : AssignTicket ?c ?n ?s0 ?i ?r ?a ?b = (?s1, _) |- R _ ?s1 =>
        pose proof (F_AssignTicket n s0 i r a b) as HR; rewrite H in HR;
        eapply F_trans; [|exact HR]
    | H : autoAssign _ _ _ _ = (?s1, _) |- R _ ?s1 =>
        eapply F_trans; [|eapply F_autoAssign'; eassumption]
    end; peel_fine.
Qed.

Lemma F_AddReply now s ticketID req senderID senderName senderEmail senderType :
  R s (AddReply now s ticketID req senderID senderName senderEmail
         senderType).1.
Proof. unfold AddReply. cases_fine; peel_fine. Qed.

Lemma F_RateTicket now s id req userID :
  R s (RateTicket now s id req userID).1.
Proof. unfold RateTicket. cases_fine; peel_fine. Qed.

Lemma F_DeleteTicket now s id deletedBy :
  R s (DeleteTicket now s id deletedBy).1.
Proof. unfold DeleteTicket. cases_fine; peel_fine. Qed.

Lemma F_bulk_loop item ticketIDs s :
  (∀ s0 i s1, item s0 i = Some s1 → R s0 s1) →
  R s (bulk_loop item ticketIDs s).1.
Proof.
  intros Hitem. unfold bulk_loop. generalize 0 as n. revert s.
  induction ticketIDs as [|i ids IH]; intros s n; cbn.
  - apply F_refl.
  - destruct (item s i) as [s1|] eqn:Hi.
    + eapply F_trans; [eapply Hitem; eassumption|]. apply IH.
    + apply IH.
Qed.

Lemma F_BulkAssignTickets now s tenantID ticketIDs agentID changedBy changedByName :
  R s (BulkAssignTickets now s tenantID ticketIDs agentID changedBy changedByName).1.
Proof.
  unfold BulkAssignTickets.
  destruct (agent_GetByUserID s tenantID agentID) as [[aid agent]|];
    [|apply F_refl].
  match goal with
  | |- context [bulk_loop ?f ?l ?s0] =>
      pose proof (F_bulk_loop f l s0) as HR; destruct (bulk_loop f l s0)
  end.
  apply HR. intros s0 i s1. unfold BulkAssignTickets_item.
  intros; cases_fine; peel_fine.
Qed.

Lemma F_BulkChangeStatus now s tenantID ticketIDs status changedBy changedByName :
  R s (BulkChangeStatus now s tenantID ticketIDs status changedBy changedByName).1.
Proof.
  unfold BulkChangeStatus.
  match goal with
  | |- context [bulk_loop ?f ?l ?s0] =>
      pose proof (F_bulk_loop f l s0) as HR; destruct (bulk_loop f l s0)
  end.
  apply HR. intros s0 i s1. unfold BulkChangeStatus_item.
  intros; cases_fine; peel_fine.
Qed.

Lemma F_BulkChangePriority now s tenantID ticketIDs priority changedBy changedByName :
  R s (BulkChangePriority now s tenantID ticketIDs priority changedBy changedByName).1.
Proof.
  unfold BulkChangePriority.
  match goal with
  | |- context [bulk_loop ?f ?l ?s0] =>
      pose proof (F_bulk_loop f l s0) as HR; destruct (bulk_loop f l s0)
  end.
  apply HR. intros s0 i s1. unfold BulkChangePriority_item.
  intros; cases_fine; peel_fine.
Qed.

Lemma F_BulkTransferDepartment now s tenantID ticketIDs dept changedBy changedByName :
  R s (BulkTransferDepartment now s tenantID ticketIDs dept changedBy changedByName).1.
Proof.
  unfold BulkTransferDepartment.
  destruct (ObjectIDFromHex dept) as [deptID|]; [|apply F_refl].
  destruct (department_GetByID s deptID) as [d|]; [|apply F_refl].
  match goal with
  | |- context [bulk_loop ?f ?l ?s0] =>
      pose proof (F_bulk_loop f l s0) as HR; destruct (bulk_loop f l s0)
  end.
  apply HR. intros s0 i s1. unfold BulkTransferDepartment_item.
  intros; cases_fine; peel_fine.
Qed.

Lemma F_BulkDeleteTickets now s tenantID ticketIDs :
  R s (BulkDeleteTickets now s tenantID ticketIDs).1.
Proof.
  unfold BulkDeleteTickets.
  match goal with
  | |- context [bulk_loop ?f ?l ?s0] =>
      pose proof (F_bulk_loop f l s0) as HR; destruct (bulk_loop f l s0)
  end.
  apply HR. intros s0 i s1. unfold BulkDeleteTickets_item.
  intros; cases_fine; peel_fine.
Qed.

Lemma F_step op s : R s (step config op s).1.
Proof.
  destruct op; cbn [step].
  - pose proof (F_CreateTicket now newID s req customerID customerName
                  customerEmail) as H. by case_match.
  - pose proof (F_UpdateTicket now s id req userID userName isAgent) as H.
    by case_match.
  - pose proof (F_ChangeStatus now s id req userID userName isAgent) as H.
    by case_match.
  - pose proof (F_AssignTicket now s id req assignedByID assignedByName) as H.
    by case_match.
  - pose proof (F_TransferTicket now s id req userID userName) as H.
    by case_match.
  - pose proof (F_AddReply now s ticketID req senderID senderName senderEmail
                  senderType) as H. by case_match.
  - pose proof (F_RateTicket now s id req userID) as H. by case_match.
  - pose proof (F_DeleteTicket now s id deletedBy) as H. by case_match.
  - pose proof (F_BulkAssignTickets now s tenantID ticketIDs agentID changedBy
                  changedByName) as H. by case_match.
  - pose proof (F_BulkChangeStatus now s tenantID ticketIDs status changedBy
                  changedByName) as H. by case_match.
  - pose proof (F_BulkChangePriority now s tenantID ticketIDs priority
                  changedBy changedByName) as H. by case_match.
  - pose proof (F_BulkTransferDepartment now s tenantID ticketIDs departmentID
                  changedBy changedByName) as H. by case_match.
  - pose proof (F_BulkDeleteTickets now s tenantID ticketIDs) as H.
    by case_match.
Qed.

Lemma F_run ops s : R s (run config ops s).
Proof.
  unfold run. revert s. induction ops as [|op ops IH]; intros s; cbn.
  - apply F_refl.
  - eapply F_trans; [apply F_step|apply IH].
Qed.

End WriteClosedFine.

(** *** Ticket numbers *)

Lemma digits_value_acc s acc :
  digits_value s acc
  = (acc * 10 ^ N.of_nat (String.length s) + digits_value s 0)%N.
Proof.
  revert acc. induction s as [|c s IH]; intros acc.
  - cbn. lia.
  - cbn [digits_value String.length]. rewrite IH.
    rewrite (IH (10 * 0 + (N_of_ascii c - 48))%N).
    rewrite Nat2N.inj_succ, N.pow_succ_r'. lia.
Qed.

Lemma digit_char_value d :
  (d < 10)%N → (N_of_ascii (ascii_of_N (48 + d)) - 48 = d)%N.
Proof.
  intros Hd. rewrite N_ascii_embedding by lia. lia.
Qed.

Lemma decimal_digits_value fuel n acc :
  (n < 10 ^ N.of_nat fuel)%N → fuel ≠ O →
  digits_value (decimal_digits fuel n acc) 0
  = (n * 10 ^ N.of_nat (String.length acc) + digits_value acc 0)%N.
Proof.
  revert n acc. induction fuel as [|fuel IH]; intros n acc Hn Hf; [done|].
  cbn [decimal_digits].
  assert (n mod 10 < 10)%N as Hmod by (apply N.mod_lt; lia).
  assert (n = 10 * (n / 10) + n mod 10)%N as Hdm by (apply N.div_mod; lia).
  assert (digits_value (String (ascii_of_N (48 + n mod 10)) acc) 0
          = (n mod 10 * 10 ^ N.of_nat (String.length acc)
             + digits_value acc 0)%N) as Hhead.
  { cbn [digits_value]. rewrite digits_value_acc, digit_char_value by done.
    lia. }
  destruct (n / 10 =? 0)%N eqn:Hq.
  - apply N.eqb_eq in Hq. rewrite Hhead. rewrite Hq in Hdm.
    replace (n mod 10)%N with n by lia. done.
  - apply N.eqb_neq in Hq.
    destruct fuel as [|fuel'].
    { exfalso. cbn in Hn. apply Hq. apply N.div_small. lia. }
    rewrite IH; [|  |done].
    + rewrite Hhead. cbn [String.length].
      rewrite Nat2N.inj_succ, N.pow_succ_r'.
      set (P := (10 ^ N.of_nat (String.length acc))%N).
      rewrite Hdm at 3. lia.
    + rewrite Nat2N.inj_succ, N.pow_succ_r' in Hn.
      apply N.Div0.div_lt_upper_bound; lia.
Qed.

Lemma zero_pad_value k s : digits_value (zero_pad k s) 0 = digits_value s 0.
Proof.
  revert s. induction k as [|k IH]; intros s; [done|].
  cbn [zero_pad]. rewrite IH. cbn [digits_value].
  rewrite digits_value_acc. cbn. lia.
Qed.

(** The digits after the prefix of a ticket number stand for the sequence
    value it was made from. *)
Lemma ticket_number_value seq :
  0 ≤ seq < 2 ^ 63 →
  ∃ body, ticket_number seq = "TKT-" +:+ body
          ∧ digits_value body 0 = Z.to_N seq.
Proof.
  intros [H0 H1]. unfold ticket_number.
  assert ((seq <? 0) = false) as -> by lia.
  eexists. split; [reflexivity|].
  rewrite zero_pad_value, decimal_digits_value; [| |done].
  - cbn. lia.
  - replace (Z.abs_N seq) with (Z.to_N seq) by lia.
    assert (Z.to_N seq < 2 ^ 63)%N by lia.
    assert (2 ^ 63 < 10 ^ N.of_nat 20)%N by (vm_compute; reflexivity). lia.
Qed.

(** X1. [GetNextTicketNumber] formats distinct sequence values of the range of
    a non-negative [int64] as distinct ticket numbers. *)
Theorem ticket_number_injective a b :
  0 ≤ a < 2 ^ 63 → 0 ≤ b < 2 ^ 63 →
  ticket_number a = ticket_number b → a = b.
Proof.
  intros Ha Hb Heq.
  destruct (ticket_number_value a Ha) as (ba & Ea & Va).
  destruct (ticket_number_value b Hb) as (bb & Eb & Vb).
  rewrite Ea, Eb in Heq. cbn in Heq. injection Heq as Hbody.
  change (ba = bb) in Hbody. rewrite Hbody in Va. rewrite Va in Vb. lia.
Qed.

Lemma ticket_number_injective_witness : ticket_number 41 ≠ ticket_number 42.
Proof.
  intros Heq.
  assert (41 = 42) as Habs; [|discriminate Habs].
  apply (ticket_number_injective 41 42); [lia|lia|exact Heq].
Defined.

(** Below a million the number is the prefix and six digits. *)
Lemma ticket_number_small seq :
  0 ≤ seq < 1000000 → String.length (ticket_number seq) = 10%nat.
Proof.
  intros H. unfold ticket_number.
  assert ((seq <? 0) = false) as -> by lia.
  assert (∀ s k, String.length (zero_pad k s) = (k + String.length s)%nat)
    as Hpad.
  { intros s k. revert s. induction k as [|k IH]; intros s; [done|].
    cbn [zero_pad]. rewrite IH. cbn. lia. }
  assert (∀ fuel n acc,
            (n < 10 ^ N.of_nat fuel)%N → fuel ≠ O →
            (String.length acc < String.length (decimal_digits fuel n acc)
             ≤ fuel + String.length acc)%nat) as Hlen.
  { induction fuel as [|fuel IH]; intros n acc Hn Hf; [done|].
    cbn [decimal_digits]. destruct (n / 10 =? 0)%N eqn:Hq; [cbn; lia|].
    apply N.eqb_neq in Hq. destruct fuel as [|fuel'].
    { exfalso. cbn in Hn. apply Hq. apply N.div_small. lia. }
    specialize (IH (n / 10)%N (String (ascii_of_N (48 + n mod 10)) acc)).
    cbn [String.length] in IH.
    rewrite Nat2N.inj_succ, N.pow_succ_r' in Hn.
    assert (n / 10 < 10 ^ N.of_nat (S fuel'))%N
      by (apply N.Div0.div_lt_upper_bound; lia).
    specialize (IH ltac:(done) ltac:(done)). lia. }
  assert (decimal_digits 20 (Z.abs_N seq) "" = decimal_digits 6 (Z.abs_N seq) "")
    as ->.
  { assert (∀ fuel k n acc,
              (n < 10 ^ N.of_nat fuel)%N → fuel ≠ O →
              decimal_digits (k + fuel) n acc = decimal_digits fuel n acc)
      as Hfuel.
    { induction fuel as [|fuel IH]; intros k n acc Hn Hf; [done|].
      replace (k + S fuel)%nat with (S (k + fuel)) by lia.
      cbn [decimal_digits]. destruct (n / 10 =? 0)%N eqn:Hq; [done|].
      apply N.eqb_neq in Hq. destruct fuel as [|fuel'].
      { exfalso. cbn in Hn. apply Hq. apply N.div_small. lia. }
      apply IH; [|done].
      rewrite Nat2N.inj_succ, N.pow_succ_r' in Hn.
      apply N.Div0.div_lt_upper_bound; lia. }
    apply (Hfuel 6%nat 14%nat); [|done].
    change (10 ^ N.of_nat 6)%N with 1000000%N. lia. }
  assert (Z.abs_N seq < 10 ^ N.of_nat 6)%N as Hb
    by (change (10 ^ N.of_nat 6)%N with 1000000%N; lia).
  pose proof (Hlen 6%nat (Z.abs_N seq) "" Hb ltac:(done)) as Hl.
  cbn [String.length] in Hl.
  change ("TKT-" +:+ ?b) with (String "T" (String "K" (String "T" (String "-" b)))).
  cbn [String.length]. rewrite Hpad. lia.
Qed.

Lemma store_grows_refl s : store_grows s s.
Proof. unfold store_grows. split; [done|]. split; [done|]. intros; lia. Qed.

Lemma store_grows_trans s1 s2 s3 :
  store_grows s1 s2 → store_grows s2 s3 → store_grows s1 s3.
Proof.
  intros (T1 & M1 & C1) (T2 & M2 & C2). split; [|split].
  - intros id H. by apply T2, T1.
  - by etrans.
  - intros t. specialize (C1 t). specialize (C2 t). lia.
Qed.

Lemma store_grows_next_number s tenantID :
  store_grows s (ticket_GetNextTicketNumber s tenantID).1.
Proof.
  split; [done|]. split; [done|]. intros t. unfold sequence_of. cbn.
  destruct (decide (tenantID = t)) as [->|Hne].
  - rewrite lookup_insert_eq. cbn. lia.
  - rewrite lookup_insert_ne by done. lia.
Qed.

(** X2. Whatever lifecycle and bulk operations are run, no ticket document
    is removed (deletion is the soft delete), no message is rewritten or
    removed, and no tenant's ticket sequence decreases. *)
Theorem run_store_grows config ops s : store_grows s (run config ops s).
Proof.
  assert (∀ s0 s1,
            Store.tickets s1 = Store.tickets s0 →
            Store.ticket_messages s1 = Store.ticket_messages s0 →
            Store.ticket_counters s1 = Store.ticket_counters s0 →
            store_grows s0 s1) as Hsame.
  { intros s0 s1 Ht Hm Hc. unfold store_grows, sequence_of.
    rewrite Ht, Hm, Hc. split; [done|]. split; [done|]. intros; lia. }
  apply (F_run store_grows); try (by (intros; apply Hsame)).
  - apply store_grows_trans.
  - intros s0 id t Hnone. split; [|split]; cbn; [|done|intros; unfold sequence_of; cbn; lia].
    intros i Hi. destruct (decide (id = i)) as [->|Hne].
    + by rewrite lookup_insert_eq.
    + by rewrite lookup_insert_ne.
  - intros s0 f id. split; [|split]; cbn; [|done|intros; unfold sequence_of; cbn; lia].
    intros i Hi. by apply lookup_alter_is_Some.
  - intros s0 m. split; [|split]; cbn; [done| |intros; unfold sequence_of; cbn; lia].
    by apply prefix_app_r.
  - apply store_grows_next_number.
Qed.

(** No operation takes a tenant's sequence back. *)
Lemma run_sequence_of config ops s tenantID :
  sequence_of s tenantID ≤ sequence_of (run config ops s) tenantID.
Proof.
  revert tenantID.
  apply (F_run (fun s0 s1 => ∀ tenantID,
                  sequence_of s0 tenantID ≤ sequence_of s1 tenantID));
    try (by (intros; unfold sequence_of; cbn; lia)).
  - intros s1 s2 s3 H12 H23 tenantID.
    specialize (H12 tenantID). specialize (H23 tenantID). lia.
  - intros s0 tenantID. apply store_grows_next_number.
Qed.

(** X3. A ticket number handed out for a tenant is not handed out again for
    that tenant, whatever operations run in between, as long as the
    sequence stays in the range of a non-negative [int64]. *)
Theorem ticket_number_not_reused config ops s tenantID :
  0 ≤ sequence_of s tenantID →
  sequence_of (run config ops (ticket_GetNextTicketNumber s tenantID).1)
    tenantID < 2 ^ 63 - 1 →
  (ticket_GetNextTicketNumber
     (run config ops (ticket_GetNextTicketNumber s tenantID).1) tenantID).2
  ≠ (ticket_GetNextTicketNumber s tenantID).2.
Proof.
  intros H0 Hmax.
  pose proof (run_sequence_of config ops
                (ticket_GetNextTicketNumber s tenantID).1 tenantID) as Hseq.
  set (s2 := run config ops (ticket_GetNextTicketNumber s tenantID).1) in *.
  assert (sequence_of (ticket_GetNextTicketNumber s tenantID).1 tenantID
          = sequence_of s tenantID + 1) as Hfirst.
  { unfold sequence_of at 1. cbn. by rewrite lookup_insert_eq. }
  rewrite Hfirst in Hseq. cbn [ticket_GetNextTicketNumber snd].
  fold (sequence_of s2 tenantID). fold (sequence_of s tenantID).
  intros Heq.
  destruct (ticket_number_value (sequence_of s2 tenantID + 1))
    as (b2 & E2 & V2); [lia|].
  destruct (ticket_number_value (sequence_of s tenantID + 1))
    as (b1 & E1 & V1); [lia|].
  rewrite E1, E2 in Heq. cbn in Heq. injection Heq as Hbody.
  change (b2 = b1) in Hbody. rewrite Hbody in V2. rewrite V2 in V1. lia.
Qed.

Lemma ticket_number_not_reused_witness :
  (ticket_GetNextTicketNumber
     (run ex_config ex_create_resolve
        (ticket_GetNextTicketNumber ex_store "acme").1) "acme").2
  ≠ (ticket_GetNextTicketNumber ex_store "acme").2.
Proof.
  apply (ticket_number_not_reused ex_config ex_create_resolve ex_store "acme").
  - vm_compute. discriminate.
  - vm_compute. reflexivity.
Defined.

(** *** What the operations leave alone in agents and departments *)

#[local] Instance agent_kept_refl : Reflexive agent_kept.
Proof. intros a. unfold agent_kept. repeat split; lia. Qed.

#[local] Instance agent_kept_trans : Transitive agent_kept.
Proof.
  intros a b c. unfold agent_kept. intros H1 H2.
  destruct_and!. repeat split; try congruence; lia.
Qed.

#[local] Instance department_kept_refl : Reflexive department_kept.
Proof. intros d. unfold department_kept. repeat split; lia. Qed.

#[local] Instance department_kept_trans : Transitive department_kept.
Proof.
  intros a b c. unfold department_kept. intros H1 H2.
  destruct_and!. repeat split; try congruence; lia.
Qed.

Lemma option_Forall2_alter {A : Type} (P : A → A → Prop) `{!Reflexive P}
    (f : A → A) (i : ObjectID) (m : gmap ObjectID A) :
  (∀ x, m !! i = Some x → P x (f x)) →
  ∀ id, option_Forall2 P (m !! id) (alter f i m !! id).
Proof.
  intros Hf id. rewrite lookup_alter. case_decide as Hid.
  - subst. destruct (m !! id) as [x|] eqn:Hx; cbn; constructor. by apply Hf.
  - destruct (m !! id); by constructor.
Qed.

Lemma staff_kept_refl s : staff_kept s s.
Proof.
  split; [|split; [|done]]; intros id.
  - destruct (Store.agents s !! id); by constructor.
  - destruct (Store.departments s !! id); by constructor.
Qed.

Lemma staff_kept_trans s1 s2 s3 :
  staff_kept s1 s2 → staff_kept s2 s3 → staff_kept s1 s3.
Proof.
  intros (A1 & D1 & C1 & P1) (A2 & D2 & C2 & P2).
  split; [|split; [|split; congruence]]; intros id.
  - specialize (A1 id). specialize (A2 id).
    destruct A1; inversion A2; subst; constructor. by etrans.
  - specialize (D1 id). specialize (D2 id).
    destruct D1; inversion D2; subst; constructor. by etrans.
Qed.

Lemma staff_kept_agents s f i :
  (∀ x, Store.agents s !! i = Some x → agent_kept x (f x)) →
  staff_kept s (Store.set_agents (alter f i (Store.agents s)) s).
Proof.
  intros Hf. split; [|split; [|done]]; cbn.
  - by apply option_Forall2_alter.
  - intros id. destruct (Store.departments s !! id); by constructor.
Qed.

Lemma staff_kept_departments s f i :
  (∀ x, Store.departments s !! i = Some x → department_kept x (f x)) →
  staff_kept s (Store.set_departments (alter f i (Store.departments s)) s).
Proof.
  intros Hf. split; [|split; [|done]]; cbn.
  - intros id. destruct (Store.agents s !! id); by constructor.
  - by apply option_Forall2_alter.
Qed.

Lemma staff_kept_same s s' :
  Store.agents s' = Store.agents s →
  Store.departments s' = Store.departments s →
  Store.categories s' = Store.categories s →
  Store.sla_policies s' = Store.sla_policies s →
  staff_kept s s'.
Proof.
  intros Ha Hd Hc Hp. unfold staff_kept. rewrite Ha, Hd, Hc, Hp.
  apply staff_kept_refl.
Qed.

(** X4. Whatever lifecycle and bulk operations are run, the stored agents
    and departments are the same documents: none is added or removed, no
    agent's identity, department list, availability, capacity or deletion
    flag changes, no department's name, SLA policy or deletion flag
    changes, the totals only go up; categories and SLA policies are not
    written at all. *)
Theorem run_staff_kept config ops s : staff_kept s (run config ops s).
Proof.
  apply (R_run staff_kept).
  - apply staff_kept_refl.
  - apply staff_kept_trans.
  - intros now s0 newID t s' t' Hc. unfold ticket_Create in Hc.
    destruct (Store.tickets s0 !! newID); simplify_eq. by apply staff_kept_same.
  - intros. by apply staff_kept_same.
  - intros. by apply staff_kept_same.
  - intros. by apply staff_kept_same.
  - intros now s0 id. apply staff_kept_agents. intros x _.
    unfold agent_kept. cbn. repeat split; lia.
  - intros now s0 id. apply staff_kept_agents. intros x _.
    unfold agent_kept, agent_dec. case_match; cbn; repeat split; lia.
  - intros now s0 id. apply staff_kept_agents. intros x _.
    unfold agent_kept. cbn. repeat split; lia.
  - intros now s0 id a v Hget. apply staff_kept_agents. intros x Hx.
    unfold agent_GetByID in Hget. rewrite Hx in Hget.
    destruct (Agent.IsDeleted x) eqn:Hd; simplify_eq.
    unfold agent_kept. cbn. rewrite Hd.
    repeat split; try lia. unfold keep_list. by case_match.
  - intros now s0 id isOpen. apply staff_kept_departments. intros x _.
    unfold department_kept, department_inc.
    destruct isOpen; cbn; repeat split; lia.
  - intros now s0 id. apply staff_kept_departments. intros x _.
    unfold department_kept, department_dec.
    case_match; cbn; repeat split; lia.
  - intros. by apply staff_kept_same.
Qed.

(** *** SLA resolution and auto-assignment *)

Lemma calculateSLA_Priority config now s t :
  Ticket.Priority (calculateSLA config now s t) = Ticket.Priority t.
Proof. unfold calculateSLA. repeat case_match; done. Qed.

Lemma resolve_policy_calculateSLA config now s t :
  resolve_policy s (calculateSLA config now s t) = resolve_policy s t.
Proof.
  destruct (calculateSLA_keeps config now s t) as (Hten & Hdept & _).
  unfold resolve_policy. by rewrite Hten, Hdept.
Qed.

(** X5. Resolving the SLA a second time at the same instant against the
    same database changes nothing: the due dates and the policy reference
    are a function of the policy, the priority and the clock. *)
Theorem calculateSLA_idempotent config now s t :
  calculateSLA config now s (calculateSLA config now s t)
  = calculateSLA config now s t.
Proof.
  unfold calculateSLA at 1.
  rewrite resolve_policy_calculateSLA, calculateSLA_Priority.
  unfold calculateSLA.
  destruct (negb (Config.SLA_Enabled config)); [done|].
  destruct (resolve_policy s t) as [[pid p]|]; [|done].
  by destruct (List.find _ _).
Qed.

#[local] Instance less_busy_trans : Transitive less_busy.
Proof. intros x y z. unfold less_busy. lia. Qed.

#[local] Instance less_busy_total : Total less_busy.
Proof. intros x y. unfold less_busy. lia. Qed.

Lemma agent_GetAvailable_elem s tenantID departmentID id a :
  (id, a) ∈ agent_GetAvailable s tenantID departmentID
  ↔ Store.agents s !! id = Some a
    ∧ agent_available tenantID departmentID a = true.
Proof.
  unfold agent_GetAvailable. rewrite merge_sort_Permutation.
  rewrite list_elem_of_In, filter_In, <- list_elem_of_In.
  rewrite elem_of_map_to_list. done.
Qed.

Lemma agent_GetAvailable_head s tenantID departmentID x rest y :
  agent_GetAvailable s tenantID departmentID = x :: rest →
  y ∈ x :: rest → less_busy x y.
Proof.
  intros Heq Hy.
  pose proof (StronglySorted_merge_sort less_busy
                (List.filter
                   (fun '(_, a) => agent_available tenantID departmentID a)
                   (map_to_list (Store.agents s)))) as Hs.
  fold (agent_GetAvailable s tenantID departmentID) in Hs. rewrite Heq in Hs.
  apply StronglySorted_inv in Hs as [_ Hall].
  apply elem_of_cons in Hy as [->|Hy]; [unfold less_busy; lia|].
  rewrite Forall_forall in Hall. by apply Hall.
Qed.

(** X6. Auto-assignment takes the least busy of the agents that can take
    the ticket and never fills an agent beyond its maximum. With no agent
    of the ticket's tenant (and department) that is active, available and
    below its maximum, nothing is written. Otherwise the chosen agent is
    such an agent, no such agent holds fewer tickets, the ticket carries the
    agent's user id and keeps its status, and the agent's count is one more
    than before and at most its maximum. *)
Theorem autoAssign_least_busy now s ticketID ticket :
  let can_take a :=
    agent_available (Ticket.TenantID ticket) (Ticket.DepartmentID ticket) a
    = true in
  ((∀ id a, Store.agents s !! id = Some a → ¬ can_take a) →
   autoAssign now s ticketID ticket = (s, ticket))
  ∧ ((∃ id a, Store.agents s !! id = Some a ∧ can_take a) →
     ∃ agentID agent,
       Store.agents s !! agentID = Some agent
       ∧ can_take agent
       ∧ (∀ id a, Store.agents s !! id = Some a → can_take a →
                  Agent.CurrentTickets agent ≤ Agent.CurrentTickets a)
       ∧ Ticket.AssignedToID (autoAssign now s ticketID ticket).2
         = Agent.UserID agent
       ∧ Ticket.Status (autoAssign now s ticketID ticket).2
         = Ticket.Status ticket
       ∧ stored_current (autoAssign now s ticketID ticket).1 agentID
         = Some (Agent.CurrentTickets agent + 1)
       ∧ Agent.CurrentTickets agent + 1 ≤ Agent.MaxTickets agent).
Proof.
  intros can_take. unfold autoAssign.
  destruct (agent_GetAvailable s (Ticket.TenantID ticket)
              (Ticket.DepartmentID ticket)) as [|[agentID agent] rest] eqn:Hav.
  - split; [done|]. intros (id & a & Hl & Hc). exfalso.
    assert ((id, a) ∈ agent_GetAvailable s (Ticket.TenantID ticket)
              (Ticket.DepartmentID ticket)) as Hin
      by (by apply agent_GetAvailable_elem).
    rewrite Hav in Hin. by apply elem_of_nil in Hin.
  - assert ((agentID, agent) ∈ agent_GetAvailable s (Ticket.TenantID ticket)
              (Ticket.DepartmentID ticket)) as Hin
      by (rewrite Hav; apply elem_of_cons; by left).
    apply agent_GetAvailable_elem in Hin as [Hl Hc].
    split.
    + intros Hnone. exfalso. by apply (Hnone agentID agent).
    + intros _. exists agentID, agent. split; [done|]. split; [done|].
      split; [|split; [done|split; [done|split]]].
      * intros id a Ha Hca.
        assert ((id, a) ∈ (agentID, agent) :: rest) as Hin.
        { rewrite <- Hav. by apply agent_GetAvailable_elem. }
        apply (agent_GetAvailable_head _ _ _ _ _ _ Hav Hin).
      * unfold stored_current. cbn. rewrite lookup_alter_eq, Hl. done.
      * unfold agent_available in Hc.
        repeat (apply andb_prop in Hc as [Hc ?]).
        match goal with H : (_ <? _) = true |- _ => apply Z.ltb_lt in H end.
        lia.
Qed.

(** *** Deleting and creating tickets *)

(** A ticket operation addressed to an id that [GetTicket] does not find
    returns that error and the database it was given. *)
Lemma lifecycle_missing_ticket config now s id e :
  GetTicket s id = Err e →
  (∀ req u n a, UpdateTicket config now s id req u n a = (s, Err e))
  ∧ (∀ req u n a, ChangeStatus now s id req u n a = (s, Err e))
  ∧ (∀ req u n, AssignTicket config now s id req u n = (s, Err e))
  ∧ (∀ req u n, TransferTicket config now s id req u n = (s, Err e))
  ∧ (∀ req u n m t, AddReply now s id req u n m t = (s, Err e))
  ∧ (∀ req u, RateTicket now s id req u = (s, Err e))
  ∧ (∀ u, DeleteTicket now s id u = (s, Err e)).
Proof.
  intros H.
  unfold UpdateTicket, ChangeStatus, AssignTicket, TransferTicket, AddReply,
    RateTicket, DeleteTicket.
  rewrite H. repeat split; done.
Qed.

(** X7. Deletion is a soft delete. On a ticket that [GetTicket] finds,
    [DeleteTicket] succeeds; the document stays stored with its content,
    flagged deleted and stamped with who and when; from then on the ticket
    is not found, and every ticket operation addressed to it (a second
    delete included) fails with the not-found error and writes nothing. *)
Theorem DeleteTicket_soft config now s id deletedBy ticketID ticket :
  GetTicket s id = Ok (ticketID, ticket) →
  let s' := (DeleteTicket now s id deletedBy).1 in
  (DeleteTicket now s id deletedBy).2 = Ok tt
  ∧ (∃ t', Store.tickets s' !! ticketID = Some t'
           ∧ Ticket.IsDeleted t' = true
           ∧ Ticket.DeletedBy t' = deletedBy
           ∧ Ticket.DeletedAt t' = Some now
           ∧ Ticket.Subject t' = Ticket.Subject ticket
           ∧ Ticket.Description t' = Ticket.Description ticket
           ∧ Ticket.Status t' = Ticket.Status ticket
           ∧ Ticket.TicketNumber t' = Ticket.TicketNumber ticket)
  ∧ GetTicket s' id = Err TicketNotFoundError
  ∧ ∀ now',
      (∀ req u n a, UpdateTicket config now' s' id req u n a
                    = (s', Err TicketNotFoundError))
      ∧ (∀ req u n a, ChangeStatus now' s' id req u n a
                      = (s', Err TicketNotFoundError))
      ∧ (∀ req u n, AssignTicket config now' s' id req u n
                    = (s', Err TicketNotFoundError))
      ∧ (∀ req u n, TransferTicket config now' s' id req u n
                    = (s', Err TicketNotFoundError))
      ∧ (∀ req u n m t, AddReply now' s' id req u n m t
                        = (s', Err TicketNotFoundError))
      ∧ (∀ req u, RateTicket now' s' id req u = (s', Err TicketNotFoundError))
      ∧ (∀ u, DeleteTicket now' s' id u = (s', Err TicketNotFoundError)).
Proof.
  intros Hget s'.
  apply GetTicket_stored in Hget as Hst. destruct Hst as (Hhex & Hl & Hdel).
  assert (DeleteTicket now s id deletedBy
          = (ticket_Delete now
               (match Ticket.DepartmentID ticket with
                | Some deptID =>
                    if negb (String.eqb (Ticket.Status ticket) StatusClosed)
                       && negb (String.eqb (Ticket.Status ticket)
                                  StatusResolved)
                    then department_DecrementOpenTickets now
                           (if negb (String.eqb (Ticket.AssignedToID ticket) "")
                            then agent_DecrementTicketCount now s
                                   (ObjectIDFromHex_
                                      (Ticket.AssignedToID ticket))
                            else s) deptID
                    else (if negb (String.eqb (Ticket.AssignedToID ticket) "")
                          then agent_DecrementTicketCount now s
                                 (ObjectIDFromHex_ (Ticket.AssignedToID ticket))
                          else s)
                | None =>
                    (if negb (String.eqb (Ticket.AssignedToID ticket) "")
                     then agent_DecrementTicketCount now s
                            (ObjectIDFromHex_ (Ticket.AssignedToID ticket))
                     else s)
                end) ticketID deletedBy, Ok tt)) as Heq.
  { unfold DeleteTicket. by rewrite Hget. }
  assert (∃ t', Store.tickets s' !! ticketID = Some t'
                ∧ Ticket.IsDeleted t' = true
                ∧ Ticket.DeletedBy t' = deletedBy
                ∧ Ticket.DeletedAt t' = Some now
                ∧ Ticket.Subject t' = Ticket.Subject ticket
                ∧ Ticket.Description t' = Ticket.Description ticket
                ∧ Ticket.Status t' = Ticket.Status ticket
                ∧ Ticket.TicketNumber t' = Ticket.TicketNumber ticket)
    as Hdoc.
  { subst s'. rewrite Heq. cbn [fst]. unfold ticket_Delete. cbn.
    rewrite lookup_alter_eq.
    assert (∀ s0, Store.tickets s0 = Store.tickets s →
                  Store.tickets s0 !! ticketID = Some ticket) as Hsame
      by (by intros s0 ->).
    rewrite Hsame by (repeat case_match; reflexivity).
    cbn. eexists. split; [reflexivity|]. by cbn. }
  assert (GetTicket s' id = Err TicketNotFoundError) as Hgone.
  { destruct Hdoc as (t' & Ht' & Hd' & _).
    unfold GetTicket, ticket_GetByID. by rewrite Hhex, Ht', Hd'. }
  split; [by rewrite Heq|]. split; [exact Hdoc|]. split; [exact Hgone|].
  intros now'.
  apply (lifecycle_missing_ticket config now' s' id _ Hgone).
Qed.

Lemma DeleteTicket_soft_witness :
  GetTicket (DeleteTicket 2000 ex_store_1 (id_hex 100) "bob").1 (id_hex 100)
  = Err TicketNotFoundError.
Proof.
  assert (∃ t, GetTicket ex_store_1 (id_hex 100) = Ok (100%N, t)) as [t Hget].
  { eexists. vm_compute. reflexivity. }
  apply (DeleteTicket_soft ex_config 2000 ex_store_1 (id_hex 100) "bob"
           100%N t Hget).
Defined.

Lemma same_core_refl t : same_core t t.
Proof. unfold same_core. repeat split. Qed.

Lemma keep_option_same {A : Type} (x : option A) : keep_option x x = x.
Proof. by destruct x. Qed.

Lemma keep_string_same x : keep_string x x = x.
Proof. unfold keep_string. by destruct (String.eqb x ""). Qed.

Lemma calculateSLA_same_core config now s t :
  same_core t (calculateSLA config now s t).
Proof.
  unfold calculateSLA.
  repeat case_match; unfold same_core; cbn; repeat split.
Qed.

(** What [autoAssign] leaves as it is: the core of the ticket, returned and
    stored, and everything but the ticket, the chosen agent and the
    history. *)
Lemma autoAssign_keeps now s ticketID ticket :
  Store.tickets s !! ticketID = Some ticket →
  same_core ticket (autoAssign now s ticketID ticket).2
  ∧ (∃ stored, Store.tickets (autoAssign now s ticketID ticket).1 !! ticketID
               = Some stored ∧ same_core ticket stored)
  ∧ Store.departments (autoAssign now s ticketID ticket).1
    = Store.departments s
  ∧ Store.ticket_counters (autoAssign now s ticketID ticket).1
    = Store.ticket_counters s.
Proof.
  intros Hl. unfold autoAssign.
  destruct (agent_GetAvailable _ _ _) as [|[agentID agent] rest].
  - cbn. split; [apply same_core_refl|]. split; [|done].
    exists ticket. split; [done|apply same_core_refl].
  - cbn. split; [unfold same_core; cbn; repeat split|]. split; [|done].
    rewrite lookup_alter_eq, Hl. cbn. eexists. split; [reflexivity|].
    unfold same_core. cbn.
    rewrite keep_option_same, keep_string_same. repeat split.
Qed.

(** X8. [CreateTicket] with a subject, a description and a fresh document id
    succeeds. The ticket it returns, which is then found under that id with
    the same core, is open, belongs to the request's tenant and to the
    customer, carries the number of the tenant's advanced sequence, and has
    priority medium, source web and type question where the request left
    them empty; the tenant's sequence is one more than before and the
    history has grown. *)
Theorem CreateTicket_created config now newID s req customerID customerName
    customerEmail :
  CreateTicketRequest.Subject req ≠ "" →
  CreateTicketRequest.Description req ≠ "" →
  Store.tickets s !! newID = None →
  ∃ s' ticket,
    CreateTicket config now newID s req customerID customerName customerEmail
    = (s', Ok (newID, ticket))
    ∧ Ticket.Status ticket = StatusOpen
    ∧ Ticket.TenantID ticket = CreateTicketRequest.TenantID req
    ∧ Ticket.CustomerID ticket = customerID
    ∧ Ticket.Subject ticket = CreateTicketRequest.Subject req
    ∧ Ticket.Description ticket = CreateTicketRequest.Description req
    ∧ Ticket.TicketNumber ticket
      = ticket_number (sequence_of s (CreateTicketRequest.TenantID req) + 1)
    ∧ Ticket.Priority ticket
      = (if String.eqb (CreateTicketRequest.Priority req) ""
         then PriorityMedium else CreateTicketRequest.Priority req)
    ∧ Ticket.Source ticket
      = (if String.eqb (CreateTicketRequest.Source req) ""
         then SourceWeb else CreateTicketRequest.Source req)
    ∧ Ticket.Type_ ticket
      = (if String.eqb (CreateTicketRequest.Type_ req) ""
         then TypeQuestion else CreateTicketRequest.Type_ req)
    ∧ (∃ stored, ticket_GetByID s' newID = Some stored
                 ∧ same_core ticket stored)
    ∧ sequence_of s' (CreateTicketRequest.TenantID req)
      = sequence_of s (CreateTicketRequest.TenantID req) + 1
    ∧ history_grows s s'.
Proof.
  intros Hsub Hdesc Hfresh.
  unfold CreateTicket.
  apply String.eqb_neq in Hsub, Hdesc. rewrite Hsub, Hdesc.
  unfold ticket_GetNextTicketNumber, ticket_Create. cbn [fst snd].
  set (s1 := Store.set_ticket_counters _ s).
  change (Store.tickets s1) with (Store.tickets s).
  rewrite Hfresh.
  assert (sequence_of s1 (CreateTicketRequest.TenantID req)
          = sequence_of s (CreateTicketRequest.TenantID req) + 1) as Hseq.
  { unfold sequence_of at 1. subst s1. cbn. by rewrite lookup_insert_eq. }
  assert (Store.ticket_history s1 = Store.ticket_history s) as Hh1 by done.
  match goal with
  | |- context [calculateSLA config now s1 ?t] => set (t2 := t)
  end.
  assert (Ticket.Status t2 = StatusOpen
          ∧ Ticket.TenantID t2 = CreateTicketRequest.TenantID req
          ∧ Ticket.CustomerID t2 = customerID
          ∧ Ticket.Subject t2 = CreateTicketRequest.Subject req
          ∧ Ticket.Description t2 = CreateTicketRequest.Description req
          ∧ Ticket.TicketNumber t2
            = ticket_number
                (sequence_of s (CreateTicketRequest.TenantID req) + 1)
          ∧ Ticket.Priority t2
            = (if String.eqb (CreateTicketRequest.Priority req) ""
               then PriorityMedium else CreateTicketRequest.Priority req)
          ∧ Ticket.Source t2
            = (if String.eqb (CreateTicketRequest.Source req) ""
               then SourceWeb else CreateTicketRequest.Source req)
          ∧ Ticket.Type_ t2
            = (if String.eqb (CreateTicketRequest.Type_ req) ""
               then TypeQuestion else CreateTicketRequest.Type_ req)
          ∧ Ticket.IsDeleted t2 = false) as Ht2.
  { clear Hseq Hh1. subst t2.
    destruct (String.eqb (CreateTicketRequest.DepartmentID req) "");
      [|destruct (ObjectIDFromHex (CreateTicketRequest.DepartmentID req));
        [destruct (department_GetByID s1 _)|]];
      (destruct (String.eqb (CreateTicketRequest.CategoryID req) "");
       [|destruct (ObjectIDFromHex (CreateTicketRequest.CategoryID req));
         [destruct (category_GetByID s1 _)|]]);
      repeat split; reflexivity. }
  clearbody t2.
  pose proof (calculateSLA_same_core config now s1 t2) as Hcore.
  set (t3 := calculateSLA config now s1 t2) in *. clearbody t3.
  set (t4 := Ticket.set_LastActivityAt now
               (Ticket.set_UpdatedAt now (Ticket.set_CreatedAt now t3))).
  assert (same_core t3 t4) as H34 by (unfold same_core; by cbn).
  clearbody t4.
  set (s2 := Store.set_tickets (<[newID := t4]> (Store.tickets s)) s1).
  set (s3 := match Ticket.DepartmentID t4 with
             | Some deptID => department_IncrementTicketCount now s2 deptID true
             | None => s2
             end).
  assert (Store.tickets s3 = <[newID := t4]> (Store.tickets s)
          ∧ Store.ticket_counters s3 = Store.ticket_counters s1
          ∧ Store.ticket_history s3 = Store.ticket_history s)
    as (Ht3 & Hc3 & Hh3) by (subst s3; by destruct (Ticket.DepartmentID t4)).
  clearbody s3. clear s2.
  set (s4 := createHistory _ _ _ _ _ _ _ _ _ _ _).
  assert (Store.tickets s4 !! newID = Some t4) as Hl4
    by (subst s4; cbn; rewrite Ht3; apply lookup_insert_eq).
  assert (Store.ticket_counters s4 = Store.ticket_counters s1) as Hc4
    by (subst s4; cbn; exact Hc3).
  assert (length (Store.ticket_history s4)
          = S (length (Store.ticket_history s))) as Hh4.
  { subst s4. unfold createHistory, history_Create. cbn.
    rewrite length_app, Hh3. cbn. lia. }
  clearbody s4.
  unfold same_core in Hcore, H34. destruct_and!.
  destruct (Config.Ticket_AutoAssignEnabled config
            && bool_decide (Ticket.DepartmentID t4 ≠ None)).
  - pose proof (autoAssign_keeps now s4 newID t4 Hl4)
      as (Hk & (stored & Hst & Hks) & _ & Hcnt).
    pose proof (history_prefix_length _ _
                  (history_prefix_autoAssign now s4 newID t4)) as Hlen.
    destruct (autoAssign now s4 newID t4) as [s5 t5]. cbn [fst snd] in *.
    unfold same_core in Hk, Hks. destruct_and!.
    eexists _, _. split; [reflexivity|].
    repeat split; try congruence.
    + exists stored. unfold ticket_GetByID. rewrite Hst.
      assert (Ticket.IsDeleted stored = false) as -> by congruence.
      split; [done|]. unfold same_core. repeat split; congruence.
    + unfold sequence_of in *. rewrite Hcnt, Hc4. exact Hseq.
    + unfold history_grows. lia.
  - eexists _, _. split; [reflexivity|].
    repeat split; try congruence.
    + exists t4. unfold ticket_GetByID. rewrite Hl4.
      assert (Ticket.IsDeleted t4 = false) as -> by congruence.
      split; [done|apply same_core_refl].
    + unfold sequence_of in *. rewrite Hc4. exact Hseq.
    + unfold history_grows. lia.
Qed.

Lemma CreateTicket_created_witness :
  ∃ s' ticket,
    CreateTicket ex_config_auto 1000 100%N ex_store (ex_request (id_hex 1))
      "carol" "Carol" "carol@example.test" = (s', Ok (100%N, ticket))
    ∧ Ticket.Status ticket = StatusOpen
    ∧ Ticket.TicketNumber ticket = ticket_number (sequence_of ex_store "acme" + 1).
Proof.
  destruct (CreateTicket_created ex_config_auto 1000 100%N ex_store
              (ex_request (id_hex 1)) "carol" "Carol" "carol@example.test")
    as (s' & ticket & Hc & Hs & _ & _ & _ & _ & Hn & _);
    [discriminate|discriminate|reflexivity|].
  exists s', ticket. split; [exact Hc|]. split; [exact Hs|exact Hn].
Defined.

Lemma autoAssign_departments now s ticketID ticket :
  Store.departments (autoAssign now s ticketID ticket).1 = Store.departments s.
Proof. unfold autoAssign. by destruct (agent_GetAvailable _ _ _) as [|[]]. Qed.

Lemma CreateTicket_departments config now newID s req customerID customerName
    customerEmail :
  CreateTicketRequest.Subject req ≠ "" →
  CreateTicketRequest.Description req ≠ "" →
  Store.tickets s !! newID = None →
  ∃ s' ticket,
    CreateTicket config now newID s req customerID customerName customerEmail
    = (s', Ok (newID, ticket))
    ∧ Ticket.DepartmentID ticket = requested_department s req
    ∧ Store.departments s'
      = match requested_department s req with
        | Some deptID =>
            alter (department_inc now true) deptID (Store.departments s)
        | None => Store.departments s
        end.
Proof.
  intros Hsub Hdesc Hfresh.
  unfold CreateTicket.
  apply String.eqb_neq in Hsub, Hdesc. rewrite Hsub, Hdesc.
  unfold ticket_GetNextTicketNumber, ticket_Create. cbn [fst snd].
  set (s1 := Store.set_ticket_counters _ s).
  change (Store.tickets s1) with (Store.tickets s).
  rewrite Hfresh.
  match goal with
  | |- context [calculateSLA config now s1 ?t] => set (t2 := t)
  end.
  assert (Ticket.DepartmentID t2 = requested_department s req) as Ht2.
  { subst t2. unfold requested_department.
    change (department_GetByID s1) with (department_GetByID s).
    destruct (String.eqb (CreateTicketRequest.DepartmentID req) "") eqn:He.
    - apply String.eqb_eq in He. rewrite He. cbn.
      destruct (String.eqb (CreateTicketRequest.CategoryID req) "");
        [|destruct (ObjectIDFromHex (CreateTicketRequest.CategoryID req));
          [destruct (category_GetByID s1 _)|]]; reflexivity.
    - destruct (ObjectIDFromHex (CreateTicketRequest.DepartmentID req));
        [destruct (department_GetByID s _)|];
        (destruct (String.eqb (CreateTicketRequest.CategoryID req) "");
         [|destruct (ObjectIDFromHex (CreateTicketRequest.CategoryID req));
           [destruct (category_GetByID s1 _)|]]); reflexivity. }
  clearbody t2.
  pose proof (calculateSLA_same_core config now s1 t2) as Hcore.
  set (t3 := calculateSLA config now s1 t2) in *. clearbody t3.
  set (t4 := Ticket.set_LastActivityAt now
               (Ticket.set_UpdatedAt now (Ticket.set_CreatedAt now t3))).
  assert (Ticket.DepartmentID t4 = requested_department s req) as H4.
  { unfold same_core in Hcore. destruct_and!. subst t4. cbn. congruence. }
  clearbody t4. rewrite H4.
  set (s2 := Store.set_tickets (<[newID := t4]> (Store.tickets s)) s1).
  set (s3 := match requested_department s req with
             | Some deptID => department_IncrementTicketCount now s2 deptID true
             | None => s2
             end).
  assert (Store.departments s3
          = match requested_department s req with
            | Some deptID =>
                alter (department_inc now true) deptID (Store.departments s)
            | None => Store.departments s
            end ∧ Store.tickets s3 !! newID = Some t4) as [Hd3 Hl3].
  { subst s3. destruct (requested_department s req); cbn;
      (split; [done|apply lookup_insert_eq]). }
  clearbody s3. clear s2.
  set (s4 := createHistory _ _ _ _ _ _ _ _ _ _ _).
  assert (Store.departments s4 = Store.departments s3) as Hd4 by done.
  assert (Store.tickets s4 !! newID = Some t4) as Hl4 by done.
  clearbody s4.
  destruct (Config.Ticket_AutoAssignEnabled config && _).
  - pose proof (autoAssign_keeps now s4 newID t4 Hl4) as (Hk & _ & Hdep & _).
    destruct (autoAssign now s4 newID t4) as [s5 t5]. cbn [fst snd] in *.
    unfold same_core in Hk. destruct_and!.
    eexists _, _. split; [reflexivity|]. split; congruence.
  - eexists _, _. split; [reflexivity|]. split; congruence.
Qed.

(** X9. A ticket created with the id of a stored department belongs to that
    department, whatever the department's tenant; the department's open and
    total counts are each one more than before and no other department is
    touched. *)
Theorem CreateTicket_department_counted config now newID s req customerID
    customerName customerEmail deptID dept :
  CreateTicketRequest.Subject req ≠ "" →
  CreateTicketRequest.Description req ≠ "" →
  Store.tickets s !! newID = None →
  ObjectIDFromHex (CreateTicketRequest.DepartmentID req) = Some deptID →
  department_GetByID s deptID = Some dept →
  ∃ s' ticket dept',
    CreateTicket config now newID s req customerID customerName customerEmail
    = (s', Ok (newID, ticket))
    ∧ Ticket.DepartmentID ticket = Some deptID
    ∧ Store.departments s' !! deptID = Some dept'
    ∧ Department.OpenTickets dept' = Department.OpenTickets dept + 1
    ∧ Department.TotalTickets dept' = Department.TotalTickets dept + 1
    ∧ ∀ other, other ≠ deptID →
        Store.departments s' !! other = Store.departments s !! other.
Proof.
  intros Hsub Hdesc Hfresh Hhex Hdept.
  destruct (CreateTicket_departments config now newID s req customerID
              customerName customerEmail Hsub Hdesc Hfresh)
    as (s' & ticket & Hc & Ht & Hd).
  unfold requested_department in Ht, Hd. rewrite Hhex, Hdept in Ht, Hd.
  unfold department_GetByID in Hdept.
  destruct (Store.departments s !! deptID) as [d|] eqn:Hl; [|done].
  destruct (Department.IsDeleted d); [done|]. simplify_eq.
  exists s', ticket, (department_inc now true dept).
  split; [done|]. split; [done|].
  rewrite Hd, lookup_alter_eq, Hl.
  split; [done|]. split; [done|]. split; [done|].
  intros other Hne. by rewrite lookup_alter_ne.
Qed.

Lemma CreateTicket_department_counted_witness :
  ∃ s' dept',
    (CreateTicket ex_config 1000 100%N ex_store (ex_request (id_hex 1))
       "carol" "Carol" "carol@example.test").1 = s'
    ∧ Store.departments s' !! 1%N = Some dept'
    ∧ Department.OpenTickets dept' = 1.
Proof.
  destruct (CreateTicket_department_counted ex_config 1000 100%N ex_store
              (ex_request (id_hex 1)) "carol" "Carol" "carol@example.test"
              1%N (ex_department "Support" 0))
    as (s' & ticket & dept' & Hc & _ & Hl & Ho & _);
    [discriminate|discriminate|reflexivity|reflexivity|reflexivity|].
  exists s', dept'. rewrite Hc. split; [done|]. split; [done|exact Ho].
Defined.

(** X10. A department id in the request that is empty, malformed, unknown or
    the id of a deleted department is not an error: the ticket is created
    without a department and no department is touched. *)
Theorem CreateTicket_department_ignored config now newID s req customerID
    customerName customerEmail :
  CreateTicketRequest.Subject req ≠ "" →
  CreateTicketRequest.Description req ≠ "" →
  Store.tickets s !! newID = None →
  (∀ deptID,
     ObjectIDFromHex (CreateTicketRequest.DepartmentID req) = Some deptID →
     department_GetByID s deptID = None) →
  ∃ s' ticket,
    CreateTicket config now newID s req customerID customerName customerEmail
    = (s', Ok (newID, ticket))
    ∧ Ticket.DepartmentID ticket = None
    ∧ Store.departments s' = Store.departments s.
Proof.
  intros Hsub Hdesc Hfresh Hnone.
  destruct (CreateTicket_departments config now newID s req customerID
              customerName customerEmail Hsub Hdesc Hfresh)
    as (s' & ticket & Hc & Ht & Hd).
  assert (requested_department s req = None) as Hr.
  { unfold requested_department.
    destruct (ObjectIDFromHex _) as [deptID|]; [|done].
    by rewrite (Hnone deptID eq_refl). }
  rewrite Hr in Ht, Hd. by exists s', ticket.
Qed.

Lemma CreateTicket_department_ignored_witness :
  ∃ s' ticket,
    CreateTicket ex_config 1000 100%N ex_store (ex_request (id_hex 7))
      "carol" "Carol" "carol@example.test" = (s', Ok (100%N, ticket))
    ∧ Ticket.DepartmentID ticket = None.
Proof.
  destruct (CreateTicket_department_ignored ex_config 1000 100%N ex_store
              (ex_request (id_hex 7)) "carol" "Carol" "carol@example.test")
    as (s' & ticket & Hc & Ht & _);
    [discriminate|discriminate|reflexivity| |].
  - intros deptID Hhex. vm_compute in Hhex. injection Hhex as <-.
    reflexivity.
  - by exists s', ticket.
Defined.

(** X11. When the insert fails, here because the document id is taken,
    [CreateTicket] fails after it has drawn the ticket number: the tenant's
    sequence has advanced, so the number is never given to a ticket, and
    nothing else has changed. *)
Theorem CreateTicket_failed_insert config now newID s req customerID
    customerName customerEmail :
  CreateTicketRequest.Subject req ≠ "" →
  CreateTicketRequest.Description req ≠ "" →
  is_Some (Store.tickets s !! newID) →
  ∃ s' e,
    CreateTicket config now newID s req customerID customerName customerEmail
    = (s', Err e)
    ∧ sequence_of s' (CreateTicketRequest.TenantID req)
      = sequence_of s (CreateTicketRequest.TenantID req) + 1
    ∧ Store.tickets s' = Store.tickets s
    ∧ Store.departments s' = Store.departments s
    ∧ Store.agents s' = Store.agents s
    ∧ Store.ticket_history s' = Store.ticket_history s.
Proof.
  intros Hsub Hdesc [old Hold].
  unfold CreateTicket.
  apply String.eqb_neq in Hsub, Hdesc. rewrite Hsub, Hdesc.
  unfold ticket_GetNextTicketNumber, ticket_Create. cbn [fst snd].
  set (s1 := Store.set_ticket_counters _ s).
  change (Store.tickets s1) with (Store.tickets s).
  rewrite Hold. eexists s1, _. split; [done|].
  split; [|done].
  unfold sequence_of at 1. subst s1. cbn. by rewrite lookup_insert_eq.
Qed.

Lemma CreateTicket_failed_insert_witness :
  ∃ s' e,
    CreateTicket ex_config 5000 100%N ex_store_1 (ex_request (id_hex 1))
      "carol" "Carol" "carol@example.test" = (s', Err e)
    ∧ sequence_of s' "acme" = sequence_of ex_store_1 "acme" + 1.
Proof.
  destruct (CreateTicket_failed_insert ex_config 5000 100%N ex_store_1
              (ex_request (id_hex 1)) "carol" "Carol" "carol@example.test")
    as (s' & e & Hc & Hs & _);
    [discriminate|discriminate|vm_compute; eauto|].
  by exists s', e.
Defined.

(** *** Replies *)

(** The ticket [AddReply] leaves stored, and the message it returns. *)
Lemma AddReply_found now s id req senderID senderName senderEmail senderType
    ticketID ticket :
  GetTicket s id = Ok (ticketID, ticket) →
  ∃ s' message ticket',
    AddReply now s id req senderID senderName senderEmail senderType
    = (s', Ok message)
    ∧ Store.ticket_messages s' = (Store.ticket_messages s ++ [message])%list
    ∧ message
      = TicketMessage.mk ticketID (Ticket.TenantID ticket)
          (if CreateMessageRequest.IsPrivate req then MessageTypeInternalNote
           else if String.eqb (CreateMessageRequest.Type_ req) ""
                then MessageTypeReply else CreateMessageRequest.Type_ req)
          (CreateMessageRequest.Content req) senderType senderID senderName
          senderEmail (CreateMessageRequest.IsPrivate req) now
    ∧ Store.tickets s' !! ticketID = Some ticket'
    ∧ (∀ other, other ≠ ticketID →
         Store.tickets s' !! other = Store.tickets s !! other)
    ∧ Ticket.MessageCount ticket'
      = Ticket.MessageCount ticket
        + (if CreateMessageRequest.IsPrivate req then 0 else 1)
    ∧ Ticket.InternalNotes ticket'
      = Ticket.InternalNotes ticket
        + (if CreateMessageRequest.IsPrivate req then 1 else 0)
    ∧ Ticket.Status ticket'
      = (if String.eqb senderType SenderCustomer
            && String.eqb (Ticket.Status ticket) StatusPending
         then StatusOpen else Ticket.Status ticket)
    ∧ Ticket.FirstResponsedAt ticket'
      = match Ticket.FirstResponsedAt ticket with
        | Some first => Some first
        | None =>
            if String.eqb senderType SenderAgent
               && negb (CreateMessageRequest.IsPrivate req)
            then Some now else None
        end
    ∧ Ticket.LastActivityAt ticket' = now
    ∧ Store.ticket_history s' = Store.ticket_history s
    ∧ Store.agents s' = Store.agents s
    ∧ Store.departments s' = Store.departments s.
Proof.
  intros Hget. destruct (GetTicket_stored _ _ _ _ Hget) as (_ & Hl & _).
  unfold AddReply. rewrite Hget.
  unfold message_Create, ticket_IncrementMessageCount, ticket_UpdateFields.
  cbn [fst snd].
  eexists _, _, _. split; [reflexivity|].
  split; [reflexivity|]. split.
  { cbn. by destruct (CreateMessageRequest.IsPrivate req),
                     (String.eqb (CreateMessageRequest.Type_ req) ""). }
  split. { cbn. rewrite !lookup_alter_eq, Hl. reflexivity. }
  split. { intros other Hne. cbn. by rewrite !lookup_alter_ne. }
  assert (String.eqb senderType SenderCustomer = true →
          String.eqb senderType SenderAgent = false) as Hexcl.
  { intros ->%String.eqb_eq. reflexivity. }
  destruct (String.eqb senderType SenderCustomer);
    [rewrite Hexcl by done|destruct (String.eqb senderType SenderAgent)];
    destruct (CreateMessageRequest.IsPrivate req);
    destruct (String.eqb (Ticket.Status ticket) StatusPending);
    destruct (Ticket.FirstResponsedAt ticket) eqn:Hfirst;
    cbn; repeat split; first [reflexivity | lia | exact Hfirst].
Qed.

(** X12. A reply on a ticket that is found is stored as the last message
    and returned, carrying the ticket's id and tenant and the creation time;
    a private one has the type internal_note whatever type was asked for and
    counts in [InternalNotes] only, any other counts in [MessageCount] only.
    No other ticket, no agent, no department and no history entry is
    written, and the status of the ticket is not asked about. *)
Theorem AddReply_message now s id req senderID senderName senderEmail
    senderType ticketID ticket :
  GetTicket s id = Ok (ticketID, ticket) →
  ∃ s' message ticket',
    AddReply now s id req senderID senderName senderEmail senderType
    = (s', Ok message)
    ∧ Store.ticket_messages s' = (Store.ticket_messages s ++ [message])%list
    ∧ TicketMessage.TicketID message = ticketID
    ∧ TicketMessage.TenantID message = Ticket.TenantID ticket
    ∧ TicketMessage.Content message = CreateMessageRequest.Content req
    ∧ TicketMessage.CreatedAt message = now
    ∧ (CreateMessageRequest.IsPrivate req = true →
       TicketMessage.Type_ message = MessageTypeInternalNote)
    ∧ Store.tickets s' !! ticketID = Some ticket'
    ∧ Ticket.MessageCount ticket'
      = Ticket.MessageCount ticket
        + (if CreateMessageRequest.IsPrivate req then 0 else 1)
    ∧ Ticket.InternalNotes ticket'
      = Ticket.InternalNotes ticket
        + (if CreateMessageRequest.IsPrivate req then 1 else 0)
    ∧ (∀ other, other ≠ ticketID →
         Store.tickets s' !! other = Store.tickets s !! other)
    ∧ Store.ticket_history s' = Store.ticket_history s
    ∧ Store.agents s' = Store.agents s
    ∧ Store.departments s' = Store.departments s.
Proof.
  intros Hget.
  destruct (AddReply_found now s id req senderID senderName senderEmail
              senderType ticketID ticket Hget)
    as (s' & message & ticket' & Hr & Hm & -> & Hl & Ho & Hc & Hn & _ & _ & _
        & Hh & Ha & Hd).
  eexists s', _, ticket'. split; [exact Hr|]. cbn.
  repeat split; try done. by intros ->.
Qed.

Lemma AddReply_message_witness :
  ∃ s' message,
    AddReply 1200 ex_store_1 (id_hex 100)
      (CreateMessageRequest.mk "Any news?" "" false)
      "carol" "Carol" "carol@example.test" SenderCustomer = (s', Ok message)
    ∧ Store.ticket_messages s' = [message].
Proof.
  assert (∃ t, GetTicket ex_store_1 (id_hex 100) = Ok (100%N, t)) as [t Hget].
  { eexists. vm_compute. reflexivity. }
  destruct (AddReply_message 1200 ex_store_1 (id_hex 100)
              (CreateMessageRequest.mk "Any news?" "" false)
              "carol" "Carol" "carol@example.test" SenderCustomer 100%N t Hget)
    as (s' & message & _ & Hr & Hm & _).
  exists s', message. split; [exact Hr|exact Hm].
Defined.

(** X13. What a reply does to the ticket. The status changes in one case
    only, a customer's reply on a pending ticket, which opens it; the first
    response time is set once, by the first reply of an agent that is not
    private, and is kept by every later reply. *)
Theorem AddReply_ticket now s id req senderID senderName senderEmail
    senderType ticketID ticket :
  GetTicket s id = Ok (ticketID, ticket) →
  ∃ ticket',
    Store.tickets
      (AddReply now s id req senderID senderName senderEmail senderType).1
    !! ticketID = Some ticket'
    ∧ Ticket.Status ticket'
      = (if String.eqb senderType SenderCustomer
            && String.eqb (Ticket.Status ticket) StatusPending
         then StatusOpen else Ticket.Status ticket)
    ∧ Ticket.FirstResponsedAt ticket'
      = match Ticket.FirstResponsedAt ticket with
        | Some first => Some first
        | None =>
            if String.eqb senderType SenderAgent
               && negb (CreateMessageRequest.IsPrivate req)
            then Some now else None
        end
    ∧ Ticket.LastActivityAt ticket' = now.
Proof.
  intros Hget.
  destruct (AddReply_found now s id req senderID senderName senderEmail
              senderType ticketID ticket Hget)
    as (s' & message & ticket' & Hr & _ & _ & Hl & _ & _ & _ & Hs & Hf & Ha & _).
  rewrite Hr. by exists ticket'.
Qed.

Lemma AddReply_ticket_witness :
  ∃ ticket',
    Store.tickets
      (AddReply 1200 ex_store_1 (id_hex 100)
         (CreateMessageRequest.mk "We are on it" "" false)
         "bob" "Bob" "bob@acme.test" SenderAgent).1 !! 100%N = Some ticket'
    ∧ Ticket.FirstResponsedAt ticket' = Some 1200.
Proof.
  assert (∃ t, GetTicket ex_store_1 (id_hex 100) = Ok (100%N, t)
               ∧ Ticket.FirstResponsedAt t = None) as (t & Hget & Hnone).
  { eexists. vm_compute. split; reflexivity. }
  destruct (AddReply_ticket 1200 ex_store_1 (id_hex 100)
              (CreateMessageRequest.mk "We are on it" "" false)
              "bob" "Bob" "bob@acme.test" SenderAgent 100%N t Hget)
    as (ticket' & Hl & _ & Hf & _).
  exists ticket'. split; [exact Hl|]. rewrite Hf, Hnone. reflexivity.
Defined.

(** *** Ratings *)

(** X14. [RateTicket] refuses, and writes nothing, when the caller is not
    the customer of the ticket or the ticket is neither resolved nor
    closed. *)
Theorem RateTicket_refused now s id req userID ticketID ticket :
  GetTicket s id = Ok (ticketID, ticket) →
  Ticket.CustomerID ticket ≠ userID
  ∨ (Ticket.Status ticket ≠ StatusResolved
     ∧ Ticket.Status ticket ≠ StatusClosed) →
  ∃ e, RateTicket now s id req userID = (s, Err e).
Proof.
  intros Hget Hwhy. unfold RateTicket. rewrite Hget.
  destruct (String.eqb (Ticket.CustomerID ticket) userID) eqn:Hown; cbn.
  - apply String.eqb_eq in Hown.
    destruct Hwhy as [Hne|[Hres Hclo]]; [done|].
    apply String.eqb_neq in Hres, Hclo. rewrite Hres, Hclo. cbn. eauto.
  - eauto.
Qed.

Lemma RateTicket_refused_witness :
  ∃ e, RateTicket 1300 ex_store_1 (id_hex 100) (RateTicketRequest.mk 5 "")
         "carol" = (ex_store_1, Err e).
Proof.
  assert (∃ t, GetTicket ex_store_1 (id_hex 100) = Ok (100%N, t)
               ∧ Ticket.Status t = StatusOpen) as (t & Hget & Hopen).
  { eexists. vm_compute. split; reflexivity. }
  apply (RateTicket_refused 1300 ex_store_1 (id_hex 100)
           (RateTicketRequest.mk 5 "") "carol" 100%N t Hget).
  right. rewrite Hopen. split; discriminate.
Defined.

(** X15. The customer of a resolved or closed ticket can rate it, and can
    do so again: the rating and its time replace what was stored, whatever
    the rating's value; the comment replaces the stored one unless it is
    empty, in which case the stored comment stays although the returned
    ticket shows none. The status stays, and no department, no history
    entry and no agent's workload is written. *)
Theorem RateTicket_rated now s id req userID ticketID ticket :
  GetTicket s id = Ok (ticketID, ticket) →
  Ticket.CustomerID ticket = userID →
  Ticket.Status ticket = StatusResolved ∨ Ticket.Status ticket = StatusClosed →
  ∃ s' ticket' stored,
    RateTicket now s id req userID = (s', Ok (ticketID, ticket'))
    ∧ Ticket.SatisfactionRating ticket' = Some (RateTicketRequest.Rating req)
    ∧ Ticket.SatisfactionComment ticket' = RateTicketRequest.Comment req
    ∧ Store.tickets s' !! ticketID = Some stored
    ∧ Ticket.SatisfactionRating stored = Some (RateTicketRequest.Rating req)
    ∧ Ticket.RatedAt stored = Some now
    ∧ Ticket.SatisfactionComment stored
      = (if String.eqb (RateTicketRequest.Comment req) ""
         then Ticket.SatisfactionComment ticket
         else RateTicketRequest.Comment req)
    ∧ Ticket.Status stored = Ticket.Status ticket
    ∧ Store.departments s' = Store.departments s
    ∧ Store.ticket_history s' = Store.ticket_history s
    ∧ ∀ agentID, stored_current s' agentID = stored_current s agentID.
Proof.
  intros Hget Hown Hstatus.
  destruct (GetTicket_stored _ _ _ _ Hget) as (_ & Hl & _).
  unfold RateTicket. rewrite Hget.
  apply String.eqb_eq in Hown. rewrite Hown. cbn [negb].
  assert (negb (String.eqb (Ticket.Status ticket) StatusResolved)
          && negb (String.eqb (Ticket.Status ticket) StatusClosed) = false)
    as -> by (by destruct Hstatus as [->| ->]).
  unfold ticket_Update. cbn [fst snd].
  set (s1 := Store.set_tickets _ s).
  match goal with
  | |- context [(?sx, Ok (ticketID, ?tx))] => set (s2 := sx)
  end.
  assert (Store.tickets s2 = Store.tickets s1
          ∧ Store.departments s2 = Store.departments s
          ∧ Store.ticket_history s2 = Store.ticket_history s
          ∧ ∀ agentID, stored_current s2 agentID = stored_current s agentID)
    as (Ht & Hd & Hh & Ha).
  { subst s2. cbn.
    destruct (negb (String.eqb (Ticket.AssignedToID ticket) "")); [|done].
    destruct (agent_GetByID s1 _) as [agent|] eqn:Hag; [|done].
    split; [done|]. split; [done|]. split; [done|].
    intros agentID. unfold stored_current, agent_Update. cbn.
    unfold agent_GetByID in Hag. change (Store.agents s1) with (Store.agents s) in Hag.
    destruct (decide (agentID = ObjectIDFromHex_ (Ticket.AssignedToID ticket)))
      as [->|Hne].
    - rewrite lookup_alter_eq.
      destruct (Store.agents s !! _) as [a|]; [|done].
      destruct (Agent.IsDeleted a); [done|]. by simplify_eq.
    - by rewrite lookup_alter_ne. }
  eexists _, _, _. split; [reflexivity|].
  split; [done|]. split; [done|].
  rewrite Ht. subst s1. cbn. rewrite lookup_alter_eq, Hl. cbn.
  split; [reflexivity|]. cbn. unfold keep_string.
  repeat split; done.
Qed.

Lemma RateTicket_rated_witness :
  ∃ s' ticket',
    RateTicket 2500 ex_store_resolved (id_hex 100)
      (RateTicketRequest.mk 4 "Quick") "carol" = (s', Ok (100%N, ticket'))
    ∧ Ticket.SatisfactionRating ticket' = Some 4.
Proof.
  assert (∃ t, GetTicket ex_store_resolved (id_hex 100) = Ok (100%N, t)
               ∧ Ticket.CustomerID t = "carol"
               ∧ Ticket.Status t = StatusResolved) as (t & Hget & Hown & Hres).
  { eexists. vm_compute. repeat split. }
  destruct (RateTicket_rated 2500 ex_store_resolved (id_hex 100)
              (RateTicketRequest.mk 4 "Quick") "carol" 100%N t Hget Hown
              (or_introl Hres))
    as (s' & ticket' & _ & Hr & Hrating & _).
  exists s', ticket'. split; [exact Hr|exact Hrating].
Defined.

(** *** Status changes and the counters *)

(** X16. Closing a resolved ticket, which the customer and the agent may
    both do, counts nothing a second time: no agent and no department is
    written. The stored ticket is closed at the time of the call and keeps
    the time it was resolved. *)
Theorem ChangeStatus_close_resolved now s id req userID userName isAgent
    ticketID ticket :
  GetTicket s id = Ok (ticketID, ticket) →
  Ticket.Status ticket = StatusResolved →
  ChangeStatusRequest.Status req = StatusClosed →
  ∃ s' ticket' stored,
    ChangeStatus now s id req userID userName isAgent
    = (s', Ok (ticketID, ticket'))
    ∧ Store.agents s' = Store.agents s
    ∧ Store.departments s' = Store.departments s
    ∧ Store.tickets s' !! ticketID = Some stored
    ∧ Ticket.Status stored = StatusClosed
    ∧ Ticket.ClosedAt stored = Some now
    ∧ Ticket.ResolvedAt stored = Ticket.ResolvedAt ticket.
Proof.
  intros Hget Hres Hreq.
  destruct (GetTicket_stored _ _ _ _ Hget) as (_ & Hl & _).
  unfold ChangeStatus. rewrite Hget, Hreq, Hres.
  assert (isValidStatusTransition StatusResolved StatusClosed isAgent = true)
    as -> by (by destruct isAgent).
  cbn. eexists _, _, _. split; [reflexivity|]. cbn.
  rewrite lookup_alter_eq, Hl. cbn.
  repeat split; try done.
  apply (keep_option_same (Ticket.ResolvedAt ticket)).
Qed.

Lemma ChangeStatus_close_resolved_witness :
  ∃ s' ticket',
    ChangeStatus 2600 ex_store_resolved (id_hex 100)
      (ChangeStatusRequest.mk StatusClosed "") "carol" "Carol" false
    = (s', Ok (100%N, ticket'))
    ∧ Store.departments s' = Store.departments ex_store_resolved.
Proof.
  assert (∃ t, GetTicket ex_store_resolved (id_hex 100) = Ok (100%N, t)
               ∧ Ticket.Status t = StatusResolved) as (t & Hget & Hres).
  { eexists. vm_compute. split; reflexivity. }
  destruct (ChangeStatus_close_resolved 2600 ex_store_resolved (id_hex 100)
              (ChangeStatusRequest.mk StatusClosed "") "carol" "Carol" false
              100%N t Hget Hres eq_refl)
    as (s' & ticket' & _ & Hr & _ & Hd & _).
  exists s', ticket'. split; [exact Hr|exact Hd].
Defined.

(** X17. A permitted change to a status other than resolved, closed and
    reopened writes the status and nothing of the counters: no agent and no
    department is touched. A customer who cancels an open ticket so leaves
    it counted among the open tickets of its department and in the
    workload of its agent. *)
Theorem ChangeStatus_uncounted now s id req userID userName isAgent
    ticketID ticket :
  GetTicket s id = Ok (ticketID, ticket) →
  isValidStatusTransition (Ticket.Status ticket)
    (ChangeStatusRequest.Status req) isAgent = true →
  ChangeStatusRequest.Status req ≠ StatusResolved →
  ChangeStatusRequest.Status req ≠ StatusClosed →
  ChangeStatusRequest.Status req ≠ StatusReopened →
  ∃ s' ticket' stored,
    ChangeStatus now s id req userID userName isAgent
    = (s', Ok (ticketID, ticket'))
    ∧ Store.agents s' = Store.agents s
    ∧ Store.departments s' = Store.departments s
    ∧ Store.tickets s' !! ticketID = Some stored
    ∧ Ticket.Status stored = ChangeStatusRequest.Status req
    ∧ Ticket.Status ticket' = ChangeStatusRequest.Status req.
Proof.
  intros Hget Hvalid Hres Hclo Hreo.
  destruct (GetTicket_stored _ _ _ _ Hget) as (_ & Hl & _).
  unfold ChangeStatus. rewrite Hget, Hvalid.
  apply String.eqb_neq in Hres, Hclo, Hreo. rewrite Hres, Hclo, Hreo.
  cbn. eexists _, _, _. split; [reflexivity|]. cbn.
  rewrite lookup_alter_eq, Hl. cbn. repeat split.
Qed.

Lemma ChangeStatus_uncounted_witness :
  ∃ s' ticket',
    ChangeStatus 1100 ex_store_1 (id_hex 100)
      (ChangeStatusRequest.mk StatusCancelled "") "carol" "Carol" false
    = (s', Ok (100%N, ticket'))
    ∧ Store.departments s' = Store.departments ex_store_1.
Proof.
  assert (∃ t, GetTicket ex_store_1 (id_hex 100) = Ok (100%N, t)
               ∧ Ticket.Status t = StatusOpen) as (t & Hget & Hopen).
  { eexists. vm_compute. split; reflexivity. }
  destruct (ChangeStatus_uncounted 1100 ex_store_1 (id_hex 100)
              (ChangeStatusRequest.mk StatusCancelled "") "carol" "Carol" false
              100%N t Hget)
    as (s' & ticket' & _ & Hr & _ & Hd & _);
    [rewrite Hopen; reflexivity|discriminate|discriminate|discriminate|].
  exists s', ticket'. split; [exact Hr|exact Hd].
Defined.

(** X18. Reopening. The returned ticket has no resolution and no closing
    time and one reopening more; the stored one is reopened with the same
    count but keeps the times it was resolved and closed, which the update
    leaves out when they are empty. The department of the ticket counts it
    once more as open and once more in its total; no agent is written. *)
Theorem ChangeStatus_reopened now s id req userID userName isAgent
    ticketID ticket :
  GetTicket s id = Ok (ticketID, ticket) →
  isValidStatusTransition (Ticket.Status ticket) StatusReopened isAgent
  = true →
  ChangeStatusRequest.Status req = StatusReopened →
  ∃ s' ticket' stored,
    ChangeStatus now s id req userID userName isAgent
    = (s', Ok (ticketID, ticket'))
    ∧ Ticket.ResolvedAt ticket' = None
    ∧ Ticket.ClosedAt ticket' = None
    ∧ Ticket.ReopenCount ticket' = wrap64 (Ticket.ReopenCount ticket + 1)
    ∧ Store.tickets s' !! ticketID = Some stored
    ∧ Ticket.Status stored = StatusReopened
    ∧ Ticket.ReopenCount stored = wrap64 (Ticket.ReopenCount ticket + 1)
    ∧ Ticket.ResolvedAt stored = Ticket.ResolvedAt ticket
    ∧ Ticket.ClosedAt stored = Ticket.ClosedAt ticket
    ∧ Store.agents s' = Store.agents s
    ∧ Store.departments s'
      = match Ticket.DepartmentID ticket with
        | Some deptID =>
            alter (department_inc now true) deptID (Store.departments s)
        | None => Store.departments s
        end.
Proof.
  intros Hget Hvalid Hreq.
  destruct (GetTicket_stored _ _ _ _ Hget) as (_ & Hl & _).
  unfold ChangeStatus. rewrite Hget, Hreq, Hvalid. cbn [negb].
  match goal with
  | |- context [ (let '(s1, t2) := ?c in _) ] => destruct c as [s1 t2] eqn:Hc
  end.
  change (String.eqb StatusReopened StatusResolved) with false in Hc.
  change (String.eqb StatusReopened StatusClosed) with false in Hc.
  change (String.eqb StatusReopened StatusReopened) with true in Hc.
  cbn beta iota in Hc.
  injection Hc as <- <-.
  unfold ticket_Update. cbn [fst snd].
  eexists _, _, _. split; [reflexivity|].
  split; [reflexivity|]. split; [reflexivity|]. split; [reflexivity|].
  destruct (Ticket.DepartmentID ticket) eqn:Hdept;
    cbn -[wrap64 ticket_bson_set]; rewrite lookup_alter_eq, Hl;
    (split; [reflexivity|]); repeat split; done.
Qed.

Lemma ChangeStatus_reopened_witness :
  ∃ s' ticket' stored,
    ChangeStatus 2700 ex_store_resolved (id_hex 100)
      (ChangeStatusRequest.mk StatusReopened "") "carol" "Carol" false
    = (s', Ok (100%N, ticket'))
    ∧ Ticket.ResolvedAt ticket' = None
    ∧ Store.tickets s' !! 100%N = Some stored
    ∧ Ticket.ResolvedAt stored = Some 2000.
Proof.
  assert (∃ t, GetTicket ex_store_resolved (id_hex 100) = Ok (100%N, t)
               ∧ Ticket.Status t = StatusResolved
               ∧ Ticket.ResolvedAt t = Some 2000) as (t & Hget & Hres & Hat).
  { eexists. vm_compute. repeat split. }
  destruct (ChangeStatus_reopened 2700 ex_store_resolved (id_hex 100)
              (ChangeStatusRequest.mk StatusReopened "") "carol" "Carol" false
              100%N t Hget)
    as (s' & ticket' & stored & Hr & Hnone & _ & _ & Hl & _ & _ & Hkept & _);
    [rewrite Hres; reflexivity|reflexivity|].
  exists s', ticket', stored.
  split; [exact Hr|]. split; [exact Hnone|]. split; [exact Hl|].
  rewrite Hkept. exact Hat.
Defined.

(** *** Transfers and assignments *)

Lemma AssignTicket_departments config now s id req assignedByID
    assignedByName :
  Store.departments
    (AssignTicket config now s id req assignedByID assignedByName).1
  = Store.departments s.
Proof.
  unfold AssignTicket.
  destruct (GetTicket s id) as [[ticketID ticket]|]; [|done].
  destruct (agent_GetByUserID _ _ _) as [[agentID agent]|]; [|done].
  destruct (Agent.MaxTickets agent <=? Agent.CurrentTickets agent); [done|].
  cbn. by destruct (negb (String.eqb (Ticket.AssignedToID ticket) "")).
Qed.

(** X19. What a transfer does to the departments, whatever the status of
    the ticket and whoever is assigned afterwards: the department the ticket
    leaves has one open ticket less unless it had none, the target then has
    one open ticket more and one more in its total, also when the target is
    the department the ticket is already in. *)
Theorem TransferTicket_departments config now s id req userID userName
    ticketID ticket deptID dept :
  GetTicket s id = Ok (ticketID, ticket) →
  ObjectIDFromHex (TransferTicketRequest.DepartmentID req) = Some deptID →
  department_GetByID s deptID = Some dept →
  Store.departments (TransferTicket config now s id req userID userName).1
  = alter (department_inc now true) deptID
      match Ticket.DepartmentID ticket with
      | Some old => alter (department_dec now) old (Store.departments s)
      | None => Store.departments s
      end.
Proof.
  intros Hget Hhex Hdept. unfold TransferTicket.
  rewrite Hget, Hhex, Hdept. unfold ticket_Update. cbn [fst snd].
  set (t2 := Ticket.set_UpdatedAt now _).
  set (s5 := createHistory _ _ _ _ _ _ _ _ _ _ _).
  assert (Store.departments s5
          = alter (department_inc now true) deptID
              match Ticket.DepartmentID ticket with
              | Some old => alter (department_dec now) old (Store.departments s)
              | None => Store.departments s
              end) as Hd5.
  { subst s5. cbn.
    by destruct (Ticket.DepartmentID ticket),
                (negb (String.eqb (Ticket.AssignedToID ticket) "")). }
  clearbody s5 t2.
  destruct (negb (String.eqb (TransferTicketRequest.AssigneeID req) "")).
  - pose proof (AssignTicket_departments config now s5 id
                  (AssignTicketRequest.mk
                     (TransferTicketRequest.AssigneeID req) "")
                  userID userName) as Ha.
    destruct (AssignTicket _ _ _ _ _ _ _) as [s6 r]. cbn in *. congruence.
  - destruct (Config.Ticket_AutoAssignEnabled config); [|done].
    pose proof (autoAssign_departments now s5 ticketID t2) as Ha.
    destruct (autoAssign now s5 ticketID t2) as [s6 t3]. cbn in *. congruence.
Qed.

Lemma TransferTicket_departments_witness :
  stored_open
    (TransferTicket ex_config 3000 ex_store_1 (id_hex 100)
       (TransferTicketRequest.mk (id_hex 2) "" "") "bob" "Bob").1 2%N
  = Some 1.
Proof.
  assert (∃ t, GetTicket ex_store_1 (id_hex 100) = Ok (100%N, t)
               ∧ Ticket.DepartmentID t = Some 1%N) as (t & Hget & Hold).
  { eexists. vm_compute. split; reflexivity. }
  unfold stored_open.
  rewrite (TransferTicket_departments ex_config 3000 ex_store_1 (id_hex 100)
             (TransferTicketRequest.mk (id_hex 2) "" "") "bob" "Bob"
             100%N t 2%N (ex_department "Billing" 0) Hget eq_refl eq_refl).
  rewrite Hold. vm_compute. reflexivity.
Defined.

(** X20. A transfer that names no new assignee, with automatic assignment
    switched off, returns the ticket in the new department and without an
    assignee. The stored ticket is in the new department too, but keeps the
    assignee it had, because the update leaves empty fields out; the agent
    stored under the old assignee's id has been counted down nevertheless. *)
Theorem TransferTicket_assignee_kept config now s id req userID userName
    ticketID ticket deptID dept :
  GetTicket s id = Ok (ticketID, ticket) →
  ObjectIDFromHex (TransferTicketRequest.DepartmentID req) = Some deptID →
  department_GetByID s deptID = Some dept →
  TransferTicketRequest.AssigneeID req = "" →
  Config.Ticket_AutoAssignEnabled config = false →
  ∃ s' ticket' stored,
    TransferTicket config now s id req userID userName
    = (s', Ok (ticketID, ticket'))
    ∧ Ticket.DepartmentID ticket' = Some deptID
    ∧ Ticket.AssignedToID ticket' = ""
    ∧ Ticket.AssignedAt ticket' = None
    ∧ Store.tickets s' !! ticketID = Some stored
    ∧ Ticket.DepartmentID stored = Some deptID
    ∧ Ticket.AssignedToID stored = Ticket.AssignedToID ticket
    ∧ Ticket.AssignedToName stored = Ticket.AssignedToName ticket
    ∧ Ticket.AssignedAt stored = Ticket.AssignedAt ticket
    ∧ Store.agents s'
      = (if negb (String.eqb (Ticket.AssignedToID ticket) "")
         then alter (agent_dec now)
                (ObjectIDFromHex_ (Ticket.AssignedToID ticket))
                (Store.agents s)
         else Store.agents s).
Proof.
  intros Hget Hhex Hdept Hnone Hoff.
  destruct (GetTicket_stored _ _ _ _ Hget) as (_ & Hl & _).
  unfold TransferTicket.
  rewrite Hget, Hhex, Hdept, Hnone, Hoff. unfold ticket_Update.
  cbn [fst snd negb String.eqb].
  eexists _, _, _. split; [reflexivity|].
  split; [reflexivity|]. split; [reflexivity|]. split; [reflexivity|].
  assert (∀ s0 f, Store.tickets s0 = Store.tickets s →
                  alter f ticketID (Store.tickets s0) !! ticketID
                  = Some (f ticket)) as Hstored.
  { intros s0 f ->. by rewrite lookup_alter_eq, Hl. }
  split.
  { cbn [createHistory history_Create Store.tickets Store.set_ticket_history
         Store.set_tickets].
    apply Hstored.
    by destruct (Ticket.DepartmentID ticket),
                (negb (String.eqb (Ticket.AssignedToID ticket) "")). }
  split; [reflexivity|]. split; [reflexivity|]. split; [reflexivity|].
  split; [reflexivity|].
  by destruct (Ticket.DepartmentID ticket),
              (negb (String.eqb (Ticket.AssignedToID ticket) "")).
Qed.

Lemma TransferTicket_assignee_kept_witness :
  ∃ s' ticket' stored,
    TransferTicket ex_config 3000 ex_store_2 (id_hex 100)
      (TransferTicketRequest.mk (id_hex 2) "" "") "bob" "Bob"
    = (s', Ok (100%N, ticket'))
    ∧ Ticket.AssignedToID ticket' = ""
    ∧ Store.tickets s' !! 100%N = Some stored
    ∧ Ticket.AssignedToID stored = id_hex 11.
Proof.
  assert (∃ t, GetTicket ex_store_2 (id_hex 100) = Ok (100%N, t)
               ∧ Ticket.AssignedToID t = id_hex 11) as (t & Hget & Hold).
  { eexists. vm_compute. split; reflexivity. }
  destruct (TransferTicket_assignee_kept ex_config 3000 ex_store_2 (id_hex 100)
              (TransferTicketRequest.mk (id_hex 2) "" "") "bob" "Bob"
              100%N t 2%N (ex_department "Billing" 0) Hget eq_refl eq_refl
              eq_refl eq_refl)
    as (s' & ticket' & stored & Hr & _ & Hnone & _ & Hl & _ & Hkept & _).
  exists s', ticket', stored.
  split; [exact Hr|]. split; [exact Hnone|]. split; [exact Hl|].
  rewrite Hkept. exact Hold.
Defined.

(** X21. A successful assignment. The ticket, returned and stored, carries
    the agent's user id, name and e-mail address, the time and who assigned
    it; a ticket that was open is in progress afterwards and any other
    status stays. The agent found has one ticket more, counted from what is
    stored after the previous assignee was counted down. *)
Theorem AssignTicket_assigned config now s id req assignedByID assignedByName
    ticketID ticket agentID agent :
  GetTicket s id = Ok (ticketID, ticket) →
  agent_GetByUserID s (Ticket.TenantID ticket)
    (AssignTicketRequest.AssigneeID req) = Some (agentID, agent) →
  Agent.CurrentTickets agent < Agent.MaxTickets agent →
  Agent.UserID agent ≠ "" →
  ∃ s' ticket' stored,
    AssignTicket config now s id req assignedByID assignedByName
    = (s', Ok (ticketID, ticket'))
    ∧ Store.tickets s' !! ticketID = Some stored
    ∧ Ticket.AssignedToID ticket' = Agent.UserID agent
    ∧ Ticket.AssignedToID stored = Agent.UserID agent
    ∧ Ticket.AssignedToName ticket' = Agent.Name agent
    ∧ Ticket.AssignedAt stored = Some now
    ∧ Ticket.Status ticket'
      = (if String.eqb (Ticket.Status ticket) StatusOpen
         then StatusInProgress else Ticket.Status ticket)
    ∧ Ticket.Status stored = Ticket.Status ticket'
    ∧ Store.agents s'
      = alter (agent_inc now) agentID
          (if negb (String.eqb (Ticket.AssignedToID ticket) "")
           then alter (agent_dec now)
                  (ObjectIDFromHex_ (Ticket.AssignedToID ticket))
                  (Store.agents s)
           else Store.agents s).
Proof.
  intros Hget Hagent Hroom Huser.
  destruct (GetTicket_stored _ _ _ _ Hget) as (_ & Hl & _).
  unfold AssignTicket. rewrite Hget, Hagent.
  apply Z.leb_gt in Hroom. rewrite Hroom.
  unfold ticket_Update. cbn [fst snd].
  set (s1 := if negb (String.eqb (Ticket.AssignedToID ticket) "")
             then agent_DecrementTicketCount now s
                    (ObjectIDFromHex_ (Ticket.AssignedToID ticket))
             else s).
  assert (Store.tickets s1 = Store.tickets s
          ∧ Store.agents s1
            = (if negb (String.eqb (Ticket.AssignedToID ticket) "")
               then alter (agent_dec now)
                      (ObjectIDFromHex_ (Ticket.AssignedToID ticket))
                      (Store.agents s)
               else Store.agents s)) as [Ht1 Ha1]
    by (subst s1; by destruct (negb _)).
  clearbody s1.
  set (t1 := Ticket.set_LastActivityAt now _).
  set (t2 := match Ticket.FirstResponseDue t1 with
             | Some _ => t1
             | None => calculateSLA config now s1 t1
             end).
  assert (Ticket.Status t2 = Ticket.Status ticket
          ∧ Ticket.AssignedToID t2 = Agent.UserID agent
          ∧ Ticket.AssignedToName t2 = Agent.Name agent
          ∧ Ticket.AssignedAt t2 = Some now) as (Hs2 & Hi2 & Hn2 & Ha2).
  { subst t2. destruct (Ticket.FirstResponseDue t1); [by subst t1|].
    unfold calculateSLA. subst t1. by repeat case_match. }
  clearbody t2. clear t1.
  set (t3 := if String.eqb (Ticket.Status t2) StatusOpen
             then Ticket.set_Status StatusInProgress t2 else t2).
  assert (Ticket.Status t3
          = (if String.eqb (Ticket.Status ticket) StatusOpen
             then StatusInProgress else Ticket.Status ticket)
          ∧ Ticket.AssignedToID t3 = Agent.UserID agent
          ∧ Ticket.AssignedToName t3 = Agent.Name agent
          ∧ Ticket.AssignedAt t3 = Some now) as (Hs3 & Hi3 & Hn3 & Ha3).
  { subst t3. rewrite Hs2.
    by destruct (String.eqb (Ticket.Status ticket) StatusOpen). }
  clearbody t3.
  eexists _, _, _. split; [reflexivity|].
  split. { cbn. rewrite Ht1, lookup_alter_eq, Hl. reflexivity. }
  split; [exact Hi3|].
  split.
  { change (keep_string (Ticket.AssignedToID t3) (Ticket.AssignedToID ticket)
            = Agent.UserID agent).
    rewrite Hi3. unfold keep_string.
    apply String.eqb_neq in Huser. by rewrite Huser. }
  split; [exact Hn3|].
  split. { change (keep_option (Ticket.AssignedAt t3) (Ticket.AssignedAt ticket)
                   = Some now). by rewrite Ha3. }
  split; [exact Hs3|]. split; [reflexivity|].
  cbn. by rewrite Ha1.
Qed.

Lemma AssignTicket_assigned_witness :
  ∃ s' ticket',
    AssignTicket ex_config 1500 ex_store_1 (id_hex 100)
      (AssignTicketRequest.mk (id_hex 11) "") "boss" "Boss"
    = (s', Ok (100%N, ticket'))
    ∧ Ticket.Status ticket' = StatusInProgress.
Proof.
  assert (∃ t, GetTicket ex_store_1 (id_hex 100) = Ok (100%N, t)
               ∧ Ticket.TenantID t = "acme"
               ∧ Ticket.Status t = StatusOpen) as (t & Hget & Hten & Hopen).
  { eexists. vm_compute. repeat split. }
  destruct (AssignTicket_assigned ex_config 1500 ex_store_1 (id_hex 100)
              (AssignTicketRequest.mk (id_hex 11) "") "boss" "Boss"
              100%N t 11%N (ex_agent (id_hex 11) 0 1) Hget)
    as (s' & ticket' & _ & Hr & _ & _ & _ & _ & _ & Hs & _).
  - rewrite Hten. vm_compute. reflexivity.
  - vm_compute. reflexivity.
  - vm_compute. discriminate.
  - exists s', ticket'. split; [exact Hr|]. rewrite Hs, Hopen. reflexivity.
Defined.

(** *** Updates *)

(** A customer cannot update the ticket of another customer: the call
    fails and writes nothing. *)
Lemma UpdateTicket_refused config now s id req userID userName ticketID
    ticket :
  GetTicket s id = Ok (ticketID, ticket) →
  Ticket.CustomerID ticket ≠ userID →
  UpdateTicket config now s id req userID userName false
  = (s, Err "you can only update your own tickets").
Proof.
  intros Hget Hother. unfold UpdateTicket. rewrite Hget.
  apply String.eqb_neq in Hother. by rewrite Hother.
Qed.

Lemma write_changes_frame now ticketID tenantID userID userName changes s :
  Store.tickets (write_changes now ticketID tenantID userID userName changes s)
  = Store.tickets s
  ∧ Store.agents (write_changes now ticketID tenantID userID userName changes s)
    = Store.agents s
  ∧ Store.departments
      (write_changes now ticketID tenantID userID userName changes s)
    = Store.departments s.
Proof.
  unfold write_changes. revert s.
  induction changes as [|[[field old] new] changes IH]; intros s; [done|].
  cbn [foldl]. destruct (IH (createHistory now s ticketID tenantID "updated"
                               field old new userID userName ""))
    as (-> & -> & ->). done.
Qed.

Lemma patch_string_department field get set patch ticket :
  (∀ v t, Ticket.DepartmentID (set v t) = Ticket.DepartmentID t) →
  Ticket.DepartmentID (patch_string field get set patch ticket).1
  = Ticket.DepartmentID ticket.
Proof.
  intros Hset. unfold patch_string. destruct patch as [v|]; [|done].
  destruct (negb (String.eqb v (get ticket))); [apply Hset|done].
Qed.

Lemma patch_priority_department config now s patch ticket :
  Ticket.DepartmentID (patch_priority config now s patch ticket).1
  = Ticket.DepartmentID ticket.
Proof.
  unfold patch_priority. destruct patch as [v|]; [|done].
  destruct (negb (String.eqb v (Ticket.Priority ticket))); [|done].
  cbn [fst].
  pose proof (calculateSLA_same_core config now s
                (Ticket.set_Priority v ticket)) as Hcore.
  unfold same_core in Hcore. destruct_and!.
  match goal with
  | H : Ticket.DepartmentID (calculateSLA _ _ _ _) = _ |- _ => rewrite H
  end.
  reflexivity.
Qed.

Lemma patch_category_department s patch ticket :
  Ticket.DepartmentID (patch_category s patch ticket).1
  = Ticket.DepartmentID ticket.
Proof. unfold patch_category. by repeat case_match. Qed.

Lemma patch_untracked_department {A : Type} (set : A → Ticket.t → Ticket.t)
    patch ticket :
  (∀ v t, Ticket.DepartmentID (set v t) = Ticket.DepartmentID t) →
  Ticket.DepartmentID (patch_untracked set patch ticket)
  = Ticket.DepartmentID ticket.
Proof. intros Hset. destruct patch; [apply Hset|done]. Qed.

(** X22. An update whose patch names another stored department moves the
    ticket there, and that is all it does to the departments: the open
    counts of the department left and of the department entered are not
    written, nor is any agent. *)
Theorem UpdateTicket_moves_uncounted config now s id req userID userName
    isAgent ticketID ticket hex deptID dept :
  GetTicket s id = Ok (ticketID, ticket) →
  isAgent = true ∨ Ticket.CustomerID ticket = userID →
  UpdateTicketRequest.DepartmentID req = Some hex →
  ObjectIDFromHex hex = Some deptID →
  department_GetByID s deptID = Some dept →
  Ticket.DepartmentID ticket ≠ Some deptID →
  ∃ s' ticket' stored,
    UpdateTicket config now s id req userID userName isAgent
    = (s', Ok (ticketID, ticket'))
    ∧ Ticket.DepartmentID ticket' = Some deptID
    ∧ Store.tickets s' !! ticketID = Some stored
    ∧ Ticket.DepartmentID stored = Some deptID
    ∧ Store.departments s' = Store.departments s
    ∧ Store.agents s' = Store.agents s.
Proof.
  intros Hget Hmay Hpatch Hhex Hdept Hnew.
  destruct (GetTicket_stored _ _ _ _ Hget) as (_ & Hl & _).
  unfold UpdateTicket. rewrite Hget.
  assert (negb isAgent && negb (String.eqb (Ticket.CustomerID ticket) userID)
          = false) as ->.
  { destruct Hmay as [->| <-]; [done|].
    rewrite String.eqb_refl. by destruct isAgent. }
  destruct (apply_patch config now s req ticket) as [t9 changes] eqn:Hp.
  assert (Ticket.DepartmentID t9 = Some deptID) as H9.
  { unfold apply_patch in Hp.
    destruct (patch_string "subject" _ _ _ ticket) as [t1 c1] eqn:H1.
    destruct (patch_string "description" _ _ _ t1) as [t2 c2] eqn:H2.
    destruct (patch_string "type" _ _ _ t2) as [t3 c3] eqn:H3.
    destruct (patch_priority config now s _ t3) as [t4 c4] eqn:H4.
    destruct (patch_department s _ t4) as [t5 c5] eqn:H5.
    destruct (patch_category s _ t5) as [t6 c6] eqn:H6.
    injection Hp as <- _.
    rewrite !patch_untracked_department by done.
    apply (f_equal fst) in H1, H2, H3, H4, H5, H6. cbn [fst] in *.
    rewrite <- H6, patch_category_department, <- H5.
    assert (Ticket.DepartmentID t4 = Ticket.DepartmentID ticket) as H4'.
    { rewrite <- H4, patch_priority_department, <- H3,
        patch_string_department, <- H2, patch_string_department, <- H1,
        patch_string_department by done. done. }
    unfold patch_department. rewrite Hpatch, Hhex, Hdept.
    rewrite bool_decide_true by congruence. done. }
  unfold ticket_Update. cbn [fst snd].
  destruct (write_changes_frame now ticketID
              (Ticket.TenantID (Ticket.set_UpdatedAt now t9)) userID userName
              changes
              (Store.set_tickets
                 (alter (ticket_bson_set (Ticket.set_UpdatedAt now t9))
                    ticketID (Store.tickets s)) s)) as (Ht & Ha & Hd).
  eexists _, _, _. split; [reflexivity|].
  split; [exact H9|]. rewrite Ht, Ha, Hd. cbn.
  rewrite lookup_alter_eq, Hl. cbn.
  split; [reflexivity|]. split; [|done].
  change (keep_option (Ticket.DepartmentID t9) (Ticket.DepartmentID ticket)
          = Some deptID). by rewrite H9.
Qed.

Lemma UpdateTicket_moves_uncounted_witness :
  ∃ s' ticket',
    UpdateTicket ex_config 1700 ex_store_1 (id_hex 100) ex_patch_department
      "carol" "Carol" false = (s', Ok (100%N, ticket'))
    ∧ Ticket.DepartmentID ticket' = Some 2%N
    ∧ Store.departments s' = Store.departments ex_store_1.
Proof.
  assert (∃ t, GetTicket ex_store_1 (id_hex 100) = Ok (100%N, t)
               ∧ Ticket.CustomerID t = "carol"
               ∧ Ticket.DepartmentID t = Some 1%N)
    as (t & Hget & Hown & Hold).
  { eexists. vm_compute. repeat split. }
  destruct (UpdateTicket_moves_uncounted ex_config 1700 ex_store_1 (id_hex 100)
              ex_patch_department "carol" "Carol" false 100%N t (id_hex 2)
              2%N (ex_department "Billing" 0) Hget (or_intror Hown) eq_refl
              eq_refl eq_refl)
    as (s' & ticket' & _ & Hr & Hd & _ & _ & Hdep & _).
  - rewrite Hold. discriminate.
  - exists s', ticket'. split; [exact Hr|]. split; [exact Hd|exact Hdep].
Defined.

(** *** The bulk loops *)

Lemma bulk_loop_snoc item ids i s :
  bulk_loop item (ids ++ [i]) s
  = match item (bulk_loop item ids s).1 i with
    | Some s' => (s', (bulk_loop item ids s).2 + 1)
    | None => bulk_loop item ids s
    end.
Proof.
  unfold bulk_loop. rewrite foldl_app. cbn.
  destruct (foldl _ (s, 0) ids) as [s1 n]. cbn. by destruct (item s1 i).
Qed.

(** An invariant of the loop: what holds of the store and the count at the
    start and is kept by every item that succeeds, holds at the end. *)
Lemma bulk_loop_invariant (P : Store.t → Z → Prop) item ids s :
  P s 0 →
  (∀ s0 n i s1, P s0 n → item s0 i = Some s1 → P s1 (n + 1)) →
  P (bulk_loop item ids s).1 (bulk_loop item ids s).2.
Proof.
  intros Hstart Hitem. induction ids as [|i ids IH] using rev_ind; [done|].
  rewrite bulk_loop_snoc.
  destruct (item (bulk_loop item ids s).1 i) as [s1|] eqn:Hi; [|done].
  cbn. by eapply Hitem.
Qed.

Lemma bulk_loop_count item ids s :
  0 ≤ (bulk_loop item ids s).2 ≤ Z.of_nat (length ids).
Proof.
  induction ids as [|i ids IH] using rev_ind; [done|].
  rewrite bulk_loop_snoc, length_app. cbn [length].
  destruct (item (bulk_loop item ids s).1 i); cbn; lia.
Qed.

(** X23. Each of the five bulk operations reports a count between zero and
    the number of ids it was given. *)
Theorem bulk_count_bounds now s tenantID ticketIDs value changedBy
    changedByName :
  let within r := 0 ≤ reported r ≤ Z.of_nat (length ticketIDs) in
  within (BulkAssignTickets now s tenantID ticketIDs value changedBy
            changedByName).2
  ∧ within (BulkChangeStatus now s tenantID ticketIDs value changedBy
              changedByName).2
  ∧ within (BulkChangePriority now s tenantID ticketIDs value changedBy
              changedByName).2
  ∧ within (BulkTransferDepartment now s tenantID ticketIDs value changedBy
              changedByName).2
  ∧ within (BulkDeleteTickets now s tenantID ticketIDs).2.
Proof.
  intros within. subst within. cbn beta.
  unfold BulkAssignTickets, BulkChangeStatus, BulkChangePriority,
    BulkTransferDepartment, BulkDeleteTickets.
  repeat split;
    repeat match goal with
           | |- context [match ?x with _ => _ end] =>
               match x with
               | bulk_loop ?item ticketIDs s =>
                   pose proof (bulk_loop_count item ticketIDs s);
                   destruct (bulk_loop item ticketIDs s)
               | _ => destruct x
               end
           end; cbn in *; lia.
Qed.

(** X24. [BulkAssignTickets] does not ask for the agent's capacity: once
    the agent is found, every listed ticket that is found counts, and the
    agent's stored current count is the old one plus the reported count,
    whatever its maximum. *)
Theorem BulkAssignTickets_counts now s tenantID ticketIDs agentUserID
    changedBy changedByName agentID agent :
  agent_GetByUserID s tenantID agentUserID = Some (agentID, agent) →
  ∃ s' successCount agent',
    BulkAssignTickets now s tenantID ticketIDs agentUserID changedBy
      changedByName = (s', Ok successCount)
    ∧ Store.agents s' !! agentID = Some agent'
    ∧ Agent.CurrentTickets agent'
      = Agent.CurrentTickets agent + successCount
    ∧ Agent.MaxTickets agent' = Agent.MaxTickets agent.
Proof.
  intros Hagent. unfold BulkAssignTickets. rewrite Hagent.
  apply agent_GetByUserID_lookup in Hagent as Hl.
  pose proof (bulk_loop_invariant
                (fun s0 n => ∃ a, Store.agents s0 !! agentID = Some a
                                  ∧ Agent.CurrentTickets a
                                    = Agent.CurrentTickets agent + n
                                  ∧ Agent.MaxTickets a = Agent.MaxTickets agent)
                (BulkAssignTickets_item now agentID agent changedBy
                   changedByName) ticketIDs s) as Hinv.
  destruct (bulk_loop _ ticketIDs s) as [s' n]. cbn [fst snd] in Hinv.
  destruct Hinv as (a & Ha & Hc & Hm).
  - exists agent. split; [done|]. split; [lia|done].
  - intros s0 k i s1 (a & Ha & Hc & Hm) Hi.
    unfold BulkAssignTickets_item in Hi.
    destruct (ObjectIDFromHex i) as [ticketID|]; [|discriminate].
    destruct (ticket_GetByID s0 ticketID) as [ticket|]; [|discriminate].
    injection Hi as <-. cbn. rewrite lookup_alter_eq, Ha. cbn.
    eexists. split; [reflexivity|]. cbn. split; [lia|done].
  - by exists s', n, a.
Qed.

Lemma BulkAssignTickets_counts_witness :
  ∃ s' agent',
    BulkAssignTickets 1500 ex_store_1 "acme" [id_hex 100; id_hex 100]
      (id_hex 11) "boss" "Boss" = (s', Ok 2)
    ∧ Store.agents s' !! 11%N = Some agent'
    ∧ Agent.CurrentTickets agent' = 2
    ∧ Agent.MaxTickets agent' = 1.
Proof.
  destruct (BulkAssignTickets_counts 1500 ex_store_1 "acme"
              [id_hex 100; id_hex 100] (id_hex 11) "boss" "Boss" 11%N
              (ex_agent (id_hex 11) 0 1))
    as (s' & n & agent' & Hr & Hl & Hc & Hm); [vm_compute; reflexivity|].
  assert (n = 2) as ->.
  { apply (f_equal (fun r => reported r.2)) in Hr. vm_compute in Hr.
    congruence. }
  exists s', agent'. split; [exact Hr|]. split; [exact Hl|].
  split; [exact Hc|exact Hm].
Defined.

Lemma BulkDeleteTickets_item_None now tenantID s i :
  BulkDeleteTickets_item now tenantID s i = None
  ↔ bulk_delete_skips tenantID s i.
Proof.
  unfold BulkDeleteTickets_item, bulk_delete_skips.
  destruct (ObjectIDFromHex i) as [ticketID|]; [|by split].
  destruct (ticket_GetByID s ticketID) as [ticket|] eqn:Hget.
  - destruct (String.eqb (Ticket.TenantID ticket) tenantID) eqn:Hten; cbn.
    + apply String.eqb_eq in Hten. split; [done|].
      intros Hskip. by destruct (Hskip ticketID ticket).
    + apply String.eqb_neq in Hten. split; [|done].
      intros _ ? ? [= <-]. rewrite Hget. by intros [= <-].
  - split; [|done]. intros _ ? ? [= <-]. by rewrite Hget.
Qed.

(** A ticket the delete loop has deleted is found no more, and the other
    tickets are found as before. *)
Lemma BulkDeleteTickets_item_found now tenantID s i s' :
  BulkDeleteTickets_item now tenantID s i = Some s' →
  ∃ ticketID,
    ObjectIDFromHex i = Some ticketID
    ∧ ticket_GetByID s' ticketID = None
    ∧ ∀ other, other ≠ ticketID →
        ticket_GetByID s' other = ticket_GetByID s other.
Proof.
  unfold BulkDeleteTickets_item.
  destruct (ObjectIDFromHex i) as [ticketID|]; [|discriminate].
  destruct (ticket_GetByID s ticketID) as [ticket|] eqn:Hget; [|discriminate].
  destruct (negb (String.eqb (Ticket.TenantID ticket) tenantID));
    [discriminate|].
  intros [= <-]. exists ticketID. split; [done|].
  match goal with
  | |- context [ticket_GetByID ?sx ticketID] =>
      assert (Store.tickets sx
              = Store.tickets (ticket_Delete now s ticketID "")) as Ht
  end.
  { destruct (Ticket.DepartmentID ticket),
             (negb (String.eqb (Ticket.AssignedToID ticket) ""));
      cbn; try done;
      by destruct (agent_GetByUserID _ _ _) as [[]|]. }
  unfold ticket_GetByID in *. rewrite Ht. cbn.
  split.
  - rewrite lookup_alter_eq.
    by destruct (Store.tickets s !! ticketID).
  - intros other Hne. by rewrite lookup_alter_ne.
Qed.

Lemma bulk_delete_skips_kept now tenantID s i s' j :
  BulkDeleteTickets_item now tenantID s i = Some s' →
  bulk_delete_skips tenantID s j →
  bulk_delete_skips tenantID s' j.
Proof.
  intros Hi Hskip ticketID ticket Hj Hget.
  destruct (BulkDeleteTickets_item_found _ _ _ _ _ Hi)
    as (deleted & _ & Hgone & Hother).
  destruct (decide (ticketID = deleted)) as [->|Hne]; [congruence|].
  rewrite Hother in Hget by done. by eapply Hskip.
Qed.

Lemma bulk_delete_skips_done now tenantID s i s' :
  BulkDeleteTickets_item now tenantID s i = Some s' →
  bulk_delete_skips tenantID s' i.
Proof.
  intros Hi ticketID ticket Hj Hget.
  destruct (BulkDeleteTickets_item_found _ _ _ _ _ Hi)
    as (deleted & Hhex & Hgone & _).
  congruence.
Qed.

Lemma bulk_loop_all_skipped item ids s :
  Forall (fun i => item s i = None) ids →
  bulk_loop item ids s = (s, 0).
Proof.
  induction ids as [|i ids IH] using rev_ind; [done|].
  intros [Hall Hi%Forall_inv]%Forall_app.
  rewrite bulk_loop_snoc, IH by done. cbn. by rewrite Hi.
Qed.

(** X25. [BulkDeleteTickets] is idempotent: after it has run over a list of
    ids, a second run over the same list, at any time, deletes nothing,
    reports zero and leaves the database as the first run left it. *)
Theorem BulkDeleteTickets_idempotent now now' s tenantID ticketIDs :
  BulkDeleteTickets now'
    (BulkDeleteTickets now s tenantID ticketIDs).1 tenantID ticketIDs
  = ((BulkDeleteTickets now s tenantID ticketIDs).1, Ok 0).
Proof.
  unfold BulkDeleteTickets.
  assert (Forall (bulk_delete_skips tenantID
                    (bulk_loop (BulkDeleteTickets_item now tenantID)
                       ticketIDs s).1) ticketIDs) as Hskips.
  { induction ticketIDs as [|i ids IH] using rev_ind; [constructor|].
    rewrite bulk_loop_snoc.
    destruct (BulkDeleteTickets_item now tenantID
                (bulk_loop (BulkDeleteTickets_item now tenantID) ids s).1 i)
      as [s1|] eqn:Hi.
    - cbn. apply Forall_app. split.
      + eapply Forall_impl; [exact IH|]. intros j.
        by apply (bulk_delete_skips_kept now) with (i := i).
      + constructor; [|constructor]. by eapply bulk_delete_skips_done.
    - apply Forall_app. split; [exact IH|].
      constructor; [|constructor].
      by apply (BulkDeleteTickets_item_None now). }
  destruct (bulk_loop (BulkDeleteTickets_item now tenantID) ticketIDs s)
    as [s' n]. cbn [fst] in *.
  rewrite bulk_loop_all_skipped; [done|].
  eapply Forall_impl; [exact Hskips|]. intros i.
  apply BulkDeleteTickets_item_None.
Qed.

(** *** The rate limiter *)

Lemma admitted_nil config key entries : admitted config key [] entries = 0.
Proof. reflexivity. Qed.

Lemma admitted_cons config key now k requests entries :
  admitted config key ((now, k) :: requests) entries
  = (if bool_decide (k = key) && (Handler config now k entries).2
     then 1 else 0)
    + admitted config key requests (Handler config now k entries).1.
Proof.
  unfold admitted. cbn [serve].
  destruct (Handler config now k entries) as [entries' next]. cbn [fst snd zip].
  cbn [zip_with]. rewrite filter_cons. cbn [fst snd].
  destruct (decide (k = key ∧ next = true)) as [[-> ->]|Hno].
  - rewrite bool_decide_true by done. cbn [length andb]. lia.
  - destruct (bool_decide (k = key)) eqn:Hk, next; cbn [andb]; try lia.
    apply bool_decide_eq_true in Hk. by destruct Hno.
Qed.

Lemma requests_of_cons key now k requests :
  requests_of key ((now, k) :: requests)
  = (if bool_decide (k = key) then 1 else 0) + requests_of key requests.
Proof.
  unfold requests_of. rewrite filter_cons. cbn [snd].
  destruct (decide (k = key)) as [->|Hne].
  - rewrite bool_decide_true by done. cbn [length]. lia.
  - by rewrite bool_decide_false by done.
Qed.

Lemma requests_of_nonneg key requests : 0 ≤ requests_of key requests.
Proof. unfold requests_of. lia. Qed.

Lemma Handler_other_key config now k key entries :
  k ≠ key → (Handler config now k entries).1 !! key = entries !! key.
Proof.
  intros Hne. unfold Handler.
  destruct (entries !! k) as [entry|]; cbn; [|by rewrite lookup_insert_ne].
  destruct (rateLimitEntry.expiresAt entry <? now); cbn;
    [by rewrite lookup_insert_ne|].
  destruct (RateLimitConfig.Max config <=? rateLimitEntry.count entry); cbn;
    [done|by rewrite lookup_insert_ne].
Qed.

Lemma wrap64_small z : - 2 ^ 63 ≤ z < 2 ^ 63 → wrap64 z = z.
Proof. intros Hz. unfold wrap64. rewrite Z.mod_small; lia. Qed.

(** Inside a window: with [c] requests counted so far, as many of the
    requests for the key go on as the maximum leaves room for. *)
Lemma admitted_in_window config key requests :
  RateLimitConfig.Max config < 2 ^ 63 →
  ∀ entries c expiry,
    entries !! key = Some (rateLimitEntry.mk c expiry) →
    1 ≤ c →
    (∀ now, (now, key) ∈ requests → now ≤ expiry) →
    admitted config key requests entries
    = Z.min (requests_of key requests)
        (Z.max 0 (RateLimitConfig.Max config - c)).
Proof.
  intros Hmax. induction requests as [|[now k] requests IH];
    intros entries c expiry Hl Hc Hin.
  - rewrite admitted_nil. unfold requests_of. cbn. lia.
  - rewrite admitted_cons, requests_of_cons.
    pose proof (requests_of_nonneg key requests) as Hn.
    assert (∀ now0, (now0, key) ∈ requests → now0 ≤ expiry) as Hin'.
    { intros now0 H0. apply Hin. by right. }
    destruct (decide (k = key)) as [->|Hne].
    + rewrite bool_decide_true by done. cbn [andb].
      assert (now ≤ expiry) as Hnow by (apply Hin; left).
      unfold Handler. rewrite Hl. cbn [rateLimitEntry.expiresAt
                                       rateLimitEntry.count].
      assert ((expiry <? now) = false) as -> by lia.
      destruct (RateLimitConfig.Max config <=? c) eqn:Hfull; cbn [fst snd].
      * apply Z.leb_le in Hfull.
        rewrite (IH entries c expiry Hl Hc Hin'). lia.
      * apply Z.leb_gt in Hfull. rewrite wrap64_small by lia.
        rewrite (IH _ (c + 1) expiry); [lia| |lia|done].
        by rewrite lookup_insert_eq.
    + rewrite bool_decide_false by done. cbn [andb].
      rewrite (IH _ c expiry); [lia| |done|done].
      by rewrite Handler_other_key.
Qed.

(** X26. One window of the rate limiter. A request for a key that has no
    entry, or whose entry has expired, always goes on, whatever the maximum,
    and opens a window of the configured length; of the requests for that
    key that follow within the window, the first [Max - 1] go on and the
    others are answered 429, however many requests for other keys come in
    between. *)
Theorem rate_limit_window config key t0 requests entries :
  RateLimitConfig.Max config < 2 ^ 63 →
  match entries !! key with
  | Some entry => rateLimitEntry.expiresAt entry < t0
  | None => True
  end →
  (∀ now, (now, key) ∈ requests →
          now ≤ t0 + RateLimitConfig.Expiration config) →
  admitted config key ((t0, key) :: requests) entries
  = 1 + Z.min (requests_of key requests)
          (Z.max 0 (RateLimitConfig.Max config - 1)).
Proof.
  intros Hmax Hstart Hin. rewrite admitted_cons.
  rewrite bool_decide_true by done. cbn [andb].
  assert (Handler config t0 key entries
          = (<[key := rateLimitEntry.mk 1
                         (t0 + RateLimitConfig.Expiration config)]> entries,
             true)) as ->.
  { unfold Handler. destruct (entries !! key) as [entry|]; [|done].
    by assert ((rateLimitEntry.expiresAt entry <? t0) = true) as -> by lia. }
  cbn [fst snd].
  rewrite (admitted_in_window config key requests Hmax _ 1
             (t0 + RateLimitConfig.Expiration config));
    [done| |lia|done].
  by rewrite lookup_insert_eq.
Qed.

Lemma rate_limit_window_witness :
  admitted (RateLimitConfig.mk 2 Minute) "10.0.0.1"
    [(0, "10.0.0.1"); (5, "10.0.0.1"); (6, "10.0.0.2"); (7, "10.0.0.1");
     (8, "10.0.0.1")] ∅
  = 2.
Proof.
  rewrite (rate_limit_window (RateLimitConfig.mk 2 Minute) "10.0.0.1" 0
             [(5, "10.0.0.1"); (6, "10.0.0.2"); (7, "10.0.0.1");
              (8, "10.0.0.1")] ∅).
  - vm_compute. reflexivity.
  - vm_compute. reflexivity.
  - done.
  - intros now Hin. cbn [RateLimitConfig.Expiration]. unfold Minute.
    repeat (apply elem_of_cons in Hin as [Heq|Hin]; [simplify_eq; lia|]).
    by apply elem_of_nil in Hin.
Defined.

Lemma cleanup_agree_from t entries : agree_from t (cleanup t entries) entries.
Proof.
  intros key. unfold cleanup.
  destruct (entries !! key) as [entry|] eqn:Hl.
  - destruct (decide (rateLimitEntry.expiresAt entry < t)) as [Hold|Hnew].
    + right. split; [|by exists entry].
      apply map_lookup_filter_None. right. intros x Hx. simplify_eq. cbn. lia.
    + left. by apply map_lookup_filter_Some.
  - left. apply map_lookup_filter_None. by left.
Qed.

Lemma Handler_agree_from config t now key entries1 entries2 :
  t ≤ now →
  agree_from t entries1 entries2 →
  (Handler config now key entries1).2 = (Handler config now key entries2).2
  ∧ agree_from t (Handler config now key entries1).1
      (Handler config now key entries2).1.
Proof.
  intros Hnow Hagree.
  assert (∀ v1 v2, v1 = v2 →
                   agree_from t (<[key := v1]> entries1)
                     (<[key := v2]> entries2)) as Hins.
  { intros v ? <- k. destruct (decide (k = key)) as [->|Hne].
    - left. by rewrite !lookup_insert_eq.
    - rewrite !lookup_insert_ne by done. apply Hagree. }
  unfold Handler.
  destruct (Hagree key) as [Heq|(Hnone & entry & Hsome & Hold)].
  - rewrite Heq. destruct (entries2 !! key) as [entry|]; cbn; [|by auto].
    destruct (rateLimitEntry.expiresAt entry <? now); cbn; [by auto|].
    destruct (RateLimitConfig.Max config <=? rateLimitEntry.count entry);
      cbn; by auto.
  - rewrite Hnone, Hsome.
    assert ((rateLimitEntry.expiresAt entry <? now) = true) as -> by lia.
    cbn. by auto.
Qed.

(** X27. A round of [cleanup] is not seen by later requests: with the clock
    not running backwards, every request after it gets the answer it would
    have got without it. *)
Theorem cleanup_unobservable config t requests entries :
  (∀ now key, (now, key) ∈ requests → t ≤ now) →
  serve config requests (cleanup t entries) = serve config requests entries.
Proof.
  intros Hlater.
  assert (∀ entries1 entries2,
            agree_from t entries1 entries2 →
            serve config requests entries1 = serve config requests entries2)
    as Hserve.
  { induction requests as [|[now key] requests IH]; intros e1 e2 Hagree;
      [done|].
    cbn [serve].
    destruct (Handler_agree_from config t now key e1 e2) as [Hnext Hagree'];
      [apply (Hlater now key); left|done|].
    destruct (Handler config now key e1) as [e1' n1],
             (Handler config now key e2) as [e2' n2].
    cbn [fst snd] in *. subst n2. f_equal.
    apply IH; [|done]. intros now0 k0 H0. apply (Hlater now0 k0). by right. }
  apply Hserve, cleanup_agree_from.
Qed.

Lemma cleanup_unobservable_witness :
  serve DefaultRateLimitConfig [(100, "10.0.0.1"); (101, "10.0.0.1")]
    (cleanup 50 (<["10.0.0.1" := rateLimitEntry.mk 100 20]> ∅))
  = [true; true].
Proof.
  rewrite (cleanup_unobservable DefaultRateLimitConfig 50
             [(100, "10.0.0.1"); (101, "10.0.0.1")]
             (<["10.0.0.1" := rateLimitEntry.mk 100 20]> ∅)).
  - vm_compute. reflexivity.
  - intros now key Hin.
    repeat (apply elem_of_cons in Hin as [Heq|Hin]; [simplify_eq; lia|]).
    by apply elem_of_nil in Hin.
Defined.

(** *** Roles and permissions *)

Lemma has_role_elem_of userRoles requiredRole :
  existsb (fun userRole => String.eqb userRole requiredRole) userRoles = true
  ↔ requiredRole ∈ userRoles.
Proof.
  rewrite existsb_exists. split.
  - intros (x & Hin & ->%String.eqb_eq). by apply list_elem_of_In.
  - intros Hin. exists requiredRole. split; [by apply list_elem_of_In|].
    apply String.eqb_refl.
Qed.

(** X28. The two checks. [RequireRole] lets a request pass exactly when
    its context has a role list that shares a role with the required ones;
    [RequirePermission] exactly when its context has a permission list that
    holds every required permission, so with nothing required a request
    without a list is still refused. Whoever passes the admin check passes
    the agent check. *)
Theorem role_checks roles permissions (granted : option (list string)) :
  (RequireRole roles granted = true
   ↔ ∃ userRoles role,
       granted = Some userRoles ∧ role ∈ roles ∧ role ∈ userRoles)
  ∧ (RequirePermission permissions granted = true
     ↔ ∃ userPermissions,
         granted = Some userPermissions
         ∧ ∀ permission, permission ∈ permissions →
                         permission ∈ userPermissions)
  ∧ RequirePermission [] None = false
  ∧ (AdminMiddleware granted = true → AgentMiddleware granted = true).
Proof.
  assert (∀ rs, RequireRole rs granted = true
                ↔ ∃ userRoles role,
                    granted = Some userRoles ∧ role ∈ rs ∧ role ∈ userRoles)
    as Hrole.
  { intros rs. unfold RequireRole. destruct granted as [userRoles|].
    - rewrite existsb_exists. split.
      + intros (role & Hin & Hhas). exists userRoles, role.
        split; [done|]. split; [by apply list_elem_of_In|].
        by apply has_role_elem_of.
      + intros (? & role & [= <-] & Hin & Hhas). exists role.
        split; [by apply list_elem_of_In|]. by apply has_role_elem_of.
    - split; [done|]. by intros (? & ? & ? & _). }
  split; [apply Hrole|]. split; [|split; [done|]].
  - unfold RequirePermission. destruct granted as [userPermissions|].
    + rewrite forallb_forall. split.
      * intros Hall. exists userPermissions. split; [done|].
        intros permission Hin. apply has_role_elem_of, Hall.
        by apply list_elem_of_In.
      * intros (? & [= <-] & Hall) permission Hin.
        apply has_role_elem_of, Hall. by apply list_elem_of_In.
    + split; [done|]. by intros (? & ? & _).
  - unfold AdminMiddleware, AgentMiddleware. rewrite !Hrole.
    intros (userRoles & role & Hg & Hin & Hhas).
    exists userRoles, role. split; [done|]. split; [|done]. by right.
Qed.

(** *** SLA policies *)

(** X29. [DeleteSLAPolicy] never removes a default policy, so a tenant for
    which a default policy is found has one found afterwards too; and it
    writes nothing but the policies: no ticket and no department, also not
    the departments that name the deleted policy. *)
Theorem DeleteSLAPolicy_default_kept s id :
  let s' := (DeleteSLAPolicy s id).1 in
  (∀ policyID policy,
     Store.sla_policies s !! policyID = Some policy →
     SLAPolicy.IsDefault policy = true →
     Store.sla_policies s' !! policyID = Some policy)
  ∧ (∀ tenantID, is_Some (sla_GetDefault s tenantID) →
                 is_Some (sla_GetDefault s' tenantID))
  ∧ Store.departments s' = Store.departments s
  ∧ Store.tickets s' = Store.tickets s.
Proof.
  intros s'.
  assert (∀ policyID policy,
            Store.sla_policies s !! policyID = Some policy →
            SLAPolicy.IsDefault policy = true →
            Store.sla_policies s' !! policyID = Some policy) as Hkept.
  { intros policyID policy Hl Hdef. subst s'. unfold DeleteSLAPolicy.
    destruct (GetSLAPolicy s id) as [[pid p]|] eqn:Hget; [|done].
    destruct (SLAPolicy.IsDefault p) eqn:Hp; [done|]. cbn.
    rewrite lookup_delete_ne; [done|]. intros <-.
    unfold GetSLAPolicy, sla_GetByID in Hget.
    destruct (ObjectIDFromHex id) as [slaID|]; [|done].
    destruct (Store.sla_policies s !! slaID) eqn:Hs; [|done].
    simplify_eq. congruence. }
  split; [exact Hkept|]. split.
  - intros tenantID [[policyID policy] Hfound].
    unfold sla_GetDefault in *.
    apply find_some in Hfound as [Hin Hp].
    apply list_elem_of_In, elem_of_map_to_list in Hin.
    destruct (find _ (map_to_list (Store.sla_policies s'))) eqn:Hnone; [done|].
    exfalso.
    assert (In (policyID, policy) (map_to_list (Store.sla_policies s')))
      as Hin'.
    { apply list_elem_of_In, elem_of_map_to_list. apply Hkept; [done|].
      by apply andb_prop in Hp as [[_ ?]%andb_prop _]. }
    pose proof (find_none _ _ Hnone (policyID, policy) Hin') as Hno.
    cbn beta iota in Hno. congruence.
  - subst s'. unfold DeleteSLAPolicy.
    destruct (GetSLAPolicy s id) as [[pid p]|]; [|done].
    by destruct (SLAPolicy.IsDefault p).
Qed.

(** X30. After a policy has been deleted, a ticket of a department that
    names it is given the tenant's default policy by [calculateSLA], or the
    configured hours where the tenant has none. *)
Theorem DeleteSLAPolicy_fallback s id policyID policy ticket deptID dept :
  GetSLAPolicy s id = Ok (policyID, policy) →
  SLAPolicy.IsDefault policy = false →
  Ticket.DepartmentID ticket = Some deptID →
  department_GetByID s deptID = Some dept →
  Department.SLAPolicyID dept = Some policyID →
  ∃ s',
    DeleteSLAPolicy s id = (s', Ok tt)
    ∧ sla_GetByID s' policyID = None
    ∧ resolve_policy s ticket = Some (policyID, policy)
    ∧ resolve_policy s' ticket = sla_GetDefault s' (Ticket.TenantID ticket).
Proof.
  intros Hget Hdefault Hdept Hfound Hnamed.
  unfold DeleteSLAPolicy. rewrite Hget, Hdefault.
  eexists. split; [reflexivity|].
  assert (sla_GetByID (sla_Delete s policyID) policyID = None) as Hgone.
  { unfold sla_GetByID, sla_Delete. cbn. by rewrite lookup_delete_eq. }
  split; [exact Hgone|].
  unfold resolve_policy. rewrite Hdept.
  change (department_GetByID (sla_Delete s policyID))
    with (department_GetByID s).
  rewrite Hfound, Hnamed, Hgone. split; [|done].
  unfold GetSLAPolicy in Hget.
  destruct (ObjectIDFromHex id) as [slaID|]; [|done].
  destruct (sla_GetByID s slaID) as [[pid p]|] eqn:Hs; [|done].
  simplify_eq. unfold sla_GetByID in Hs.
  destruct (Store.sla_policies s !! slaID) eqn:Hl; [|done]. simplify_eq.
  unfold sla_GetByID. by rewrite Hl.
Qed.

Lemma DeleteSLAPolicy_fallback_witness :
  ∃ s',
    DeleteSLAPolicy ex_store_sla (id_hex 20) = (s', Ok tt)
    ∧ resolve_policy s' (Ticket.set_DepartmentID (Some 1%N) ex_new_ticket)
      = Some (21%N, SLAPolicy.mk "acme" true true []).
Proof.
  destruct (DeleteSLAPolicy_fallback ex_store_sla (id_hex 20) 20%N
              (SLAPolicy.mk "acme" false true [])
              (Ticket.set_DepartmentID (Some 1%N) ex_new_ticket) 1%N
              {| Department.TenantID := "acme";
                 Department.Name := "Support";
                 Department.SLAPolicyID := Some 20%N;
                 Department.OpenTickets := 0;
                 Department.TotalTickets := 0;
                 Department.UpdatedAt := 0;
                 Department.IsDeleted := false |})
    as (s' & Hdel & _ & _ & Hres); try (vm_compute; reflexivity).
  exists s'. split; [exact Hdel|]. rewrite Hres.
  apply (f_equal fst) in Hdel. cbn [fst] in Hdel. rewrite <- Hdel.
  vm_compute. reflexivity.
Defined.
